(** * RemindME (LocationReminder): reminder store, geofence trigger pipeline
      and notification dispatch

    A shallow embedding of the TypeScript services of the application
    (DatabaseService, NotificationService, LocationService) and of the radius
    entry of EditReminderScreen, followed by the properties the specification
    states about them.

    Asynchronous functions are run to completion one after the other: a
    rejected promise is a thrown error, [await] is sequencing.  What the host
    decides (whether a platform call is rejected, how much time passes, what
    [Math.random] draws, what the geocoder answers) is read from a [Platform]
    record, and every theorem quantifies over it. *)

From Stdlib Require Import ZArith NArith List String Ascii Bool Lia.
From Stdlib Require Import Floats.SpecFloat DecimalString.
From Stdlib Require Import Sorting.Sorted Sorting.Permutation.
Import ListNotations.
Local Open Scope string_scope.
Local Open Scope Z_scope.

(** ** JavaScript numbers and strings *)

Module JS.

(** A JavaScript number is an IEEE-754 binary64 datum. *)
Definition number : Type := spec_float.

(** The number nearest to an integer (round to nearest, ties to even). *)
Definition ofZ (z : Z) : number := binary_normalize 53 1024 z 0 false.

Definition NaN : number := S754_nan.

(** [Number.isFinite(x)] *)
Definition isFinite (x : number) : bool :=
  match x with
  | S754_zero _ | S754_finite _ _ _ => true
  | _ => false
  end.

(** [ToBoolean] on numbers: [+0], [-0] and [NaN] are falsy. *)
Definition truthy (x : number) : bool :=
  match x with
  | S754_zero _ | S754_nan => false
  | _ => true
  end.


(** [a < b] and [a > b]; both are false when an operand is [NaN]. *)
Definition lt (a b : number) : bool := SFltb a b.
Definition gt (a b : number) : bool := SFltb b a.

(** [a <= b] as a proposition-friendly boolean, used to state ranges. *)
Definition le (a b : number) : bool := SFleb a b.



(** Strings are sequences of code units; the code units modelled are those
    below 256. *)

(** White space and line terminators (TAB, LF, VT, FF, CR, SP, NBSP). *)
Definition isWhiteSpace (c : ascii) : bool :=
  let n := N_of_ascii c in
  ((9 <=? n) && (n <=? 13) || (n =? 32) || (n =? 160))%N.

Fixpoint trimStart (s : string) : string :=
  match s with
  | String c s' => if isWhiteSpace c then trimStart s' else s
  | EmptyString => EmptyString
  end.

Fixpoint trimEnd (s : string) : string :=
  match s with
  | String c s' =>
      match trimEnd s' with
      | EmptyString => if isWhiteSpace c then EmptyString else String c EmptyString
      | t => String c t
      end
  | EmptyString => EmptyString
  end.

(** [s.trim()] *)
Definition trim (s : string) : string := trimEnd (trimStart s).

(** [ToBoolean] on strings: only the empty string is falsy. *)
Definition nonEmpty (s : string) : bool :=
  match s with
  | EmptyString => false
  | _ => true
  end.




(** Decimal digits of a natural integer ("0" for zero). *)
Definition digits (n : Z) : string :=
  NilZero.string_of_uint (N.to_uint (Z.to_N n)).

Fixpoint zeros (k : nat) : string :=
  match k with
  | O => EmptyString
  | S k' => String "0" (zeros k')
  end.

(** [digits n] padded with leading zeros to at least [width] characters. *)
Definition padStart (width : nat) (n : Z) : string :=
  let d := digits n in
  zeros (width - String.length d) ++ d.

(** The integer [n] for which [n / 10^f - m * 2^e] is closest to zero, the
    larger one when there are two. *)
Definition scaledNearest (m : positive) (e : Z) (f : nat) : Z :=
  let k := Z.pos m * 10 ^ Z.of_nat f in
  if 0 <=? e then k * 2 ^ e
  else (2 * k + 2 ^ (- e)) / 2 ^ (- e + 1).

(** Whether [10^21 <= m * 2^e]. *)
Definition atLeast1e21 (m : positive) (e : Z) : bool :=
  if 0 <=? e then 10 ^ 21 <=? Z.pos m * 2 ^ e
  else 10 ^ 21 * 2 ^ (- e) <=? Z.pos m.

(** [x.toFixed(f)] for [0 <= f <= 100].  Magnitudes of [10^21] and more are
    rendered by [Number::toString], which is taken as the argument
    [numberToString]. *)
Definition toFixed (numberToString : number -> string) (f : nat) (x : number)
  : string :=
  let point (n : Z) :=
    let m := padStart (f + 1) n in
    match f with
    | O => m
    | _ =>
        let k := String.length m in
        substring 0 (k - f) m ++ "." ++ substring (k - f) f m
    end in
  match x with
  | S754_nan => "NaN"
  | S754_infinity false => "Infinity"
  | S754_infinity true => "-Infinity"
  | S754_zero _ => point 0
  | S754_finite s m e =>
      (if s then "-" else "") ++
      (if atLeast1e21 m e then numberToString (S754_finite false m e)
       else point (scaledNearest m e f))
  end.

(** Calendar date of a day number counted from 1970-01-01. *)
Definition civilFromDays (day : Z) : Z * Z * Z :=
  let z := day + 719468 in
  let era := z / 146097 in
  let doe := z - era * 146097 in
  let yoe := (doe - doe / 1460 + doe / 36524 - doe / 146096) / 365 in
  let doy := doe - (365 * yoe + yoe / 4 - yoe / 100) in
  let mp := (5 * doy + 2) / 153 in
  let d := doy - (153 * mp + 2) / 5 + 1 in
  let m := if mp <? 10 then mp + 3 else mp - 9 in
  let y := yoe + era * 400 in
  (if m <=? 2 then y + 1 else y, m, d).

(** [new Date(t).toISOString()] for a time value [t] in milliseconds since
    the epoch. *)
Definition toISOString (t : Z) : string :=
  let '(y, m, d) := civilFromDays (t / 86400000) in
  let ms := t mod 86400000 in
  let year :=
    if (0 <=? y) && (y <=? 9999) then padStart 4 y
    else (if y <? 0 then "-" else "+") ++ padStart 6 (Z.abs y) in
  year ++ "-" ++ padStart 2 m ++ "-" ++ padStart 2 d ++ "T" ++
  padStart 2 (ms / 3600000) ++ ":" ++ padStart 2 (ms / 60000 mod 60) ++ ":" ++
  padStart 2 (ms / 1000 mod 60) ++ "." ++ padStart 3 (ms mod 1000) ++ "Z".

(** [t.toString()] for an integral time value. *)
Definition integerToString (t : Z) : string :=
  NilZero.string_of_int (Z.to_int t).

End JS.

(** ** Data model (types/index.ts) *)

Module Reminder.
Record t : Type := mk {
    id : string;
    title : string;
    description : option string;
    latitude : JS.number;
    longitude : JS.number;
    radius : JS.number;
    address : option string;
    isActive : bool;
    notificationTitle : string;
    notificationBody : string;
    createdAt : string;
    triggeredAt : option string
  }.
End Reminder.

(** [Omit<Reminder, 'id' | 'createdAt'>], the argument of [addReminder]. *)
Module NewReminder.
Record t : Type := mk {
    title : string;
    description : option string;
    latitude : JS.number;
    longitude : JS.number;
    radius : JS.number;
    address : option string;
    isActive : bool;
    notificationTitle : string;
    notificationBody : string;
    triggeredAt : option string
  }.
End NewReminder.

Module GeofenceRegion.
Record t : Type := mk {
    identifier : string;
    latitude : JS.number;
    longitude : JS.number;
    radius : JS.number
  }.
End GeofenceRegion.

(** The keys of [Reminder], which are also the columns of the table. *)
Module Column.
Inductive t : Type :=
  | id | title | description | latitude | longitude | radius | address
  | isActive | notificationTitle | notificationBody | createdAt | triggeredAt.

Definition eqb (a b : t) : bool :=
    match a, b with
    | id, id | title, title | description, description | latitude, latitude
    | longitude, longitude | radius, radius | address, address
    | isActive, isActive | notificationTitle, notificationTitle
    | notificationBody, notificationBody | createdAt, createdAt
    | triggeredAt, triggeredAt => true
    | _, _ => false
    end.
Arguments eqb !a !b.

(** The column's name in the table's declaration. *)
Definition name (c : t) : string :=
    match c with
    | id => "id"
    | title => "title"
    | description => "description"
    | latitude => "latitude"
    | longitude => "longitude"
    | radius => "radius"
    | address => "address"
    | isActive => "isActive"
    | notificationTitle => "notificationTitle"
    | notificationBody => "notificationBody"
    | createdAt => "createdAt"
    | triggeredAt => "triggeredAt"
    end.
End Column.

(** One element of [Object.entries(updates)] for [updates : Partial<Reminder>]:
    a key of [Reminder] with a value of the key's type, [None] when the key is
    present with the value [undefined]. *)
Module Entry.
Inductive t : Type :=
  | id (value : option string)
  | title (value : option string)
  | description (value : option string)
  | latitude (value : option JS.number)
  | longitude (value : option JS.number)
  | radius (value : option JS.number)
  | address (value : option string)
  | isActive (value : option bool)
  | notificationTitle (value : option string)
  | notificationBody (value : option string)
  | createdAt (value : option string)
  | triggeredAt (value : option string).

Definition key (e : t) : Column.t :=
    match e with
    | id _ => Column.id
    | title _ => Column.title
    | description _ => Column.description
    | latitude _ => Column.latitude
    | longitude _ => Column.longitude
    | radius _ => Column.radius
    | address _ => Column.address
    | isActive _ => Column.isActive
    | notificationTitle _ => Column.notificationTitle
    | notificationBody _ => Column.notificationBody
    | createdAt _ => Column.createdAt
    | triggeredAt _ => Column.triggeredAt
    end.
End Entry.

(** ** Errors, completions and the console *)

Record Error : Type := mkError { message : string }.

(** How an awaited call completes. *)
Inductive Completion (A : Type) : Type :=
| Resolved (a : A)
| Rejected (e : Error).
Arguments Resolved {A} a.
Arguments Rejected {A} e.

Inductive Level : Type := LOG | WARN | ERROR.

(** A console line: its level, its first argument and the error object
    passed with it, if any. *)
Record LogEntry : Type := mkLog {
  level : Level;
  text : string;
  cause : option Error
}.

(** ** The embedded SQL table *)

Module SQLite.

(** A bound parameter, which is also what a column holds. *)
Inductive BindValue : Type :=
| Null
| Number (n : JS.number)
| Text (s : string).

(** A row of [reminders], typed by the table's declaration: [TEXT] columns
    hold strings, [REAL] and [INTEGER] columns hold numbers, and the columns
    that are not declared [NOT NULL] may be empty. *)
Module Row.
Record t : Type := mk {
    id : string;
    title : string;
    description : option string;
    latitude : JS.number;
    longitude : JS.number;
    radius : JS.number;
    address : option string;
    isActive : JS.number;
    notificationTitle : string;
    notificationBody : string;
    createdAt : string;
    triggeredAt : option string
  }.
End Row.

Definition Table : Type := list Row.t.

Definition ofOption (o : option string) : BindValue :=
  match o with
  | Some s => Text s
  | None => Null
  end.

(** The content of a column of a row. *)
Definition cell (c : Column.t) (r : Row.t) : BindValue :=
  match c with
  | Column.id => Text (Row.id r)
  | Column.title => Text (Row.title r)
  | Column.description => ofOption (Row.description r)
  | Column.latitude => Number (Row.latitude r)
  | Column.longitude => Number (Row.longitude r)
  | Column.radius => Number (Row.radius r)
  | Column.address => ofOption (Row.address r)
  | Column.isActive => Number (Row.isActive r)
  | Column.notificationTitle => Text (Row.notificationTitle r)
  | Column.notificationBody => Text (Row.notificationBody r)
  | Column.createdAt => Text (Row.createdAt r)
  | Column.triggeredAt => ofOption (Row.triggeredAt r)
  end.

Definition constraintFailed (c : Column.t) : Error :=
  mkError ("NOT NULL constraint failed: reminders." ++ Column.name c).
Definition uniqueFailed : Error :=
  mkError "UNIQUE constraint failed: reminders.id".
Definition mismatch : Error :=
  mkError "datatype mismatch".
Definition noSuchTable : Error :=
  mkError "no such table: reminders".
Definition badBindCount : Error :=
  mkError "bind parameter count mismatch".

(** What the engine keeps of a number.  A number whose value is an integer
    is stored as an integer, in the [REAL] columns as in the [INTEGER] ones,
    by which the sign of a zero is lost: [-0] is read back as [0].  Every
    other number is read back as it was bound. *)
Definition kept (n : JS.number) : JS.number :=
  match n with
  | S754_zero _ => S754_zero false
  | _ => n
  end.

(** What a column holds after a value was bound to it. *)
Definition keptValue (v : BindValue) : BindValue :=
  match v with
  | Number n => Number (kept n)
  | _ => v
  end.

(** Storing into a [TEXT NOT NULL] column, a [TEXT] column and a numeric
    [NOT NULL] column.  A [NaN] is bound as [NULL], and a [NULL] is refused
    with the message that names the column.  The service binds strings to
    text columns (to [id] always a string) and numbers to numeric ones; a
    value of another class is refused here. *)
Definition toText (c : Column.t) (v : BindValue) : Completion string :=
  match v with
  | Text s => Resolved s
  | Null => Rejected (constraintFailed c)
  | Number _ => Rejected mismatch
  end.

Definition toOptionalText (v : BindValue) : Completion (option string) :=
  match v with
  | Text s => Resolved (Some s)
  | Null => Resolved None
  | Number _ => Rejected mismatch
  end.

Definition toNumber (c : Column.t) (v : BindValue) : Completion JS.number :=
  match v with
  | Number S754_nan => Rejected (constraintFailed c)
  | Number n => Resolved (kept n)
  | Null => Rejected (constraintFailed c)
  | Text _ => Rejected mismatch
  end.

Definition andThen {A B : Type} (c : Completion A) (k : A -> Completion B)
  : Completion B :=
  match c with
  | Resolved a => k a
  | Rejected e => Rejected e
  end.

(** [SET c = ?] on one row. *)
Definition setCell (c : Column.t) (v : BindValue) (r : Row.t)
  : Completion Row.t :=
  let '(Row.mk i ti de la lo ra ad ac nt nb cr tr) := r in
  match c with
  | Column.id =>
      andThen (toText Column.id v) (fun x => Resolved (Row.mk x ti de la lo ra ad ac nt nb cr tr))
  | Column.title =>
      andThen (toText Column.title v) (fun x => Resolved (Row.mk i x de la lo ra ad ac nt nb cr tr))
  | Column.description =>
      andThen (toOptionalText v) (fun x => Resolved (Row.mk i ti x la lo ra ad ac nt nb cr tr))
  | Column.latitude =>
      andThen (toNumber Column.latitude v) (fun x => Resolved (Row.mk i ti de x lo ra ad ac nt nb cr tr))
  | Column.longitude =>
      andThen (toNumber Column.longitude v) (fun x => Resolved (Row.mk i ti de la x ra ad ac nt nb cr tr))
  | Column.radius =>
      andThen (toNumber Column.radius v) (fun x => Resolved (Row.mk i ti de la lo x ad ac nt nb cr tr))
  | Column.address =>
      andThen (toOptionalText v) (fun x => Resolved (Row.mk i ti de la lo ra x ac nt nb cr tr))
  | Column.isActive =>
      andThen (toNumber Column.isActive v) (fun x => Resolved (Row.mk i ti de la lo ra ad x nt nb cr tr))
  | Column.notificationTitle =>
      andThen (toText Column.notificationTitle v) (fun x => Resolved (Row.mk i ti de la lo ra ad ac x nb cr tr))
  | Column.notificationBody =>
      andThen (toText Column.notificationBody v) (fun x => Resolved (Row.mk i ti de la lo ra ad ac nt x cr tr))
  | Column.createdAt =>
      andThen (toText Column.createdAt v) (fun x => Resolved (Row.mk i ti de la lo ra ad ac nt nb x tr))
  | Column.triggeredAt =>
      andThen (toOptionalText v) (fun x => Resolved (Row.mk i ti de la lo ra ad ac nt nb cr x))
  end.

Fixpoint setCells (sets : list (Column.t * BindValue)) (r : Row.t)
  : Completion Row.t :=
  match sets with
  | [] => Resolved r
  | (c, v) :: rest => andThen (setCell c v r) (setCells rest)
  end.

(** [SELECT * FROM reminders WHERE id = ?], first row. *)
Fixpoint selectById (key : string) (t : Table) : option Row.t :=
  match t with
  | [] => None
  | r :: rest => if String.eqb (Row.id r) key then Some r else selectById key rest
  end.

(** [INSERT INTO reminders (id, title, description, latitude, longitude,
    radius, address, isActive, notificationTitle, notificationBody, createdAt)
    VALUES (?, ?, ?, ?, ?, ?, ?, ?, ?, ?, ?)]; [triggeredAt] takes its
    default, [NULL]. *)
Definition insert (params : list BindValue) (t : Table) : Completion Table :=
  match params with
  | [i; ti; de; la; lo; ra; ad; ac; nt; nb; cr] =>
      andThen (toText Column.id i) (fun i =>
      andThen (toText Column.title ti) (fun ti =>
      andThen (toOptionalText de) (fun de =>
      andThen (toNumber Column.latitude la) (fun la =>
      andThen (toNumber Column.longitude lo) (fun lo =>
      andThen (toNumber Column.radius ra) (fun ra =>
      andThen (toOptionalText ad) (fun ad =>
      andThen (toNumber Column.isActive ac) (fun ac =>
      andThen (toText Column.notificationTitle nt) (fun nt =>
      andThen (toText Column.notificationBody nb) (fun nb =>
      andThen (toText Column.createdAt cr) (fun cr =>
      match selectById i t with
      | Some _ => Rejected uniqueFailed
      | None =>
          Resolved (t ++ [Row.mk i ti de la lo ra ad ac nt nb cr None])%list
      end)))))))))))
  | _ => Rejected badBindCount
  end.

Fixpoint updateRows (sets : list (Column.t * BindValue)) (key : string)
  (t : Table) : Completion Table :=
  match t with
  | [] => Resolved []
  | r :: rest =>
      andThen (if String.eqb (Row.id r) key then setCells sets r else Resolved r)
        (fun r' => andThen (updateRows sets key rest)
                     (fun rest' => Resolved (r' :: rest')))
  end.

Fixpoint uniqueIds (t : Table) : bool :=
  match t with
  | [] => true
  | r :: rest =>
      match selectById (Row.id r) rest with
      | Some _ => false
      | None => uniqueIds rest
      end
  end.

(** [UPDATE reminders SET c1 = ?, ..., cn = ? WHERE id = ?] with the values
    followed by the key as parameters.  The statement is atomic: when a
    constraint fails the table is left as it was. *)
Definition update (fields : list Column.t) (params : list BindValue)
  (t : Table) : Completion Table :=
  let n := List.length fields in
  if negb (Nat.eqb (List.length params) (S n)) then Rejected badBindCount
  else
    match nth n params Null with
    | Text key =>
        andThen (updateRows (combine fields (firstn n params)) key t)
          (fun t' =>
             if existsb (Column.eqb Column.id) fields && negb (uniqueIds t')
             then Rejected uniqueFailed
             else Resolved t')
    | _ => Resolved t
    end.

(** [DELETE FROM reminders WHERE id = ?] *)
Definition delete (key : string) (t : Table) : Table :=
  filter (fun r => negb (String.eqb (Row.id r) key)) t.

(** [ORDER BY createdAt DESC], by insertion. *)
Fixpoint insertByCreatedAtDesc (r : Row.t) (t : Table) : Table :=
  match t with
  | [] => [r]
  | r' :: rest =>
      match String.compare (Row.createdAt r) (Row.createdAt r') with
      | Lt => r' :: insertByCreatedAtDesc r rest
      | _ => r :: t
      end
  end.

Definition orderByCreatedAtDesc (t : Table) : Table :=
  fold_right insertByCreatedAtDesc [] t.

End SQLite.

(** ** The host: platform services, clock and console *)

(** [Notifications.scheduleNotificationAsync]'s request: the content's title
    and body, its data ([reminderId], [type]) and sound; the trigger is always
    [null] (immediate). *)
Record NotificationRequest : Type := mkRequest {
  title : string;
  body : string;
  data_reminderId : string;
  data_type : string;
  sound : bool
}.

(** [Location.LocationGeocodedAddress], the fields the service reads. *)
Record GeocodedAddress : Type := mkAddress {
  street : option string;
  city : option string;
  region : option string
}.

(** The statements the service runs with [runAsync] and [execAsync]. *)
Inductive Statement : Type :=
| CreateTableIfNotExists
| InsertInto (params : list SQLite.BindValue)
| UpdateSet (fields : list Column.t) (params : list SQLite.BindValue)
| DeleteFrom (key : string).

(** What leaves the program, in the order in which it happens. *)
Inductive Effect : Type :=
| Console (entry : LogEntry)
| Presented (request : NotificationRequest)
| Ran (statement : Statement)
| Geofencing (regions : list GeofenceRegion.t)
| GeofencingStopped
| Alert (heading text : string).

(** What the host decides.  Every clock reading, random draw and platform
    call is one step; the answers are indexed by the step at which they are
    asked for. *)
Record Platform : Type := mkPlatform {
  rejection : nat -> option Error;
  latency : nat -> N;
  randomSuffix : nat -> string;
  notificationIdentifier : nat -> string;
  geocoded : nat -> list GeocodedAddress;
  foregroundGranted : bool;
  backgroundGranted : bool;
  numberToString : JS.number -> string
}.

Record World : Type := mkWorld {
  (** [databaseService.db] is not [null] *)
  db : bool;
  (** the table [reminders] of location_reminders.db, once created *)
  reminders : option SQLite.Table;
  (** [locationService.isLocationServicesEnabled] *)
  isLocationServicesEnabled : bool;
  (** the regions the platform monitors for the geofencing task *)
  monitored : list GeofenceRegion.t;
  (** milliseconds since the epoch *)
  clock : Z;
  steps : nat;
  journal : list Effect
}.

Definition setDb (b : bool) (w : World) : World :=
  mkWorld b (reminders w) (isLocationServicesEnabled w) (monitored w)
    (clock w) (steps w) (journal w).

Definition setReminders (t : option SQLite.Table) (w : World) : World :=
  mkWorld (db w) t (isLocationServicesEnabled w) (monitored w)
    (clock w) (steps w) (journal w).

Definition setEnabled (b : bool) (w : World) : World :=
  mkWorld (db w) (reminders w) b (monitored w) (clock w) (steps w) (journal w).

Definition setMonitored (l : list GeofenceRegion.t) (w : World) : World :=
  mkWorld (db w) (reminders w) (isLocationServicesEnabled w) l
    (clock w) (steps w) (journal w).

Definition emit (e : Effect) (w : World) : World :=
  mkWorld (db w) (reminders w) (isLocationServicesEnabled w) (monitored w)
    (clock w) (steps w) (journal w ++ [e])%list.

(** One step: time passes, never backwards. *)
Definition tick (P : Platform) (w : World) : World :=
  mkWorld (db w) (reminders w) (isLocationServicesEnabled w) (monitored w)
    (clock w + Z.of_N (latency P (steps w))) (S (steps w)) (journal w).

(** The notifications presented so far, oldest first. *)
Fixpoint presented (j : list Effect) : list NotificationRequest :=
  match j with
  | [] => []
  | Presented n :: rest => n :: presented rest
  | _ :: rest => presented rest
  end.

(** The statements that went through on the table so far. *)
Fixpoint statements (j : list Effect) : list Statement :=
  match j with
  | [] => []
  | Ran s :: rest => s :: statements rest
  | _ :: rest => statements rest
  end.

(** ** Asynchronous computations *)

Definition M (A : Type) : Type := Platform -> World -> Completion A * World.

Definition ret {A : Type} (a : A) : M A := fun _ w => (Resolved a, w).

Definition bind {A B : Type} (m : M A) (k : A -> M B) : M B :=
  fun P w =>
    match m P w with
    | (Resolved a, w') => k a P w'
    | (Rejected e, w') => (Rejected e, w')
    end.

Definition throw {A : Type} (e : Error) : M A := fun _ w => (Rejected e, w).

(** [try { body } catch (error) { handler }] *)
Definition tryCatch {A : Type} (body : M A) (handler : Error -> M A) : M A :=
  fun P w =>
    match body P w with
    | (Resolved a, w') => (Resolved a, w')
    | (Rejected e, w') => handler e P w'
    end.

Declare Scope async_scope.
Delimit Scope async_scope with async.
Notation "x <- m ;; k" := (bind m (fun x => k))
  (at level 61, m at next level, right associativity) : async_scope.
Notation "m ;; k" := (bind m (fun _ => k))
  (at level 61, right associativity) : async_scope.
Local Open Scope async_scope.

Definition get {A : Type} (f : World -> A) : M A := fun _ w => (Resolved (f w), w).
Definition modify (f : World -> World) : M unit := fun _ w => (Resolved tt, f w).
Definition ask {A : Type} (f : Platform -> A) : M A := fun P w => (Resolved (f P), w).

Definition console_log (s : string) : M unit :=
  modify (emit (Console (mkLog LOG s None))).
Definition console_warn (s : string) : M unit :=
  modify (emit (Console (mkLog WARN s None))).
Definition console_error (s : string) (e : Error) : M unit :=
  modify (emit (Console (mkLog ERROR s (Some e)))).
Definition Alert_alert (heading text : string) : M unit :=
  modify (emit (Alert heading text)).

(** A call into the platform: one step, which the platform may reject. *)
Definition platformCall : M unit :=
  fun P w =>
    match rejection P (steps w) with
    | Some e => (Rejected e, tick P w)
    | None => (Resolved tt, tick P w)
    end.

(** [Date.now()] and the time value of [new Date()]. *)
Definition Date_now : M Z :=
  fun P w => (Resolved (clock (tick P w)), tick P w).

(** [Math.random().toString(36).substr(2, 9)] *)
Definition Math_random_suffix : M string :=
  fun P w => (Resolved (randomSuffix P (steps w)), tick P w).

(** *** expo-sqlite *)

Definition exec (s : Statement) (t : option SQLite.Table)
  : Completion (option SQLite.Table) :=
  match s, t with
  | CreateTableIfNotExists, None => Resolved (Some [])
  | CreateTableIfNotExists, Some t => Resolved (Some t)
  | _, None => Rejected SQLite.noSuchTable
  | InsertInto params, Some t =>
      SQLite.andThen (SQLite.insert params t) (fun t' => Resolved (Some t'))
  | UpdateSet fields params, Some t =>
      SQLite.andThen (SQLite.update fields params t) (fun t' => Resolved (Some t'))
  | DeleteFrom key, Some t => Resolved (Some (SQLite.delete key t))
  end.

(** [db.runAsync(query, params)] and [db.execAsync(query)] *)
Definition runAsync (s : Statement) : M unit :=
  platformCall ;;
  t <- get reminders ;;
  match exec s t with
  | Resolved t' => modify (setReminders t') ;; modify (emit (Ran s))
  | Rejected e => throw e
  end.

(** [db.getFirstAsync('SELECT * FROM reminders WHERE id = ?', [id])] *)
Definition getFirstAsync (key : string) : M (option SQLite.Row.t) :=
  platformCall ;;
  t <- get reminders ;;
  match t with
  | Some t => ret (SQLite.selectById key t)
  | None => throw SQLite.noSuchTable
  end.

(** [db.getAllAsync('SELECT * FROM reminders ORDER BY createdAt DESC')] *)
Definition getAllAsync : M (list SQLite.Row.t) :=
  platformCall ;;
  t <- get reminders ;;
  match t with
  | Some t => ret (SQLite.orderByCreatedAtDesc t)
  | None => throw SQLite.noSuchTable
  end.

(** *** expo-notifications *)

(** With a [null] trigger the notification is presented at once; the call
    resolves to the identifier the platform gives it. *)
Definition scheduleNotificationAsync (request : NotificationRequest) : M string :=
  k <- get steps ;;
  platformCall ;;
  modify (emit (Presented request)) ;;
  ask (fun P => notificationIdentifier P k).

(** *** expo-location *)

(** The regions given replace those the task monitored before. *)
Definition startGeofencingAsync (regions : list GeofenceRegion.t) : M unit :=
  platformCall ;;
  modify (setMonitored regions) ;;
  modify (emit (Geofencing regions)).

Definition stopGeofencingAsync : M unit :=
  platformCall ;;
  modify (setMonitored []) ;;
  modify (emit GeofencingStopped).

Definition reverseGeocodeAsync (latitude longitude : JS.number)
  : M (list GeocodedAddress) :=
  k <- get steps ;;
  platformCall ;;
  ask (fun P => geocoded P k).

Definition requestForegroundPermissionsAsync : M bool :=
  platformCall ;; ask foregroundGranted.

Definition requestBackgroundPermissionsAsync : M bool :=
  platformCall ;; ask backgroundGranted.

(** ** DatabaseService *)

Module DatabaseService.

Definition notInitialized : Error := mkError "Database not initialized".

(** [if (!this.db) throw new Error('Database not initialized')] *)
Definition requireDb : M unit :=
  open <- get db ;;
  if open then ret tt else throw notInitialized.

Definition createTables : M unit :=
  requireDb ;;
  runAsync CreateTableIfNotExists.

Definition initialize : M unit :=
  tryCatch
    (platformCall ;;
     modify (setDb true) ;;
     createTables)
    (fun error =>
       console_error "Database initialization failed:" error ;;
       throw error).

(** [value || null] on an optional string *)
Definition orNull (value : option string) : SQLite.BindValue :=
  match value with
  | Some s => if JS.nonEmpty s then SQLite.Text s else SQLite.Null
  | None => SQLite.Null
  end.

(** [flag ? 1 : 0] *)
Definition oneOrZero (flag : bool) : JS.number :=
  if flag then JS.ofZ 1 else JS.ofZ 0.

Definition addReminder (reminder : NewReminder.t) : M string :=
  requireDb ;;
  now <- Date_now ;;
  suffix <- Math_random_suffix ;;
  let id := JS.integerToString now ++ suffix in
  created <- Date_now ;;
  let createdAt := JS.toISOString created in
  runAsync (InsertInto [
    SQLite.Text id;
    SQLite.Text (NewReminder.title reminder);
    orNull (NewReminder.description reminder);
    SQLite.Number (NewReminder.latitude reminder);
    SQLite.Number (NewReminder.longitude reminder);
    SQLite.Number (NewReminder.radius reminder);
    orNull (NewReminder.address reminder);
    SQLite.Number (oneOrZero (NewReminder.isActive reminder));
    SQLite.Text (NewReminder.notificationTitle reminder);
    SQLite.Text (NewReminder.notificationBody reminder);
    SQLite.Text createdAt
  ]) ;;
  ret id.

(** The object built from a row; [isActive] is [Boolean(row.isActive)]. *)
Definition ofRow (row : SQLite.Row.t) : Reminder.t :=
  Reminder.mk
    (SQLite.Row.id row)
    (SQLite.Row.title row)
    (SQLite.Row.description row)
    (SQLite.Row.latitude row)
    (SQLite.Row.longitude row)
    (SQLite.Row.radius row)
    (SQLite.Row.address row)
    (JS.truthy (SQLite.Row.isActive row))
    (SQLite.Row.notificationTitle row)
    (SQLite.Row.notificationBody row)
    (SQLite.Row.createdAt row)
    (SQLite.Row.triggeredAt row).

Definition getAllReminders : M (list Reminder.t) :=
  requireDb ;;
  result <- getAllAsync ;;
  ret (map ofRow result).

Definition getReminder (id : string) : M (option Reminder.t) :=
  requireDb ;;
  result <- getFirstAsync id ;;
  match result with
  | None => ret None
  | Some row => ret (Some (ofRow row))
  end.

(** The value an entry binds: nothing when it is [undefined], [1] or [0] for
    [isActive], the value itself otherwise. *)
Definition bound (e : Entry.t) : option SQLite.BindValue :=
  match e with
  | Entry.id v | Entry.title v | Entry.description v | Entry.address v
  | Entry.notificationTitle v | Entry.notificationBody v
  | Entry.createdAt v | Entry.triggeredAt v => option_map SQLite.Text v
  | Entry.latitude v | Entry.longitude v | Entry.radius v =>
      option_map SQLite.Number v
  | Entry.isActive v => option_map (fun b => SQLite.Number (oneOrZero b)) v
  end.

(** The loop over [Object.entries(updates)]: [fields] and [values] receive
    one element for each entry whose key is not ['id'] and whose value is not
    [undefined]. *)
Fixpoint collect (entries : list Entry.t)
  : list Column.t * list SQLite.BindValue :=
  match entries with
  | [] => ([], [])
  | e :: rest =>
      let '(fields, values) := collect rest in
      match bound e with
      | Some value =>
          if negb (Column.eqb (Entry.key e) Column.id)
          then (Entry.key e :: fields, value :: values)
          else (fields, values)
      | None => (fields, values)
      end
  end.

Definition updateReminder (id : string) (updates : list Entry.t) : M unit :=
  requireDb ;;
  let '(fields, values) := collect updates in
  if Nat.eqb (List.length fields) 0 then ret tt
  else runAsync (UpdateSet fields (values ++ [SQLite.Text id])%list).

Definition deleteReminder (id : string) : M unit :=
  requireDb ;;
  runAsync (DeleteFrom id).

Definition markReminderAsTriggered (id : string) : M unit :=
  now <- Date_now ;;
  let triggeredAt := JS.toISOString now in
  updateReminder id [Entry.triggeredAt (Some triggeredAt)].

End DatabaseService.

(** ** NotificationService *)

Module NotificationService.

Definition scheduleLocationNotification (reminder : Reminder.t) : M string :=
  tryCatch
    (notificationId <-
       scheduleNotificationAsync
         (mkRequest (Reminder.notificationTitle reminder)
            (Reminder.notificationBody reminder)
            (Reminder.id reminder) "location-reminder" true) ;;
     console_log "Notification scheduled:" ;;
     ret notificationId)
    (fun error =>
       console_error "Failed to schedule notification:" error ;;
       throw error).

End NotificationService.

(** ** LocationService *)

Module LocationService.

Definition requestPermissions : M unit :=
  foreground <- requestForegroundPermissionsAsync ;;
  if negb foreground then throw (mkError "Location permission not granted")
  else
    background <- requestBackgroundPermissionsAsync ;;
    (if negb background
     then console_warn "Background location permission not granted"
     else ret tt) ;;
    modify (setEnabled true).

(** [value || ''] on an optional string *)
Definition orEmpty (value : option string) : string :=
  match value with
  | Some s => s
  | None => ""
  end.

(** The coordinates as text: [`${latitude.toFixed(6)}, ${longitude.toFixed(6)}`] *)
Definition coordinates (P : Platform) (latitude longitude : JS.number) : string :=
  JS.toFixed (numberToString P) 6 latitude ++ ", " ++
  JS.toFixed (numberToString P) 6 longitude.

Definition reverseGeocode (latitude longitude : JS.number) : M string :=
  tryCatch
    (result <- reverseGeocodeAsync latitude longitude ;;
     match result with
     | address :: _ =>
         ret (JS.trim (orEmpty (street address) ++ " " ++
                       orEmpty (city address) ++ " " ++
                       orEmpty (region address)))
     | [] => ask (fun P => coordinates P latitude longitude)
     end)
    (fun error =>
       console_error "Reverse geocoding failed:" error ;;
       ask (fun P => coordinates P latitude longitude)).

(** The region of a reminder. *)
Definition regionOf (reminder : Reminder.t) : GeofenceRegion.t :=
  GeofenceRegion.mk (Reminder.id reminder) (Reminder.latitude reminder)
    (Reminder.longitude reminder) (Reminder.radius reminder).

Definition startGeofencing (reminders : list Reminder.t) : M unit :=
  enabled <- get isLocationServicesEnabled ;;
  if negb enabled
  then console_warn "Location services not enabled for geofencing"
  else
    let regions := map regionOf (filter Reminder.isActive reminders) in
    tryCatch
      (startGeofencingAsync regions ;;
       console_log "Geofencing started with")
      (fun error => console_error "Failed to start geofencing:" error).

Definition stopGeofencing : M unit :=
  tryCatch
    (stopGeofencingAsync ;;
     console_log "Geofencing stopped")
    (fun error => console_error "Failed to stop geofencing:" error).

(** The statements of [handleGeofenceEnter]'s [try] block. *)
Definition handleGeofenceEnter_try (reminderId : string) : M unit :=
  reminder <- DatabaseService.getReminder reminderId ;;
  match reminder with
  | Some reminder =>
      if Reminder.isActive reminder
      then
        NotificationService.scheduleLocationNotification reminder ;;
        DatabaseService.markReminderAsTriggered reminderId ;;
        console_log "Location reminder triggered:"
      else ret tt
  | None => ret tt
  end.

Definition handleGeofenceEnter (reminderId : string) : M unit :=
  tryCatch
    (handleGeofenceEnter_try reminderId)
    (fun error => console_error "Error handling geofence enter:" error).

End LocationService.

(** ** EditReminderScreen: the form state, the radius entry and saving *)

Module EditReminderScreen.

Record State : Type := mk {
  title : string;
  description : string;
  notificationTitle : string;
  notificationBody : string;
  latitude : JS.number;
  longitude : JS.number;
  radius : JS.number;
  address : string;
  loading : bool
}.

(** The [useState] defaults: 37.7749, -122.4194 and a radius of 100. *)
Definition initial : State :=
  mk "" "" "" ""
    (S754_finite false 5316344548873680 (-47))
    (S754_finite true 8614499440983120 (-46))
    (JS.ofZ 100) "" false.


Definition setLoading (b : bool) (s : State) : State :=
  mk (title s) (description s) (notificationTitle s) (notificationBody s)
    (latitude s) (longitude s) (radius s) (address s) b.


Definition loadReminder (reminderId : string) (s : State) : M State :=
  tryCatch
    (reminder <- DatabaseService.getReminder reminderId ;;
     match reminder with
     | Some reminder =>
         ret (mk (Reminder.title reminder)
                (LocationService.orEmpty (Reminder.description reminder))
                (Reminder.notificationTitle reminder)
                (Reminder.notificationBody reminder)
                (Reminder.latitude reminder)
                (Reminder.longitude reminder)
                (Reminder.radius reminder)
                (LocationService.orEmpty (Reminder.address reminder))
                (loading s))
     | None => ret s
     end)
    (fun error =>
       console_error "Failed to load reminder:" error ;;
       Alert_alert "Error" "Failed to load reminder details" ;;
       ret s).

Definition validateForm (s : State) : M bool :=
  if negb (JS.nonEmpty (JS.trim (title s))) then
    Alert_alert "Error" "Please enter a title for your reminder" ;; ret false
  else if negb (JS.nonEmpty (JS.trim (notificationTitle s))) then
    Alert_alert "Error" "Please enter a notification title" ;; ret false
  else if negb (JS.nonEmpty (JS.trim (notificationBody s))) then
    Alert_alert "Error" "Please enter a notification message" ;; ret false
  else if JS.lt (radius s) (JS.ofZ 10) || JS.gt (radius s) (JS.ofZ 1000) then
    Alert_alert "Error" "Radius must be between 10 and 1000 meters" ;; ret false
  else ret true.

(** [text || undefined] *)
Definition orUndefined (text : string) : option string :=
  if JS.nonEmpty text then Some text else None.

(** The [updates] object of [handleSave]. *)
Definition updatesOf (s : State) : list Entry.t :=
  [ Entry.title (Some (JS.trim (title s)));
    Entry.description (orUndefined (JS.trim (description s)));
    Entry.latitude (Some (latitude s));
    Entry.longitude (Some (longitude s));
    Entry.radius (Some (radius s));
    Entry.address (Some (address s));
    Entry.notificationTitle (Some (JS.trim (notificationTitle s)));
    Entry.notificationBody (Some (JS.trim (notificationBody s))) ].

(** [handleSave]; the state returned is the form's state afterwards
    ([loading] is reset in the [finally] block). *)
Definition handleSave (reminderId : string) (s : State) : M State :=
  valid <- validateForm s ;;
  if negb valid then ret s
  else
    tryCatch
      (DatabaseService.updateReminder reminderId (updatesOf s) ;;
       Alert_alert "Success" "Reminder updated successfully!")
      (fun error =>
         console_error "Failed to update reminder:" error ;;
         Alert_alert "Error" "Failed to update reminder. Please try again.") ;;
    ret (setLoading false s).

End EditReminderScreen.

(** ** Further answers of the host *)

(** [Location.LocationObject], the fields the screens read. *)
Record LocationObject : Type := mkLocation {
  coords_latitude : JS.number;
  coords_longitude : JS.number
}.

(** What the device answers to the permission and position requests:
    whether the notification permission is already granted, whether it is
    granted when requested, whether [process.env.EXPO_OS] is ['android'], and
    the position [getCurrentPositionAsync] resolves to at a step. *)
Record Device : Type := mkDevice {
  notificationsGranted : bool;
  notificationsGrantedOnRequest : bool;
  android : bool;
  position : nat -> LocationObject
}.

(** ** NotificationService.initialize *)

Module NotificationServiceSetup.

Definition initialize (D : Device) : M unit :=
  existingStatus <- (platformCall ;; ret (notificationsGranted D)) ;;
  finalStatus <-
    (if negb existingStatus
     then platformCall ;; ret (notificationsGrantedOnRequest D)
     else ret existingStatus) ;;
  if negb finalStatus
  then throw (mkError "Notification permissions not granted")
  else if android D then platformCall else ret tt.

End NotificationServiceSetup.

(** ** LocationService: initialisation, current location, background tasks *)

Module LocationServiceSetup.

Definition getCurrentLocation (D : Device) : M LocationObject :=
  enabled <- get isLocationServicesEnabled ;;
  if negb enabled then throw (mkError "Location services not enabled")
  else
    k <- get steps ;;
    platformCall ;;
    ret (position D k).

(** [Location.GeofencingEventType] *)
Inductive GeofencingEventType : Type := Enter | Exit.

(** The task defined for [GEOFENCING_TASK_NAME]: the error the platform
    passes, if any, and otherwise the event's type and its region's
    identifier. *)
Definition geofencingTask (error : option Error)
  (eventType : GeofencingEventType) (identifier : string) : M unit :=
  match error with
  | Some error => console_error "Geofencing task error:" error
  | None =>
      match eventType with
      | Enter =>
          console_log "Entered region:" ;;
          LocationService.handleGeofenceEnter identifier
      | Exit => ret tt
      end
  end.

(** The task defined for [LOCATION_TASK_NAME]. *)
Definition locationTask (error : option Error) : M unit :=
  match error with
  | Some error => console_error "Background location task error:" error
  | None => console_log "Background location update:"
  end.

(** [setupBackgroundLocation] defines the two tasks and does nothing else. *)
Definition setupBackgroundLocation : M unit := ret tt.

Definition initialize : M unit :=
  LocationService.requestPermissions ;;
  setupBackgroundLocation.

End LocationServiceSetup.

(** ** HomeScreen *)

(** The screens keep their data in component state; a handler is given the
    state it starts from and resolves to the state it leaves.  The [loading]
    flags, which every path resets, are left out. *)

Module HomeScreen.

(** The [catch] block of [loadReminders], leaving the list [reminders]. *)
Definition loadFailed (reminders : list Reminder.t) (error : Error)
  : M (list Reminder.t) :=
  console_error "Failed to load reminders:" error ;;
  Alert_alert "Error" "Failed to load reminders" ;;
  ret reminders.

(** [loadReminders]: the list is set as soon as it is read, so an error
    raised after that would leave the new list in place. *)
Definition loadReminders (reminders : list Reminder.t) : M (list Reminder.t) :=
  tryCatch
    (allReminders <- DatabaseService.getAllReminders ;;
     tryCatch
       (LocationService.startGeofencing allReminders ;;
        ret allReminders)
       (loadFailed allReminders))
    (loadFailed reminders).

(** The [onPress] of the confirmation's Delete button. *)
Definition handleDeleteReminder_onPress (id : string)
  (reminders : list Reminder.t) : M (list Reminder.t) :=
  tryCatch
    (DatabaseService.deleteReminder id ;;
     loadReminders reminders)
    (fun error =>
       console_error "Failed to delete reminder:" error ;;
       Alert_alert "Error" "Failed to delete reminder" ;;
       ret reminders).

Definition handleToggleReminder (id : string) (isActive : bool)
  (reminders : list Reminder.t) : M (list Reminder.t) :=
  tryCatch
    (DatabaseService.updateReminder id [Entry.isActive (Some isActive)] ;;
     loadReminders reminders)
    (fun error =>
       console_error "Failed to toggle reminder:" error ;;
       Alert_alert "Error" "Failed to update reminder" ;;
       ret reminders).

End HomeScreen.

(** ** ReminderDetailsScreen *)

Module ReminderDetailsScreen.

Definition loadReminder (reminderId : string) (reminder : option Reminder.t)
  : M (option Reminder.t) :=
  tryCatch
    (DatabaseService.getReminder reminderId)
    (fun error =>
       console_error "Failed to load reminder:" error ;;
       Alert_alert "Error" "Failed to load reminder details" ;;
       ret reminder).

(** [{ ...reminder, isActive }] *)
Definition withIsActive (isActive : bool) (r : Reminder.t) : Reminder.t :=
  Reminder.mk (Reminder.id r) (Reminder.title r) (Reminder.description r)
    (Reminder.latitude r) (Reminder.longitude r) (Reminder.radius r)
    (Reminder.address r) isActive (Reminder.notificationTitle r)
    (Reminder.notificationBody r) (Reminder.createdAt r)
    (Reminder.triggeredAt r).

Definition handleToggleActive (isActive : bool) (reminder : option Reminder.t)
  : M (option Reminder.t) :=
  match reminder with
  | None => ret None
  | Some r =>
      tryCatch
        (DatabaseService.updateReminder (Reminder.id r)
           [Entry.isActive (Some isActive)] ;;
         ret (Some (withIsActive isActive r)))
        (fun error =>
           console_error "Failed to toggle reminder:" error ;;
           Alert_alert "Error" "Failed to update reminder" ;;
           ret (Some r))
  end.

End ReminderDetailsScreen.

(** ** SettingsScreen *)

Module SettingsScreen.

(** [totalReminders] and [activeReminders] *)
Definition Stats : Type := (nat * nat)%type.

Definition loadStats (stats : Stats) : M Stats :=
  tryCatch
    (reminders <- DatabaseService.getAllReminders ;;
     ret (List.length reminders,
          List.length (filter Reminder.isActive reminders)))
    (fun error =>
       console_error "Failed to load stats:" error ;;
       ret stats).

(** [for (const reminder of reminders) await deleteReminder(reminder.id)] *)
Fixpoint deleteEach (reminders : list Reminder.t) : M unit :=
  match reminders with
  | [] => ret tt
  | reminder :: rest =>
      DatabaseService.deleteReminder (Reminder.id reminder) ;;
      deleteEach rest
  end.

(** The [onPress] of the confirmation's Clear All button. *)
Definition handleClearAllData_onPress (stats : Stats) : M Stats :=
  tryCatch
    (reminders <- DatabaseService.getAllReminders ;;
     deleteEach reminders ;;
     stats' <- loadStats stats ;;
     Alert_alert "Success" "All data has been cleared." ;;
     ret stats')
    (fun error =>
       console_error "Failed to clear data:" error ;;
       Alert_alert "Error" "Failed to clear data." ;;
       ret stats).

End SettingsScreen.

(** ** MapScreen *)

Module MapScreen.

(** [reminders] and [userLocation] *)
Record State : Type := mk {
  reminders : list Reminder.t;
  userLocation : option (JS.number * JS.number)
}.

Definition loadData (D : Device) (s : State) : M State :=
  tryCatch
    (allReminders <- DatabaseService.getAllReminders ;;
     let shown := filter Reminder.isActive allReminders in
     tryCatch
       (location <- LocationServiceSetup.getCurrentLocation D ;;
        ret (mk shown (Some (coords_latitude location,
                             coords_longitude location))))
       (fun locationError =>
          modify (emit (Console (mkLog WARN "Could not get current location:"
                                   (Some locationError)))) ;;
          ret (mk shown (userLocation s))))
    (fun error =>
       console_error "Failed to load map data:" error ;;
       Alert_alert "Error" "Failed to load reminders" ;;
       ret s).

End MapScreen.

(** ** EditReminderScreen: choosing the location on the map *)

Module EditReminderMap.

Definition setCoordinate (lat lng : JS.number) (s : EditReminderScreen.State)
  : EditReminderScreen.State :=
  EditReminderScreen.mk (EditReminderScreen.title s)
    (EditReminderScreen.description s)
    (EditReminderScreen.notificationTitle s)
    (EditReminderScreen.notificationBody s) lat lng
    (EditReminderScreen.radius s) (EditReminderScreen.address s)
    (EditReminderScreen.loading s).

Definition setAddress (address : string) (s : EditReminderScreen.State)
  : EditReminderScreen.State :=
  EditReminderScreen.mk (EditReminderScreen.title s)
    (EditReminderScreen.description s)
    (EditReminderScreen.notificationTitle s)
    (EditReminderScreen.notificationBody s)
    (EditReminderScreen.latitude s) (EditReminderScreen.longitude s)
    (EditReminderScreen.radius s) address (EditReminderScreen.loading s).

Definition handleMapPress (lat lng : JS.number) (s : EditReminderScreen.State)
  : M EditReminderScreen.State :=
  tryCatch
    (addressText <- LocationService.reverseGeocode lat lng ;;
     ret (setAddress addressText (setCoordinate lat lng s)))
    (fun error =>
       console_error "Failed to reverse geocode:" error ;;
       ret (setCoordinate lat lng s)).

End EditReminderMap.

(** ** App: bootstrap *)

Module App.

(** [initializeApp]; it resolves to [isReady].  The two notification
    listeners it registers before it sets [isReady] only log. *)
Definition initializeApp (D : Device) : M bool :=
  tryCatch
    (DatabaseService.initialize ;;
     console_log "Database initialized" ;;
     NotificationServiceSetup.initialize D ;;
     console_log "Notifications initialized" ;;
     tryCatch
       (LocationServiceSetup.initialize ;;
        console_log "Location service initialized")
       (fun locationError =>
          modify (emit (Console (mkLog WARN
                                   "Location service initialization failed:"
                                   (Some locationError)))) ;;
          Alert_alert "Location Permission Required"
            "This app requires location access to send you location-based reminders. Please enable location permissions in your device settings.") ;;
     ret true)
    (fun error =>
       console_error "App initialization failed:" error ;;
       Alert_alert "Initialization Error"
         "Failed to initialize the app. Please restart the application." ;;
       ret false).

End App.

(** ** Concrete data: the specification's example scenario *)

Module Scenario.

(** A host that rejects nothing; a millisecond passes at every step. *)
Definition host : Platform :=
  mkPlatform (fun _ => None) (fun _ => 1%N) (fun _ => "k3j9x0q2z")
    (fun _ => "notification-1") (fun _ => []) true true (fun _ => "").

(** A host whose calls are all rejected. *)
Definition failing : Platform :=
  mkPlatform (fun _ => Some (mkError "rejected")) (fun _ => 1%N)
    (fun _ => "k3j9x0q2z") (fun _ => "notification-1") (fun _ => [])
    true true (fun _ => "").

(** The numbers 37.7749 and -122.4194. *)
Definition lat : JS.number := S754_finite false 5316344548873680 (-47).
Definition lon : JS.number := S754_finite true 8614499440983120 (-46).

(** The fields of the scenario's reminder. *)
Definition fields : NewReminder.t :=
  NewReminder.mk "Grab keys" None lat lon (JS.ofZ 50) None true
    "Don't forget!" "Grab your keys" None.

(** The same fields with an empty description. *)
Definition fieldsWithEmptyDescription : NewReminder.t :=
  NewReminder.mk "Grab keys" (Some "") lat lon (JS.ofZ 50) None true
    "Don't forget!" "Grab your keys" None.

(** A host that rejects the call made at step [k] and no other. *)
Definition rejectingAt (k : nat) : Platform :=
  mkPlatform (fun i => if Nat.eqb i k then Some (mkError "rejected") else None)
    (fun _ => 1%N) (fun _ => "k3j9x0q2z") (fun _ => "notification-1")
    (fun _ => []) true true (fun _ => "").

(** The scenario's reminder after it was triggered once. *)
Definition r1Triggered : SQLite.Row.t :=
  SQLite.Row.mk "r1" "Grab keys" None lat lon (JS.ofZ 50) None (JS.ofZ 1)
    "Don't forget!" "Grab your keys" "2023-11-14T22:13:20.000Z"
    (Some "2023-11-14T22:13:20.003Z").

(** The scenario's reminder as a stored row, under the id [r1]. *)
Definition r1 : SQLite.Row.t :=
  SQLite.Row.mk "r1" "Grab keys" None lat lon (JS.ofZ 50) None (JS.ofZ 1)
    "Don't forget!" "Grab your keys" "2023-11-14T22:13:20.000Z" None.

(** A running application: database open, location services enabled. *)
Definition world (table : SQLite.Table) : World :=
  mkWorld true (Some table) true [] 1700000000000 0 [].

(** The application after the user refused the location permission: the
    database is open, location services are not enabled. *)
Definition locationRefused (table : SQLite.Table) : World :=
  mkWorld true (Some table) false [] 1700000000000 0 [].

(** A process in which no service was initialised. *)
Definition cold (table : SQLite.Table) : World :=
  mkWorld false (Some table) false [] 1700000000000 0 [].

End Scenario.

(** * Properties *)

(** The row stored under an id, if the table exists and has one. *)
Definition stored (w : World) (id : string) : option SQLite.Row.t :=
  match reminders w with
  | Some t => SQLite.selectById id t
  | None => None
  end.

(** The platform rejects none of the [n] steps that start at step [k]. *)
Definition accepts (P : Platform) (k n : nat) : Prop :=
  forall i, (k <= i < k + n)%nat -> rejection P i = None.

(** The id [addReminder] generates when it is called in [w]: the clock's
    reading followed by the random suffix. *)
Definition generatedId (P : Platform) (w : World) : string :=
  JS.integerToString (clock (tick P w)) ++ randomSuffix P (S (steps w)).

(** A valid reminder field set (specification, section 3): the required
    texts are not empty, the coordinates are finite numbers and the radius
    lies in [10, 1000]. *)
Definition validFields (f : NewReminder.t) : Prop :=
  NewReminder.title f <> "" /\
  NewReminder.notificationTitle f <> "" /\
  NewReminder.notificationBody f <> "" /\
  JS.isFinite (NewReminder.latitude f) = true /\
  JS.isFinite (NewReminder.longitude f) = true /\
  JS.le (JS.ofZ 10) (NewReminder.radius f) = true /\
  JS.le (NewReminder.radius f) (JS.ofZ 1000) = true.

(** The value an update provides for a column: the bound value of the entry
    with that key, when its value is not [undefined].  (The keys of an object
    are distinct; were a key repeated, the last entry would count.) *)
Fixpoint provided (c : Column.t) (updates : list Entry.t)
  : option SQLite.BindValue :=
  match updates with
  | [] => None
  | e :: rest =>
      match provided c rest with
      | Some v => Some v
      | None => if Column.eqb (Entry.key e) c then DatabaseService.bound e else None
      end
  end.

(** The operations of the store, as its callers invoke them. *)
Inductive StoreOperation : Type :=
| Initialize
| AddReminder (reminder : NewReminder.t)
| GetAllReminders
| GetReminder (id : string)
| UpdateReminder (id : string) (updates : list Entry.t)
| DeleteReminder (id : string)
| MarkReminderAsTriggered (id : string).

Definition perform (op : StoreOperation) : M unit :=
  match op with
  | Initialize => DatabaseService.initialize
  | AddReminder reminder => (_ <- DatabaseService.addReminder reminder ;; ret tt)%async
  | GetAllReminders => (_ <- DatabaseService.getAllReminders ;; ret tt)%async
  | GetReminder id => (_ <- DatabaseService.getReminder id ;; ret tt)%async
  | UpdateReminder id updates => DatabaseService.updateReminder id updates
  | DeleteReminder id => DatabaseService.deleteReminder id
  | MarkReminderAsTriggered id => DatabaseService.markReminderAsTriggered id
  end.

(** The world after a series of operations, each run to its completion,
    resolved or rejected. *)
Fixpoint performAll (ops : list StoreOperation) (P : Platform) (w : World)
  : World :=
  match ops with
  | [] => w
  | op :: rest => performAll rest P (snd (perform op P w))
  end.

(** The record under [id] has its [triggeredAt] set. *)
Definition triggered (t : option SQLite.Table) (id : string) : Prop :=
  exists row v,
    match t with
    | Some t => SQLite.selectById id t
    | None => None
    end = Some row /\
    SQLite.Row.triggeredAt row = Some v.

(** A computation relates the world it starts in to the world it ends in,
    however it completes. *)
Definition respects (R : World -> World -> Prop) {A : Type} (m : M A) : Prop :=
  forall P w c w', m P w = (c, w') -> R w w'.

(** A set [triggeredAt] of [id] stays set; the clock does not go back. *)
Definition keepsTriggered (id : string) (w w' : World) : Prop :=
  triggered (reminders w) id -> triggered (reminders w') id.

Definition clockAdvances (w w' : World) : Prop := clock w <= clock w'.

(** The statements the operations of the store issue. *)
Inductive Issued : Statement -> Prop :=
| Issued_create : Issued CreateTableIfNotExists
| Issued_insert : forall params, Issued (InsertInto params)
| Issued_update :
    forall updates fields values key,
      DatabaseService.collect updates = (fields, values) ->
      Issued (UpdateSet fields (values ++ [SQLite.Text key])%list)
| Issued_delete : forall key, Issued (DeleteFrom key).

(** No two rows of the table have the same id. *)
Definition uniqueKeys (t : option SQLite.Table) : Prop :=
  match t with
  | Some t => NoDup (map SQLite.Row.id t)
  | None => True
  end.

Definition keepsUnique (w w' : World) : Prop :=
  uniqueKeys (reminders w) -> uniqueKeys (reminders w').

(** [a] was not created before [b], by their [createdAt] texts. *)
Definition newerFirst (a b : Reminder.t) : Prop :=
  String.compare (Reminder.createdAt a) (Reminder.createdAt b) <> Lt.

(** A computation that leaves the table, the monitored regions and the
    notifications as they are. *)
Definition untouched (w w' : World) : Prop :=
  reminders w' = reminders w /\
  monitored w' = monitored w /\
  presented (journal w') = presented (journal w) /\
  statements (journal w') = statements (journal w).

(** A computation that changes nothing of the application but the content of
    the record under [id]: the ids of the rows, the records under other ids,
    the monitored regions and the services' flags are as before. *)
Definition touchesOnly (id : string) (w w' : World) : Prop :=
  monitored w' = monitored w /\
  isLocationServicesEnabled w' = isLocationServicesEnabled w /\
  db w' = db w /\
  option_map (map SQLite.Row.id) (reminders w')
  = option_map (map SQLite.Row.id) (reminders w) /\
  forall k, k <> id -> stored w' k = stored w k.

(** The regions registered when [startGeofencing] is given what
    [getAllReminders] reads from a table. *)
Definition regionsOf (t : SQLite.Table) : list GeofenceRegion.t :=
  map LocationService.regionOf
    (filter Reminder.isActive
       (map DatabaseService.ofRow (SQLite.orderByCreatedAtDesc t))).

(** The time [markReminderAsTriggered] reads with [new Date()] when
    [handleGeofenceEnter] is called in [w] and goes through: the clock's
    reading at the handler's third step, after the lookup and the
    dispatch. *)
Definition markedAt (P : Platform) (w : World) : Z :=
  clock (tick P (tick P (tick P w))).

(** The notification of a stored reminder. *)
Definition notificationOf (row : SQLite.Row.t) : NotificationRequest :=
  mkRequest (SQLite.Row.notificationTitle row)
    (SQLite.Row.notificationBody row) (SQLite.Row.id row)
    "location-reminder" true.

Arguments JS.toISOString : simpl never.
Arguments JS.integerToString : simpl never.
Arguments JS.toFixed : simpl never.
Arguments JS.ofZ : simpl never.
Arguments JS.trim : simpl never.

Ltac run :=
  unfold DatabaseService.getReminder, DatabaseService.requireDb,
    getFirstAsync, getAllAsync, runAsync, platformCall, Date_now,
    Math_random_suffix, console_log, console_warn, console_error, Alert_alert,
    tryCatch, bind, ret, throw, get, modify, ask;
  simpl.

Ltac run_in H :=
  unfold DatabaseService.getReminder, DatabaseService.requireDb,
    getFirstAsync, getAllAsync, runAsync, platformCall, Date_now,
    Math_random_suffix, console_log, console_warn, console_error, Alert_alert,
    tryCatch, bind, ret, throw, get, modify, ask in H;
  simpl in H.

(** ** The store before [initialize] *)

(** C10. Before [initialize] has opened the database ([db] is [null]), every
    operation of the store is rejected with the error 'Database not
    initialized' and leaves the database closed and the table untouched:
    [addReminder], [getAllReminders], [getReminder], [updateReminder] and
    [deleteReminder] change nothing at all, and [markReminderAsTriggered]
    only lets the time of its clock reading pass. *)
Theorem store_rejects_before_initialize :
  forall (P : Platform) (w : World),
    db w = false ->
    (forall reminder,
        DatabaseService.addReminder reminder P w
        = (Rejected (mkError "Database not initialized"), w)) /\
    DatabaseService.getAllReminders P w
    = (Rejected (mkError "Database not initialized"), w) /\
    (forall id,
        DatabaseService.getReminder id P w
        = (Rejected (mkError "Database not initialized"), w)) /\
    (forall id updates,
        DatabaseService.updateReminder id updates P w
        = (Rejected (mkError "Database not initialized"), w)) /\
    (forall id,
        DatabaseService.deleteReminder id P w
        = (Rejected (mkError "Database not initialized"), w)) /\
    (forall id,
        DatabaseService.markReminderAsTriggered id P w
        = (Rejected (mkError "Database not initialized"), tick P w) /\
        db (tick P w) = false /\
        reminders (tick P w) = reminders w /\
        journal (tick P w) = journal w).
Proof.
  intros P w Hdb.
  repeat split; intros;
    unfold DatabaseService.addReminder, DatabaseService.getAllReminders,
      DatabaseService.updateReminder, DatabaseService.deleteReminder,
      DatabaseService.markReminderAsTriggered,
      DatabaseService.updateReminder; run;
    try rewrite Hdb; try reflexivity; assumption.
Qed.

Lemma store_rejects_before_initialize_witness :
  DatabaseService.getReminder "r1" Scenario.host (Scenario.cold [Scenario.r1])
  = (Rejected (mkError "Database not initialized"), Scenario.cold [Scenario.r1]).
Proof.
  apply (store_rejects_before_initialize Scenario.host
           (Scenario.cold [Scenario.r1]) eq_refl).
Defined.

(** ** The geofence handler *)

(** C5. Whatever the region id, the state of the store and the behaviour of
    the platform, [handleGeofenceEnter] resolves: an error raised in its
    [try] block (by the lookup, the dispatch or the update) is caught, and
    written to the console as an error. *)
Theorem handleGeofenceEnter_never_rejects :
  forall (P : Platform) (w : World) (reminderId : string),
    exists w',
      LocationService.handleGeofenceEnter reminderId P w = (Resolved tt, w') /\
      forall e w1,
        LocationService.handleGeofenceEnter_try reminderId P w = (Rejected e, w1) ->
        w' = emit (Console (mkLog ERROR "Error handling geofence enter:" (Some e))) w1.
Proof.
  intros P w reminderId.
  unfold LocationService.handleGeofenceEnter, tryCatch.
  destruct (LocationService.handleGeofenceEnter_try reminderId P w) as [[[]|e] w1].
  - exists w1. split; [reflexivity | intros ? ? H; discriminate H].
  - eexists. split; [reflexivity |].
    intros e' w1' H. inversion H; subst. reflexivity.
Qed.

Lemma handleGeofenceEnter_never_rejects_witness :
  exists w',
    LocationService.handleGeofenceEnter "r1" Scenario.failing
      (Scenario.world [Scenario.r1]) = (Resolved tt, w') /\
    w' = emit (Console (mkLog ERROR "Error handling geofence enter:"
                          (Some (mkError "rejected"))))
           (tick Scenario.failing (Scenario.world [Scenario.r1])).
Proof.
  destruct (handleGeofenceEnter_never_rejects Scenario.failing
              (Scenario.world [Scenario.r1]) "r1") as (w' & Hrun & Hlog).
  exists w'. split; [exact Hrun|].
  apply Hlog. reflexivity.
Defined.

(** The three sources of error, one at a time, on the scenario's reminder:
    a rejected lookup, a rejected dispatch (the reminder is then not marked)
    and a rejected update (the notification was presented). *)
Example handleGeofenceEnter_lookup_rejected :
  let '(c, w') := LocationService.handleGeofenceEnter "r1"
                    (Scenario.rejectingAt 0) (Scenario.world [Scenario.r1]) in
  c = Resolved tt /\
  journal w' = [Console (mkLog ERROR "Error handling geofence enter:"
                           (Some (mkError "rejected")))] /\
  stored w' "r1" = Some Scenario.r1.
Proof. repeat split. Qed.

Example handleGeofenceEnter_dispatch_rejected :
  let '(c, w') := LocationService.handleGeofenceEnter "r1"
                    (Scenario.rejectingAt 1) (Scenario.world [Scenario.r1]) in
  c = Resolved tt /\
  journal w' = [Console (mkLog ERROR "Failed to schedule notification:"
                           (Some (mkError "rejected")));
                Console (mkLog ERROR "Error handling geofence enter:"
                           (Some (mkError "rejected")))] /\
  stored w' "r1" = Some Scenario.r1.
Proof. repeat split. Qed.

Example handleGeofenceEnter_update_rejected :
  let '(c, w') := LocationService.handleGeofenceEnter "r1"
                    (Scenario.rejectingAt 3) (Scenario.world [Scenario.r1]) in
  c = Resolved tt /\
  journal w' = [Presented (mkRequest "Don't forget!" "Grab your keys" "r1"
                             "location-reminder" true);
                Console (mkLog LOG "Notification scheduled:" None);
                Console (mkLog ERROR "Error handling geofence enter:"
                           (Some (mkError "rejected")))] /\
  stored w' "r1" = Some Scenario.r1.
Proof. repeat split. Qed.

Lemma presented_app :
  forall j1 j2, presented (j1 ++ j2) = (presented j1 ++ presented j2)%list.
Proof.
  induction j1 as [|e j1 IH]; intros j2; simpl.
  - reflexivity.
  - destruct e; simpl; rewrite IH; reflexivity.
Qed.

Lemma statements_app :
  forall j1 j2, statements (j1 ++ j2) = (statements j1 ++ statements j2)%list.
Proof.
  induction j1 as [|e j1 IH]; intros j2; simpl.
  - reflexivity.
  - destruct e; simpl; rewrite IH; reflexivity.
Qed.

(** C4. When the region id matches no stored reminder, or a reminder whose
    [isActive] is false, [handleGeofenceEnter] presents no notification, runs
    no statement on the store, leaves the table as it was and resolves. *)
Theorem handleGeofenceEnter_drops_unknown_or_inactive :
  forall (P : Platform) (w : World) (reminderId : string),
    (stored w reminderId = None \/
     exists row, stored w reminderId = Some row /\
                 Reminder.isActive (DatabaseService.ofRow row) = false) ->
    exists w',
      LocationService.handleGeofenceEnter reminderId P w = (Resolved tt, w') /\
      presented (journal w') = presented (journal w) /\
      statements (journal w') = statements (journal w) /\
      reminders w' = reminders w.
Proof.
  intros P [d t en mo cl st j] reminderId H.
  unfold stored in H; simpl in H.
  unfold LocationService.handleGeofenceEnter,
    LocationService.handleGeofenceEnter_try.
  run.
  destruct d; simpl.
  - destruct (rejection P st); simpl.
    + eexists; split; [reflexivity|]; simpl.
      rewrite presented_app, statements_app; simpl.
      rewrite !app_nil_r; auto.
    + destruct t as [t|]; simpl.
      * destruct H as [H | (row & H & Hact)]; rewrite H; simpl.
        -- eexists; split; [reflexivity|]; simpl; auto.
        -- simpl in Hact. rewrite Hact.
           eexists; split; [reflexivity|]; simpl; auto.
      * eexists; split; [reflexivity|]; simpl.
        rewrite presented_app, statements_app; simpl.
        rewrite !app_nil_r; auto.
  - eexists; split; [reflexivity|]; simpl.
    rewrite presented_app, statements_app; simpl.
    rewrite !app_nil_r; auto.
Qed.

Lemma handleGeofenceEnter_drops_unknown_or_inactive_witness :
  exists w',
    LocationService.handleGeofenceEnter "r2" Scenario.host
      (Scenario.world [Scenario.r1]) = (Resolved tt, w') /\
    presented (journal w') = [] /\
    statements (journal w') = [] /\
    reminders w' = Some [Scenario.r1].
Proof.
  apply (handleGeofenceEnter_drops_unknown_or_inactive Scenario.host
           (Scenario.world [Scenario.r1]) "r2").
  left. reflexivity.
Defined.

(** ** Reverse geocoding *)

(** C9. When the reverse-geocoding lookup fails (the platform rejects the
    call, or it resolves to no result), [reverseGeocode] resolves to the
    latitude fixed to 6 decimals, a comma and a space, and the longitude
    fixed to 6 decimals; it raises no error. *)
Theorem reverseGeocode_falls_back_to_coordinates :
  forall (P : Platform) (w : World) (latitude longitude : JS.number),
    (rejection P (steps w) <> None \/ geocoded P (steps w) = []) ->
    exists w',
      LocationService.reverseGeocode latitude longitude P w
      = (Resolved (JS.toFixed (numberToString P) 6 latitude ++ ", " ++
                   JS.toFixed (numberToString P) 6 longitude), w').
Proof.
  intros P w latitude longitude H.
  unfold LocationService.reverseGeocode, reverseGeocodeAsync,
    LocationService.coordinates.
  run.
  destruct (rejection P (steps w)) as [e|] eqn:Hrej; simpl.
  - eexists; reflexivity.
  - destruct H as [H | H]; [congruence |].
    rewrite H. eexists; reflexivity.
Qed.

Lemma reverseGeocode_falls_back_to_coordinates_witness :
  (exists w',
      LocationService.reverseGeocode Scenario.lat Scenario.lon Scenario.failing
        (Scenario.world []) = (Resolved "37.774900, -122.419400", w')) /\
  (exists w',
      LocationService.reverseGeocode Scenario.lat Scenario.lon Scenario.host
        (Scenario.world []) = (Resolved "37.774900, -122.419400", w')).
Proof.
  split.
  - apply (reverseGeocode_falls_back_to_coordinates Scenario.failing
             (Scenario.world []) Scenario.lat Scenario.lon).
    left. discriminate.
  - apply (reverseGeocode_falls_back_to_coordinates Scenario.host
             (Scenario.world []) Scenario.lat Scenario.lon).
    right. reflexivity.
Defined.

(** ** Region registration *)

(** C3, as stated, fails: when the location permission was refused, the
    application goes on with location services not enabled, and
    [startGeofencing] called with the active reminder [r1] registers
    nothing. *)
Lemma startGeofencing_not_enabled_counterexample :
  ~ (forall (P : Platform) (w : World) (reminders : list Reminder.t),
        monitored (snd (LocationService.startGeofencing reminders P w))
        = map LocationService.regionOf (filter Reminder.isActive reminders)).
Proof.
  intros H.
  specialize (H Scenario.host (Scenario.locationRefused [Scenario.r1])
                [DatabaseService.ofRow Scenario.r1]).
  discriminate H.
Qed.

(** C3, amended. [startGeofencing] always resolves.  When location services
    are enabled and the platform accepts the call, the monitored set becomes
    exactly the regions (identifier = id, latitude, longitude, radius) of the
    reminders whose [isActive] is true, in place of the previous set, and a
    reminder with [isActive] false contributes no region.  When location
    services are not enabled, or the platform rejects the call, the monitored
    set stays as it was. *)
Theorem startGeofencing_replaces_monitored_regions :
  forall (P : Platform) (w : World) (reminders : list Reminder.t),
    exists w',
      LocationService.startGeofencing reminders P w = (Resolved tt, w') /\
      monitored w' =
        (if isLocationServicesEnabled w
         then match rejection P (steps w) with
              | None => map LocationService.regionOf
                          (filter Reminder.isActive reminders)
              | Some _ => monitored w
              end
         else monitored w) /\
      (isLocationServicesEnabled w = true ->
       rejection P (steps w) = None ->
       forall g,
         In g (monitored w') <->
         exists r, In r reminders /\ Reminder.isActive r = true /\
                   g = LocationService.regionOf r).
Proof.
  intros P [d t en mo cl st j] reminders.
  unfold LocationService.startGeofencing, startGeofencingAsync.
  run.
  destruct en; simpl.
  - destruct (rejection P st) eqn:Hrej; simpl.
    + eexists; split; [reflexivity|]; simpl.
      split; [reflexivity | intros _ Hn; discriminate Hn].
    + eexists; split; [reflexivity|]; simpl.
      split; [reflexivity|].
      intros _ _ g. rewrite in_map_iff. split.
      * intros (r & Hg & Hin). apply filter_In in Hin.
        exists r. destruct Hin; auto.
      * intros (r & Hin & Hact & Hg). exists r. split; [auto|].
        apply filter_In; auto.
  - eexists; split; [reflexivity|]; simpl.
    split; [reflexivity | intros Hn; discriminate Hn].
Qed.

Lemma startGeofencing_replaces_monitored_regions_witness :
  exists w',
    LocationService.startGeofencing [DatabaseService.ofRow Scenario.r1]
      Scenario.host (Scenario.world [Scenario.r1]) = (Resolved tt, w') /\
    monitored w' =
      [GeofenceRegion.mk "r1" Scenario.lat Scenario.lon (JS.ofZ 50)] /\
    In (GeofenceRegion.mk "r1" Scenario.lat Scenario.lon (JS.ofZ 50))
      (monitored w').
Proof.
  destruct (startGeofencing_replaces_monitored_regions Scenario.host
              (Scenario.world [Scenario.r1])
              [DatabaseService.ofRow Scenario.r1]) as (w' & Hrun & Hmon & Hin).
  exists w'. split; [exact Hrun|]. split; [exact Hmon|].
  apply (Hin eq_refl eq_refl).
  exists (DatabaseService.ofRow Scenario.r1).
  split; [left; reflexivity | split; reflexivity].
Defined.
Lemma Column_eqb_eq : forall a b, Column.eqb a b = true <-> a = b.
Proof.
  intros a b; split.
  - destruct a, b; simpl; intros H; try reflexivity; discriminate H.
  - intros ->. destruct b; reflexivity.
Qed.

Lemma Column_eqb_refl : forall a, Column.eqb a a = true.
Proof. intros a. apply Column_eqb_eq. reflexivity. Qed.

Lemma setCell_cell :
  forall c v r r',
    SQLite.setCell c v r = Resolved r' ->
    SQLite.cell c r' = SQLite.keptValue v /\
    forall c', c' <> c -> SQLite.cell c' r' = SQLite.cell c' r.
Proof.
  intros c v [i ti de la lo ra ad ac nt nb cr tr] r' H.
  destruct c, v as [|n|s]; simpl in H; try discriminate H;
    try (destruct n; simpl in H; try discriminate H);
    inversion H; subst; clear H;
    (split; [reflexivity | intros c' Hc'; destruct c'; try reflexivity; congruence]).
Qed.

Lemma setCell_any_row :
  forall c v r r' r0,
    SQLite.setCell c v r = Resolved r' ->
    exists r0', SQLite.setCell c v r0 = Resolved r0'.
Proof.
  intros c v [i ti de la lo ra ad ac nt nb cr tr] r'
         [i0 ti0 de0 la0 lo0 ra0 ad0 ac0 nt0 nb0 cr0 tr0] H.
  destruct c, v as [|n|s]; simpl in H; try discriminate H;
    try (destruct n; simpl in H; try discriminate H);
    simpl; eexists; reflexivity.
Qed.

(** *** What [collect] gathers *)

Lemma collect_length :
  forall updates fields values,
    DatabaseService.collect updates = (fields, values) ->
    List.length fields = List.length values.
Proof.
  induction updates as [|e rest IH]; intros fields values H; simpl in H.
  - inversion H; reflexivity.
  - destruct (DatabaseService.collect rest) as [fs vs].
    specialize (IH fs vs eq_refl).
    destruct (DatabaseService.bound e);
      [destruct (negb (Column.eqb (Entry.key e) Column.id))|];
      inversion H; subst; simpl; auto.
Qed.

Lemma collect_no_id :
  forall updates fields values,
    DatabaseService.collect updates = (fields, values) ->
    existsb (Column.eqb Column.id) fields = false.
Proof.
  induction updates as [|e rest IH]; intros fields values H; simpl in H.
  - inversion H; reflexivity.
  - destruct (DatabaseService.collect rest) as [fs vs].
    specialize (IH fs vs eq_refl).
    destruct (DatabaseService.bound e);
      [destruct (Column.eqb (Entry.key e) Column.id) eqn:Hk|];
      simpl in H; inversion H; subst; simpl; auto.
    rewrite IH.
    destruct (Entry.key e); simpl in *; try reflexivity; discriminate Hk.
Qed.

(** *** The UPDATE statement on the table *)

Lemma update_as_updateRows :
  forall fields values key t,
    List.length fields = List.length values ->
    existsb (Column.eqb Column.id) fields = false ->
    SQLite.update fields (values ++ [SQLite.Text key]) t
    = SQLite.updateRows (combine fields values) key t.
Proof.
  intros fields values key t Hlen Hid.
  unfold SQLite.update.
  rewrite length_app, <- Hlen; simpl.
  replace (List.length fields + 1)%nat with (S (List.length fields)) by lia.
  rewrite Nat.eqb_refl; simpl.
  rewrite Hlen at 1.
  rewrite app_nth2 by lia.
  rewrite Nat.sub_diag; simpl.
  rewrite Hlen at 1.
  rewrite firstn_app, Nat.sub_diag, firstn_all; simpl.
  rewrite app_nil_r, Hid; simpl.
  destruct (SQLite.updateRows (combine fields values) key t); reflexivity.
Qed.

Lemma setCells_id :
  forall sets r r',
    existsb (Column.eqb Column.id) (map fst sets) = false ->
    SQLite.setCells sets r = Resolved r' ->
    SQLite.Row.id r' = SQLite.Row.id r.
Proof.
  induction sets as [|[c v] rest IH]; intros r r' Hid H; simpl in *.
  - inversion H; reflexivity.
  - apply orb_false_iff in Hid as [Hc Hrest].
    destruct (SQLite.setCell c v r) as [r1|] eqn:H1; simpl in H; [|discriminate H].
    rewrite (IH r1 r' Hrest H).
    destruct (setCell_cell c v r r1 H1) as [_ Hframe].
    assert (Hne : Column.id <> c).
    { intros <-. rewrite Column_eqb_refl in Hc. discriminate Hc. }
    specialize (Hframe Column.id Hne). simpl in Hframe.
    inversion Hframe; reflexivity.
Qed.

Lemma setCells_any_row :
  forall sets r r' r0,
    SQLite.setCells sets r = Resolved r' ->
    exists r0', SQLite.setCells sets r0 = Resolved r0'.
Proof.
  induction sets as [|[c v] rest IH]; intros r r' r0 H; simpl in *.
  - eexists; reflexivity.
  - destruct (SQLite.setCell c v r) as [r1|] eqn:H1; simpl in H; [|discriminate H].
    destruct (setCell_any_row c v r r1 r0 H1) as [r0' H0].
    rewrite H0; simpl. apply (IH r1 r' r0' H).
Qed.

(** When the assignments fit one row they fit every row, so the statement
    goes through on the whole table. *)
Lemma updateRows_total :
  forall sets key r r',
    SQLite.setCells sets r = Resolved r' ->
    forall t, exists t', SQLite.updateRows sets key t = Resolved t'.
Proof.
  intros sets key r r' H.
  induction t as [|r0 rest [rest' IH]]; simpl.
  - eexists; reflexivity.
  - rewrite IH.
    destruct (String.eqb (SQLite.Row.id r0) key).
    + destruct (setCells_any_row sets r r' r0 H) as [r0' H0].
      rewrite H0; simpl. eexists; reflexivity.
    + simpl. eexists; reflexivity.
Qed.

(** A lookup after the statement: the row under the key is the old one with
    the assignments applied, every other row is as before. *)
Lemma selectById_updateRows :
  forall sets key t t',
    existsb (Column.eqb Column.id) (map fst sets) = false ->
    SQLite.updateRows sets key t = Resolved t' ->
    forall k,
      match SQLite.selectById k t with
      | None => SQLite.selectById k t' = None
      | Some r =>
          if String.eqb k key
          then exists r', SQLite.setCells sets r = Resolved r' /\
                          SQLite.selectById k t' = Some r'
          else SQLite.selectById k t' = Some r
      end.
Proof.
  intros sets key t t' Hid.
  revert t'.
  induction t as [|r0 rest IH]; intros t' H k; simpl in *.
  - inversion H; reflexivity.
  - destruct (String.eqb (SQLite.Row.id r0) key) eqn:Hkey.
    + destruct (SQLite.setCells sets r0) as [r0'|] eqn:H0; simpl in H; [|discriminate H].
      destruct (SQLite.updateRows sets key rest) as [rest'|] eqn:Hrest;
        simpl in H; [|discriminate H].
      inversion H; subst; clear H. simpl.
      rewrite (setCells_id sets r0 r0' Hid H0).
      destruct (String.eqb (SQLite.Row.id r0) k) eqn:Hk.
      * apply String.eqb_eq in Hk, Hkey. subst.
        rewrite String.eqb_refl. exists r0'. auto.
      * apply (IH rest' eq_refl k).
    + simpl in H.
      destruct (SQLite.updateRows sets key rest) as [rest'|] eqn:Hrest;
        simpl in H; [|discriminate H].
      inversion H; subst; clear H. simpl.
      destruct (String.eqb (SQLite.Row.id r0) k) eqn:Hk.
      * apply String.eqb_eq in Hk. subst k. rewrite Hkey. reflexivity.
      * apply (IH rest' eq_refl k).
Qed.

(** *** Single calls of the services *)

Lemma getReminder_found :
  forall P w id row,
    db w = true ->
    stored w id = Some row ->
    rejection P (steps w) = None ->
    DatabaseService.getReminder id P w
    = (Resolved (Some (DatabaseService.ofRow row)), tick P w).
Proof.
  intros P [d t en mo cl st j] id row Hdb Hst Hrej.
  unfold stored in Hst. simpl in *. subst d.
  run. rewrite Hrej; simpl.
  destruct t as [t|]; [|discriminate Hst].
  simpl. rewrite Hst. reflexivity.
Qed.

Lemma getReminder_missing :
  forall P w id t,
    db w = true ->
    reminders w = Some t ->
    SQLite.selectById id t = None ->
    rejection P (steps w) = None ->
    DatabaseService.getReminder id P w = (Resolved None, tick P w).
Proof.
  intros P [d t0 en mo cl st j] id t Hdb Ht Hst Hrej.
  simpl in *. subst d t0.
  run. rewrite Hrej; simpl. rewrite Hst. reflexivity.
Qed.

Lemma scheduleLocationNotification_accepted :
  forall P w reminder,
    rejection P (steps w) = None ->
    NotificationService.scheduleLocationNotification reminder P w
    = (Resolved (notificationIdentifier P (steps w)),
       emit (Console (mkLog LOG "Notification scheduled:" None))
         (emit (Presented
                  (mkRequest (Reminder.notificationTitle reminder)
                     (Reminder.notificationBody reminder)
                     (Reminder.id reminder) "location-reminder" true))
            (tick P w))).
Proof.
  intros P [d t en mo cl st j] reminder Hrej. simpl in Hrej.
  unfold NotificationService.scheduleLocationNotification,
    scheduleNotificationAsync.
  run. rewrite Hrej. reflexivity.
Qed.

(** What [updateReminder] does when the database is open, the table exists
    and the platform accepts the statement. *)
Lemma updateReminder_accepted :
  forall P w id updates t,
    db w = true ->
    reminders w = Some t ->
    rejection P (steps w) = None ->
    DatabaseService.updateReminder id updates P w
    = let '(fields, values) := DatabaseService.collect updates in
      match fields with
      | [] => (Resolved tt, w)
      | _ :: _ =>
          match SQLite.updateRows (combine fields values) id t with
          | Resolved t' =>
              (Resolved tt,
               emit (Ran (UpdateSet fields (values ++ [SQLite.Text id])%list))
                 (setReminders (Some t') (tick P w)))
          | Rejected e => (Rejected e, tick P w)
          end
      end.
Proof.
  intros P [d t0 en mo cl st j] id updates t Hdb Ht Hrej.
  simpl in *. subst d t0.
  unfold DatabaseService.updateReminder. run.
  destruct (DatabaseService.collect updates) as [fields values] eqn:Hc.
  destruct fields as [|f fields]; [reflexivity|].
  cbn -[SQLite.update SQLite.updateRows combine]. rewrite Hrej.
  cbn -[SQLite.update SQLite.updateRows combine].
  rewrite (update_as_updateRows (f :: fields) values id t
             (collect_length _ _ _ Hc) (collect_no_id _ _ _ Hc)).
  destruct (SQLite.updateRows (combine (f :: fields) values) id t);
    reflexivity.
Qed.

Lemma markReminderAsTriggered_accepted :
  forall P w id row t,
    db w = true ->
    reminders w = Some t ->
    SQLite.selectById id t = Some row ->
    rejection P (S (steps w)) = None ->
    exists t' row',
      DatabaseService.markReminderAsTriggered id P w
      = (Resolved tt,
         emit (Ran (UpdateSet [Column.triggeredAt]
                      [SQLite.Text (JS.toISOString (clock (tick P w)));
                       SQLite.Text id]))
           (setReminders (Some t') (tick P (tick P w)))) /\
      SQLite.selectById id t' = Some row' /\
      SQLite.Row.triggeredAt row' = Some (JS.toISOString (clock (tick P w))) /\
      (forall c, c <> Column.triggeredAt ->
                 SQLite.cell c row' = SQLite.cell c row) /\
      (forall k, k <> id -> SQLite.selectById k t' = SQLite.selectById k t).
Proof.
  intros P w id row t Hdb Ht Hrow Hrej.
  unfold DatabaseService.markReminderAsTriggered, Date_now, bind.
  rewrite (updateReminder_accepted P (tick P w) id _ t);
    [ | destruct w; exact Hdb | destruct w; exact Ht | destruct w; exact Hrej ].
  set (iso := JS.toISOString (clock (tick P w))).
  cbn [DatabaseService.collect DatabaseService.bound option_map Entry.key
       Column.eqb negb combine app].
  set (sets := [(Column.triggeredAt, SQLite.Text iso)]).
  assert (Hset : forall r, exists r',
             SQLite.setCells sets r = Resolved r' /\
             SQLite.Row.triggeredAt r' = Some iso /\
             forall c, c <> Column.triggeredAt ->
                       SQLite.cell c r' = SQLite.cell c r).
  { intros [i ti de la lo ra ad ac nt nb cr tr]. eexists.
    split; [reflexivity|]. split; [reflexivity|].
    intros c Hc. destruct c; try reflexivity. congruence. }
  destruct (Hset row) as (row' & Hrow' & Htr & Hframe).
  destruct (updateRows_total sets id row row' Hrow' t) as [t' Ht'].
  rewrite Ht'.
  assert (Hsel := selectById_updateRows sets id t t' eq_refl Ht').
  exists t', row'. split; [reflexivity|].
  split.
  { specialize (Hsel id). rewrite Hrow, String.eqb_refl in Hsel.
    destruct Hsel as (r2 & Hr2 & Hs2). rewrite Hrow' in Hr2.
    inversion Hr2; subst. exact Hs2. }
  split; [exact Htr|]. split; [exact Hframe|].
  intros k Hk. specialize (Hsel k).
  destruct (SQLite.selectById k t) as [r|]; [|exact Hsel].
  destruct (String.eqb k id) eqn:E; [|exact Hsel].
  apply String.eqb_eq in E. contradiction.
Qed.

Lemma selectById_id :
  forall key t row,
    SQLite.selectById key t = Some row -> SQLite.Row.id row = key.
Proof.
  induction t as [|r rest IH]; intros row H; simpl in H.
  - discriminate H.
  - destruct (String.eqb (SQLite.Row.id r) key) eqn:E.
    + inversion H; subst. apply String.eqb_eq. exact E.
    + apply IH. exact H.
Qed.

(** C1. When the region id matches a stored reminder whose [isActive] is
    true, and the platform rejects none of the handler's calls,
    [handleGeofenceEnter] presents exactly one notification, whose title and
    body are the reminder's [notificationTitle] and [notificationBody], and
    then, through [markReminderAsTriggered], sets the reminder's
    [triggeredAt] to the ISO form of a time that is not earlier than the time
    of the call.  The journal orders the two: the notification comes first,
    the UPDATE statement second. *)
Theorem handleGeofenceEnter_notifies_then_marks :
  forall (P : Platform) (w : World) (reminderId : string) (row : SQLite.Row.t),
    db w = true ->
    stored w reminderId = Some row ->
    Reminder.isActive (DatabaseService.ofRow row) = true ->
    accepts P (steps w) 4 ->
    exists w' time row',
      LocationService.handleGeofenceEnter reminderId P w = (Resolved tt, w') /\
      presented (journal w') =
        (presented (journal w) ++
         [mkRequest (SQLite.Row.notificationTitle row)
            (SQLite.Row.notificationBody row) reminderId
            "location-reminder" true])%list /\
      clock w <= time /\
      stored w' reminderId = Some row' /\
      SQLite.Row.triggeredAt row' = Some (JS.toISOString time) /\
      (forall c, c <> Column.triggeredAt ->
                 SQLite.cell c row' = SQLite.cell c row) /\
      journal w' =
        (journal w ++
         [Presented (mkRequest (SQLite.Row.notificationTitle row)
                       (SQLite.Row.notificationBody row) reminderId
                       "location-reminder" true);
          Console (mkLog LOG "Notification scheduled:" None);
          Ran (UpdateSet [Column.triggeredAt]
                 [SQLite.Text (JS.toISOString time); SQLite.Text reminderId]);
          Console (mkLog LOG "Location reminder triggered:" None)])%list.
Proof.
  intros P w reminderId row Hdb Hst Hact Hacc.
  assert (H0 : rejection P (steps w) = None) by (apply Hacc; lia).
  assert (H1 : rejection P (S (steps w)) = None) by (apply Hacc; lia).
  assert (H3 : rejection P (S (S (S (steps w)))) = None) by (apply Hacc; lia).
  unfold LocationService.handleGeofenceEnter,
    LocationService.handleGeofenceEnter_try, tryCatch, bind.
  rewrite (getReminder_found P w reminderId row Hdb Hst H0).
  rewrite Hact.
  rewrite scheduleLocationNotification_accepted
    by (destruct w; exact H1).
  assert (Hid : SQLite.Row.id row = reminderId).
  { unfold stored in Hst. destruct (reminders w); [|discriminate Hst].
    apply (selectById_id _ _ _ Hst). }
  unfold stored in Hst.
  destruct (reminders w) as [t|] eqn:Ht; [|discriminate Hst].
  set (w2 := emit _ (emit _ (tick P (tick P w)))).
  destruct (markReminderAsTriggered_accepted P w2 reminderId row t)
    as (t' & row' & Hrun & Hsel & Htr & Hframe & _);
    [ destruct w; exact Hdb | destruct w; exact Ht | exact Hst
    | destruct w; exact H3 | ].
  rewrite Hrun.
  exists (emit (Console (mkLog LOG "Location reminder triggered:" None))
            (emit (Ran (UpdateSet [Column.triggeredAt]
                          [SQLite.Text (JS.toISOString (clock (tick P w2)));
                           SQLite.Text reminderId]))
               (setReminders (Some t') (tick P (tick P w2))))),
         (clock (tick P w2)), row'.
  split; [reflexivity|].
  destruct w as [d t0 en mo cl st j]; simpl in *.
  rewrite Hid.
  split.
  { rewrite <- !app_assoc. rewrite presented_app. reflexivity. }
  split; [lia|].
  split; [exact Hsel|]. split; [exact Htr|]. split; [exact Hframe|].
  rewrite <- !app_assoc. reflexivity.
Qed.

Lemma handleGeofenceEnter_notifies_then_marks_witness :
  exists w' time row',
    LocationService.handleGeofenceEnter "r1" Scenario.host
      (Scenario.world [Scenario.r1]) = (Resolved tt, w') /\
    presented (journal w') =
      [mkRequest "Don't forget!" "Grab your keys" "r1" "location-reminder" true] /\
    1700000000000 <= time /\
    stored w' "r1" = Some row' /\
    SQLite.Row.triggeredAt row' = Some (JS.toISOString time) /\
    (forall c, c <> Column.triggeredAt ->
               SQLite.cell c row' = SQLite.cell c Scenario.r1) /\
    journal w' =
      [Presented (mkRequest "Don't forget!" "Grab your keys" "r1"
                    "location-reminder" true);
       Console (mkLog LOG "Notification scheduled:" None);
       Ran (UpdateSet [Column.triggeredAt]
              [SQLite.Text (JS.toISOString time); SQLite.Text "r1"]);
       Console (mkLog LOG "Location reminder triggered:" None)].
Proof.
  apply (handleGeofenceEnter_notifies_then_marks Scenario.host
           (Scenario.world [Scenario.r1]) "r1" Scenario.r1).
  - reflexivity.
  - reflexivity.
  - reflexivity.
  - intros i _. reflexivity.
Defined.

(** ** Creating a reminder and reading it back *)

Lemma integerToString_nonempty :
  forall z suffix, JS.integerToString z ++ suffix <> "".
Proof.
  intros z suffix. unfold JS.integerToString.
  destruct z as [|p|p]; simpl.
  - discriminate.
  - destruct (Pos.to_uint p); simpl; discriminate.
  - discriminate.
Qed.

Lemma selectById_app_new :
  forall key t row,
    SQLite.selectById key t = None ->
    SQLite.Row.id row = key ->
    SQLite.selectById key (t ++ [row])%list = Some row.
Proof.
  induction t as [|r rest IH]; intros row Hnone Hid; simpl in *.
  - rewrite Hid, String.eqb_refl. reflexivity.
  - destruct (String.eqb (SQLite.Row.id r) key); [discriminate Hnone|].
    apply IH; assumption.
Qed.

Lemma toNumber_number :
  forall c n,
    n <> JS.NaN ->
    SQLite.toNumber c (SQLite.Number n) = Resolved (SQLite.kept n).
Proof.
  intros c n Hn. destruct n; try reflexivity. contradiction Hn. reflexivity.
Qed.

Lemma toNumber_oneOrZero :
  forall c b,
    SQLite.toNumber c (SQLite.Number (DatabaseService.oneOrZero b))
    = Resolved (DatabaseService.oneOrZero b).
Proof. intros c []; reflexivity. Qed.

(** Only the sign of a zero is lost: a number that is not a zero is kept as
    it is, and so is every number that is at least 10. *)
Lemma kept_nonzero :
  forall n, (forall s, n <> S754_zero s) -> SQLite.kept n = n.
Proof.
  intros n Hn. destruct n as [s| | |s m e]; try reflexivity.
  destruct (Hn s eq_refl).
Qed.

Lemma kept_at_least_ten :
  forall n, JS.le (JS.ofZ 10) n = true -> SQLite.kept n = n.
Proof.
  intros n H. destruct n as [s| | |s m e]; try reflexivity.
  destruct s; vm_compute in H; discriminate H.
Qed.


Lemma kept_not_NaN : forall n, n <> JS.NaN -> SQLite.kept n <> JS.NaN.
Proof. intros n Hn E. destruct n; try discriminate E. apply Hn. reflexivity. Qed.

Lemma kept_kept : forall n, SQLite.kept (SQLite.kept n) = SQLite.kept n.
Proof. intros []; reflexivity. Qed.

Lemma truthy_oneOrZero :
  forall b, JS.truthy (DatabaseService.oneOrZero b) = b.
Proof. intros []; reflexivity. Qed.

Lemma toOptionalText_orNull :
  forall o,
    SQLite.toOptionalText (DatabaseService.orNull o)
    = Resolved (match o with
                | Some s => if JS.nonEmpty s then Some s else None
                | None => None
                end).
Proof. intros [[|a s]|]; reflexivity. Qed.

Lemma isFinite_not_NaN : forall n, JS.isFinite n = true -> n <> JS.NaN.
Proof. intros n H E. subst n. discriminate H. Qed.

Lemma le_not_NaN : forall a n, JS.le a n = true -> n <> JS.NaN.
Proof.
  intros a n H E. subst n. unfold JS.le, SFleb in H.
  destruct a; discriminate H.
Qed.

Lemma insert_accepted :
  forall i ti de la lo ra ad ac nt nb cr t,
    la <> JS.NaN -> lo <> JS.NaN -> ra <> JS.NaN ->
    SQLite.selectById i t = None ->
    SQLite.insert
      [SQLite.Text i; SQLite.Text ti; DatabaseService.orNull de;
       SQLite.Number la; SQLite.Number lo; SQLite.Number ra;
       DatabaseService.orNull ad;
       SQLite.Number (DatabaseService.oneOrZero ac);
       SQLite.Text nt; SQLite.Text nb; SQLite.Text cr] t
    = Resolved
        (t ++ [SQLite.Row.mk i ti
                 (match de with
                  | Some s => if JS.nonEmpty s then Some s else None
                  | None => None
                  end)
                 (SQLite.kept la) (SQLite.kept lo) (SQLite.kept ra)
                 (match ad with
                  | Some s => if JS.nonEmpty s then Some s else None
                  | None => None
                  end)
                 (DatabaseService.oneOrZero ac) nt nb cr None])%list.
Proof.
  intros i ti de la lo ra ad ac nt nb cr t Hla Hlo Hra Hfresh.
  unfold SQLite.insert.
  cbn [SQLite.toText SQLite.andThen].
  rewrite toOptionalText_orNull. cbn [SQLite.andThen].
  rewrite (toNumber_number _ _ Hla). cbn [SQLite.andThen].
  rewrite (toNumber_number _ _ Hlo). cbn [SQLite.andThen].
  rewrite (toNumber_number _ _ Hra). cbn [SQLite.andThen].
  rewrite toOptionalText_orNull. cbn [SQLite.andThen].
  rewrite toNumber_oneOrZero. cbn [SQLite.toText SQLite.andThen].
  rewrite Hfresh. reflexivity.
Qed.

(** What [addReminder] does when the database is open, the table exists, the
    numbers can be stored and the platform accepts the statement. *)
Lemma addReminder_accepted :
  forall P w reminder table,
    db w = true ->
    reminders w = Some table ->
    rejection P (S (S (S (steps w)))) = None ->
    NewReminder.latitude reminder <> JS.NaN ->
    NewReminder.longitude reminder <> JS.NaN ->
    NewReminder.radius reminder <> JS.NaN ->
    SQLite.selectById (generatedId P w) table = None ->
    exists w1,
      DatabaseService.addReminder reminder P w = (Resolved (generatedId P w), w1) /\
      db w1 = true /\
      steps w1 = S (S (S (S (steps w)))) /\
      clock w <= clock (tick P (tick P (tick P w))) /\
      stored w1 (generatedId P w) =
        Some (SQLite.Row.mk (generatedId P w)
                (NewReminder.title reminder)
                (match NewReminder.description reminder with
                 | Some s => if JS.nonEmpty s then Some s else None
                 | None => None
                 end)
                (SQLite.kept (NewReminder.latitude reminder))
                (SQLite.kept (NewReminder.longitude reminder))
                (SQLite.kept (NewReminder.radius reminder))
                (match NewReminder.address reminder with
                 | Some s => if JS.nonEmpty s then Some s else None
                 | None => None
                 end)
                (DatabaseService.oneOrZero (NewReminder.isActive reminder))
                (NewReminder.notificationTitle reminder)
                (NewReminder.notificationBody reminder)
                (JS.toISOString (clock (tick P (tick P (tick P w)))))
                None).
Proof.
  intros P [d t0 en mo cl st j] reminder table Hdb Ht Hrej Hla Hlo Hra Hfresh.
  unfold generatedId in *. simpl in *. subst d t0.
  unfold DatabaseService.addReminder, DatabaseService.requireDb, runAsync,
    platformCall, Date_now, Math_random_suffix, bind, ret, throw, get, modify.
  cbn -[SQLite.insert DatabaseService.orNull DatabaseService.oneOrZero].
  rewrite Hrej.
  cbn -[SQLite.insert DatabaseService.orNull DatabaseService.oneOrZero].
  rewrite (insert_accepted _ _ _ _ _ _ _ _ _ _ _ _ Hla Hlo Hra Hfresh).
  cbn [SQLite.andThen].
  eexists. split; [reflexivity|]. cbn.
  split; [reflexivity|]. split; [reflexivity|]. split; [lia|].
  unfold stored; cbn.
  apply selectById_app_new; [exact Hfresh | reflexivity].
Qed.

(** The engine keeps no sign of a zero: a reminder created at the latitude
    [-0] is read back with the latitude [0]. *)
Example addReminder_keeps_no_sign_of_zero :
  fst (DatabaseService.getReminder "1700000000001k3j9x0q2z" Scenario.host
         (snd (DatabaseService.addReminder
                 (NewReminder.mk "Grab keys" None (S754_zero true) Scenario.lon
                    (JS.ofZ 50) None true "Don't forget!" "Grab your keys"
                    None)
                 Scenario.host (Scenario.world []))))
  = Resolved
      (Some (Reminder.mk "1700000000001k3j9x0q2z" "Grab keys" None
               (S754_zero false) Scenario.lon (JS.ofZ 50) None true
               "Don't forget!" "Grab your keys" "2023-11-14T22:13:20.003Z"
               None)).
Proof. reflexivity. Qed.

(** C2, as stated, fails: the scenario's fields with an empty description
    are a valid field set; [addReminder] binds [description || null], so the
    record read back has no description, where the input had the empty
    string. *)
Lemma addReminder_empty_description_counterexample :
  ~ (forall (P : Platform) (w : World) (reminder : NewReminder.t)
            (id : string) (w1 : World) (r : Reminder.t) (w2 : World),
        validFields reminder ->
        DatabaseService.addReminder reminder P w = (Resolved id, w1) ->
        DatabaseService.getReminder id P w1 = (Resolved (Some r), w2) ->
        Reminder.description r = NewReminder.description reminder).
Proof.
  intros H.
  assert (Hvalid : validFields Scenario.fieldsWithEmptyDescription)
    by (repeat split; (discriminate || reflexivity)).
  specialize (H Scenario.host (Scenario.world [])
                Scenario.fieldsWithEmptyDescription
                "1700000000001k3j9x0q2z"
                (snd (DatabaseService.addReminder
                        Scenario.fieldsWithEmptyDescription
                        Scenario.host (Scenario.world [])))
                (Reminder.mk "1700000000001k3j9x0q2z" "Grab keys" None
                   Scenario.lat Scenario.lon (JS.ofZ 50) None true
                   "Don't forget!" "Grab your keys"
                   "2023-11-14T22:13:20.003Z" None)
                (snd (DatabaseService.getReminder "1700000000001k3j9x0q2z"
                        Scenario.host
                        (snd (DatabaseService.addReminder
                                Scenario.fieldsWithEmptyDescription
                                Scenario.host (Scenario.world [])))))
                Hvalid eq_refl eq_refl).
  discriminate H.
Qed.

(** C2, amended. For every valid field set, on an open database whose
    platform calls are accepted and in which the generated id is not taken,
    [addReminder] resolves to a non-empty id and [getReminder] of that id
    resolves to a record with that id, a [createdAt] that is the ISO form of
    a time not earlier than the call, the input's title, radius, isActive,
    notificationTitle and notificationBody, and the input's latitude,
    longitude, description and address with two exceptions: a latitude or
    longitude [-0] is read back as [0] (the engine keeps no sign of a zero),
    and an empty description or address is stored as absent. *)
Theorem addReminder_then_getReminder :
  forall (P : Platform) (w : World) (reminder : NewReminder.t)
         (table : SQLite.Table),
    validFields reminder ->
    db w = true ->
    reminders w = Some table ->
    accepts P (steps w) 5 ->
    SQLite.selectById (generatedId P w) table = None ->
    exists id w1 created r w2,
      DatabaseService.addReminder reminder P w = (Resolved id, w1) /\
      DatabaseService.getReminder id P w1 = (Resolved (Some r), w2) /\
      id <> "" /\
      Reminder.id r = id /\
      clock w <= created /\
      Reminder.createdAt r = JS.toISOString created /\
      Reminder.title r = NewReminder.title reminder /\
      Reminder.latitude r = SQLite.kept (NewReminder.latitude reminder) /\
      Reminder.longitude r = SQLite.kept (NewReminder.longitude reminder) /\
      ((forall s, NewReminder.latitude reminder <> S754_zero s) ->
       Reminder.latitude r = NewReminder.latitude reminder) /\
      ((forall s, NewReminder.longitude reminder <> S754_zero s) ->
       Reminder.longitude r = NewReminder.longitude reminder) /\
      Reminder.radius r = NewReminder.radius reminder /\
      Reminder.isActive r = NewReminder.isActive reminder /\
      Reminder.notificationTitle r = NewReminder.notificationTitle reminder /\
      Reminder.notificationBody r = NewReminder.notificationBody reminder /\
      Reminder.description r =
        match NewReminder.description reminder with
        | Some s => if JS.nonEmpty s then Some s else None
        | None => None
        end /\
      Reminder.address r =
        match NewReminder.address reminder with
        | Some s => if JS.nonEmpty s then Some s else None
        | None => None
        end.
Proof.
  intros P w reminder table Hvalid Hdb Ht Hacc Hfresh.
  destruct Hvalid as (_ & _ & _ & Hla & Hlo & Hra & _).
  assert (H3 : rejection P (S (S (S (steps w)))) = None) by (apply Hacc; lia).
  assert (H4 : rejection P (S (S (S (S (steps w))))) = None) by (apply Hacc; lia).
  destruct (addReminder_accepted P w reminder table Hdb Ht H3
              (isFinite_not_NaN _ Hla) (isFinite_not_NaN _ Hlo)
              (le_not_NaN _ _ Hra) Hfresh)
    as (w1 & Hadd & Hdb1 & Hsteps1 & Hclock & Hstored).
  exists (generatedId P w), w1, (clock (tick P (tick P (tick P w)))).
  eexists. exists (tick P w1).
  split; [exact Hadd|].
  split.
  { apply getReminder_found; [exact Hdb1 | exact Hstored |].
    rewrite Hsteps1. exact H4. }
  split; [apply integerToString_nonempty|].
  cbn. rewrite truthy_oneOrZero, (kept_at_least_ten _ Hra).
  repeat split; try exact Hclock; apply kept_nonzero.
Qed.

Lemma addReminder_then_getReminder_witness :
  exists id w1 created r w2,
    DatabaseService.addReminder Scenario.fieldsWithEmptyDescription
      Scenario.host (Scenario.world []) = (Resolved id, w1) /\
    DatabaseService.getReminder id Scenario.host w1 = (Resolved (Some r), w2) /\
    id <> "" /\
    Reminder.id r = id /\
    1700000000000 <= created /\
    Reminder.createdAt r = JS.toISOString created /\
    Reminder.title r = "Grab keys" /\
    Reminder.latitude r = Scenario.lat /\
    Reminder.longitude r = Scenario.lon /\
    ((forall s, Scenario.lat <> S754_zero s) ->
     Reminder.latitude r = Scenario.lat) /\
    ((forall s, Scenario.lon <> S754_zero s) ->
     Reminder.longitude r = Scenario.lon) /\
    Reminder.radius r = JS.ofZ 50 /\
    Reminder.isActive r = true /\
    Reminder.notificationTitle r = "Don't forget!" /\
    Reminder.notificationBody r = "Grab your keys" /\
    Reminder.description r = None /\
    Reminder.address r = None.
Proof.
  apply (addReminder_then_getReminder Scenario.host (Scenario.world [])
           Scenario.fieldsWithEmptyDescription []).
  - repeat split; (discriminate || reflexivity).
  - reflexivity.
  - reflexivity.
  - intros i _. reflexivity.
  - reflexivity.
Defined.


(** ** Updating a reminder *)

Lemma entry_setCell :
  forall e v r,
    DatabaseService.bound e = Some v ->
    v <> SQLite.Number JS.NaN ->
    exists r', SQLite.setCell (Entry.key e) v r = Resolved r'.
Proof.
  intros e v [i ti de la lo ra ad ac nt nb cr tr] Hb Hv.
  destruct e as [o|o|o|o|o|o|o|o|o|o|o|o]; destruct o as [x|];
    simpl in Hb; try discriminate Hb; inversion Hb; subst; clear Hb;
    try (eexists; reflexivity).
  - destruct x; try (eexists; reflexivity). contradiction Hv; reflexivity.
  - destruct x; try (eexists; reflexivity). contradiction Hv; reflexivity.
  - destruct x; try (eexists; reflexivity). contradiction Hv; reflexivity.
  - destruct x; eexists; reflexivity.
Qed.

Lemma collect_setCells_total :
  forall updates fields values,
    (forall e, In e updates ->
               DatabaseService.bound e <> Some (SQLite.Number JS.NaN)) ->
    DatabaseService.collect updates = (fields, values) ->
    forall r, exists r', SQLite.setCells (combine fields values) r = Resolved r'.
Proof.
  induction updates as [|e rest IH]; intros fields values Hnan Hc r;
    simpl in Hc.
  - inversion Hc; subst. eexists; reflexivity.
  - destruct (DatabaseService.collect rest) as [fs vs].
    assert (Hrest : forall e0, In e0 rest ->
              DatabaseService.bound e0 <> Some (SQLite.Number JS.NaN))
      by (intros e0 He0; apply Hnan; right; exact He0).
    specialize (IH fs vs Hrest eq_refl).
    destruct (DatabaseService.bound e) as [v|] eqn:Hb.
    + destruct (negb (Column.eqb (Entry.key e) Column.id));
        inversion Hc; subst; clear Hc; [|apply IH].
      assert (Hv : v <> SQLite.Number JS.NaN).
      { intros ->. apply (Hnan e); [left; reflexivity | exact Hb]. }
      destruct (entry_setCell e v r Hb Hv) as [r1 H1].
      simpl. rewrite H1. simpl. apply IH.
    + inversion Hc; subst. apply IH.
Qed.

(** After the assignments gathered by [collect], a column holds the value
    the update provides for it, as the engine keeps it, the key column
    apart, and its old content when the update provides none. *)
Lemma collect_setCells_cell :
  forall updates fields values r r',
    DatabaseService.collect updates = (fields, values) ->
    SQLite.setCells (combine fields values) r = Resolved r' ->
    forall c,
      SQLite.cell c r' =
        match provided c updates with
        | Some v => if Column.eqb c Column.id then SQLite.cell c r
                    else SQLite.keptValue v
        | None => SQLite.cell c r
        end.
Proof.
  induction updates as [|e rest IH]; intros fields values r r' Hc Hset c;
    simpl in Hc.
  - inversion Hc; subst. simpl in Hset. inversion Hset; subst. reflexivity.
  - destruct (DatabaseService.collect rest) as [fs vs].
    cbn [provided].
    destruct (DatabaseService.bound e) as [v|] eqn:Hb.
    + destruct (Column.eqb (Entry.key e) Column.id) eqn:Hk;
        simpl in Hc; inversion Hc; subst; clear Hc.
      * rewrite (IH _ _ r r' eq_refl Hset c).
        destruct (provided c rest); [reflexivity|].
        destruct (Column.eqb (Entry.key e) c) eqn:Hkc; [|reflexivity].
        apply Column_eqb_eq in Hk, Hkc. rewrite <- Hkc, Hk. reflexivity.
      * simpl in Hset.
        destruct (SQLite.setCell (Entry.key e) v r) as [r1|] eqn:H1;
          simpl in Hset; [|discriminate Hset].
        destruct (setCell_cell _ _ _ _ H1) as [Hnew Hframe].
        rewrite (IH _ _ r1 r' eq_refl Hset c).
        assert (Hidframe : SQLite.cell Column.id r1 = SQLite.cell Column.id r).
        { apply Hframe. intros E. rewrite <- E in Hk. discriminate Hk. }
        destruct (provided c rest).
        -- destruct (Column.eqb c Column.id) eqn:Hcid; [|reflexivity].
           apply Column_eqb_eq in Hcid. subst c. exact Hidframe.
        -- destruct (Column.eqb (Entry.key e) c) eqn:Hkc.
           ++ apply Column_eqb_eq in Hkc. subst c.
              assert (Hsw : Column.eqb (Entry.key e) Column.id = false) by exact Hk.
              destruct (Column.eqb (Entry.key e) Column.id); [discriminate Hsw|].
              exact Hnew.
           ++ apply Hframe. intros E. subst c.
              rewrite Column_eqb_refl in Hkc. discriminate Hkc.
    + inversion Hc; subst; clear Hc.
      rewrite (IH _ _ r r' eq_refl Hset c).
      destruct (provided c rest); [reflexivity|].
      destruct (Column.eqb (Entry.key e) c); reflexivity.
Qed.

Lemma collect_nothing :
  forall updates,
    (forall e, In e updates -> DatabaseService.bound e = None) ->
    DatabaseService.collect updates = ([], []).
Proof.
  induction updates as [|e rest IH]; intros H; simpl.
  - reflexivity.
  - rewrite IH by (intros e0 He0; apply H; right; exact He0).
    rewrite (H e) by (left; reflexivity). reflexivity.
Qed.

Lemma map_fst_combine :
  forall (fields : list Column.t) (values : list SQLite.BindValue),
    List.length fields = List.length values ->
    map fst (combine fields values) = fields.
Proof.
  induction fields as [|f fields IH]; intros [|v values] H; simpl in *;
    try reflexivity; try discriminate H.
  rewrite IH by lia. reflexivity.
Qed.

Lemma collect_sets_no_id :
  forall updates fields values,
    DatabaseService.collect updates = (fields, values) ->
    existsb (Column.eqb Column.id) (map fst (combine fields values)) = false.
Proof.
  intros updates fields values Hc.
  rewrite (map_fst_combine _ _ (collect_length _ _ _ Hc)).
  apply (collect_no_id _ _ _ Hc).
Qed.

(** What [updateReminder] leaves in the table for a stored id, when the
    platform accepts the statement and no number provided is [NaN]. *)
Lemma updateReminder_stored :
  forall P w id updates row,
    db w = true ->
    stored w id = Some row ->
    rejection P (steps w) = None ->
    (forall e, In e updates ->
               DatabaseService.bound e <> Some (SQLite.Number JS.NaN)) ->
    exists w' row',
      DatabaseService.updateReminder id updates P w = (Resolved tt, w') /\
      stored w' id = Some row' /\
      (forall c,
          SQLite.cell c row' =
            match provided c updates with
            | Some v => if Column.eqb c Column.id
                        then SQLite.cell c row else SQLite.keptValue v
            | None => SQLite.cell c row
            end) /\
      (forall k, k <> id -> stored w' k = stored w k).
Proof.
  intros P w id updates row Hdb Hst Hrej Hnan.
  unfold stored in Hst.
  destruct (reminders w) as [t|] eqn:Ht; [|discriminate Hst].
  rewrite (updateReminder_accepted P w id updates t Hdb Ht Hrej).
  destruct (DatabaseService.collect updates) as [fields values] eqn:Hc.
  destruct (collect_setCells_total updates fields values Hnan Hc row)
    as [row' Hrow'].
  pose proof (collect_setCells_cell updates fields values row row' Hc Hrow')
    as Hcells.
  destruct fields as [|f fields].
  + simpl in Hrow'. inversion Hrow'; subst row'.
    exists w, row. unfold stored. rewrite Ht.
    split; [reflexivity|]. split; [exact Hst|].
    split; [exact Hcells | reflexivity].
  + destruct (updateRows_total _ id row row' Hrow' t) as [t' Ht'].
    rewrite Ht'.
    pose proof (selectById_updateRows _ id t t'
                  (collect_sets_no_id _ _ _ Hc) Ht') as Hsel.
    eexists. exists row'. split; [reflexivity|].
    unfold stored. destruct w as [d t0 en mo cl st j]; simpl in *.
    split.
    { specialize (Hsel id). rewrite Hst, String.eqb_refl in Hsel.
      destruct Hsel as (r2 & Hr2 & Hs2). rewrite Hrow' in Hr2.
      inversion Hr2; subst. exact Hs2. }
    split; [exact Hcells|].
    intros k Hk. subst t0. specialize (Hsel k).
    destruct (SQLite.selectById k t) as [r|]; [|exact Hsel].
    destruct (String.eqb k id) eqn:E; [|exact Hsel].
    apply String.eqb_eq in E. contradiction.
Qed.

(** An update to the longitude [-0] leaves the longitude [0] in the row. *)
Example updateReminder_keeps_no_sign_of_zero :
  stored (snd (DatabaseService.updateReminder "r1"
                 [Entry.longitude (Some (S754_zero true))]
                 Scenario.host (Scenario.world [Scenario.r1]))) "r1"
  = Some (SQLite.Row.mk "r1" "Grab keys" None Scenario.lat (S754_zero false)
            (JS.ofZ 50) None (JS.ofZ 1) "Don't forget!" "Grab your keys"
            "2023-11-14T22:13:20.000Z" None).
Proof. reflexivity. Qed.

(** C6, as stated, fails: [updateReminder] skips the key ['id'], so an update
    that provides an id does not apply it.  On the scenario's table,
    [updateReminder "r1" {id: "r2"}] resolves and leaves the record as it
    was; no record holds the provided id. *)
Lemma updateReminder_skips_id_counterexample :
  ~ (forall (P : Platform) (w : World) (id : string)
            (updates : list Entry.t) (row : SQLite.Row.t),
        db w = true ->
        stored w id = Some row ->
        rejection P (steps w) = None ->
        (forall e, In e updates ->
                   DatabaseService.bound e <> Some (SQLite.Number JS.NaN)) ->
        exists w' t' row',
          DatabaseService.updateReminder id updates P w = (Resolved tt, w') /\
          reminders w' = Some t' /\ In row' t' /\
          forall c,
            SQLite.cell c row' =
              match provided c updates with
              | Some v => SQLite.keptValue v
              | None => SQLite.cell c row
              end).
Proof.
  intros H.
  destruct (H Scenario.host (Scenario.world [Scenario.r1]) "r1"
              [Entry.id (Some "r2")] Scenario.r1 eq_refl eq_refl eq_refl)
    as (w' & t' & row' & Hrun & Ht' & Hin & Hcells).
  { intros e [<- | []]. discriminate. }
  vm_compute in Hrun. inversion Hrun; subst w'; clear Hrun.
  simpl in Ht'. inversion Ht'; subst t'; clear Ht'.
  destruct Hin as [<- | []].
  specialize (Hcells Column.id). discriminate Hcells.
Qed.

(** C6, amended. On an open database [updateReminder] resolves without
    touching anything when the field set is empty or holds only [undefined]
    values.  For a stored id, when the platform accepts the statement and no
    number provided is [NaN], it resolves and the record under that id then
    holds, in every column other than [id], the provided value where the
    field set gives one that is not [undefined], and its old content
    otherwise; a provided number is held as the engine keeps it, which is
    the number itself except that [-0] is kept as [0]; the [id] column keeps
    its content even when the field set provides an id; the other records
    are as before. *)
Theorem updateReminder_applies_provided_fields :
  forall (P : Platform) (w : World) (id : string) (updates : list Entry.t),
    db w = true ->
    ((forall e, In e updates -> DatabaseService.bound e = None) ->
     DatabaseService.updateReminder id updates P w = (Resolved tt, w)) /\
    (forall row,
        stored w id = Some row ->
        rejection P (steps w) = None ->
        (forall e, In e updates ->
                   DatabaseService.bound e <> Some (SQLite.Number JS.NaN)) ->
        exists w' row',
          DatabaseService.updateReminder id updates P w = (Resolved tt, w') /\
          stored w' id = Some row' /\
          (forall c,
              SQLite.cell c row' =
                match provided c updates with
                | Some v => if Column.eqb c Column.id
                            then SQLite.cell c row else SQLite.keptValue v
                | None => SQLite.cell c row
                end) /\
          (forall k, k <> id -> stored w' k = stored w k)).
Proof.
  intros P w id updates Hdb. split.
  - intros Hnone.
    unfold DatabaseService.updateReminder, DatabaseService.requireDb,
      bind, get, ret.
    rewrite Hdb, (collect_nothing updates Hnone). reflexivity.
  - intros row Hst Hrej Hnan.
    apply (updateReminder_stored P w id updates row Hdb Hst Hrej Hnan).
Qed.

Lemma updateReminder_applies_provided_fields_witness :
  DatabaseService.updateReminder "r1" [Entry.description None] Scenario.host
    (Scenario.world [Scenario.r1])
  = (Resolved tt, Scenario.world [Scenario.r1]) /\
  exists w' row',
    DatabaseService.updateReminder "r1"
      [Entry.id (Some "r2"); Entry.isActive (Some false);
       Entry.description None; Entry.radius (Some (JS.ofZ 75))]
      Scenario.host (Scenario.world [Scenario.r1]) = (Resolved tt, w') /\
    stored w' "r1" = Some row' /\
    (forall c,
        SQLite.cell c row' =
          match c with
          | Column.isActive => SQLite.Number (JS.ofZ 0)
          | Column.radius => SQLite.Number (JS.ofZ 75)
          | _ => SQLite.cell c Scenario.r1
          end) /\
    (forall k, k <> "r1" -> stored w' k = stored (Scenario.world [Scenario.r1]) k).
Proof.
  split.
  - apply (updateReminder_applies_provided_fields Scenario.host
             (Scenario.world [Scenario.r1]) "r1" [Entry.description None]
             eq_refl).
    intros e [<- | []]. reflexivity.
  - destruct (updateReminder_applies_provided_fields Scenario.host
                (Scenario.world [Scenario.r1]) "r1"
                [Entry.id (Some "r2"); Entry.isActive (Some false);
                 Entry.description None; Entry.radius (Some (JS.ofZ 75))]
                eq_refl) as [_ H].
    destruct (H Scenario.r1 eq_refl eq_refl) as (w' & row' & Hrun & Hst & Hc & Hk).
    { intros e [<- | [<- | [<- | [<- | []]]]]; discriminate. }
    exists w', row'. split; [exact Hrun|]. split; [exact Hst|].
    split; [|exact Hk].
    intros c. rewrite (Hc c). destruct c; reflexivity.
Defined.

(** ** What every store operation respects *)

Section Respects.

Variable R : World -> World -> Prop.
Hypothesis R_refl : forall w, R w w.
Hypothesis R_trans : forall a b c, R a b -> R b c -> R a c.

Lemma respects_ret : forall (A : Type) (a : A), respects R (ret a).
Proof. intros A a P w c w' H. inversion H; subst. apply R_refl. Qed.

Lemma respects_throw : forall (A : Type) (e : Error), respects R (@throw A e).
Proof. intros A e P w c w' H. inversion H; subst. apply R_refl. Qed.

Lemma respects_get :
  forall (A : Type) (f : World -> A), respects R (get f).
Proof. intros A f P w c w' H. inversion H; subst. apply R_refl. Qed.

Lemma respects_ask :
  forall (A : Type) (f : Platform -> A), respects R (ask f).
Proof. intros A f P w c w' H. inversion H; subst. apply R_refl. Qed.

Lemma respects_modify :
  forall f, (forall w, R w (f w)) -> respects R (modify f).
Proof. intros f Hf P w c w' H. inversion H; subst. apply Hf. Qed.

Lemma respects_bind :
  forall (A B : Type) (m : M A) (k : A -> M B),
    respects R m -> (forall a, respects R (k a)) -> respects R (bind m k).
Proof.
  intros A B m k Hm Hk P w c w' H. unfold bind in H.
  destruct (m P w) as [[a|e] w1] eqn:Em.
  - apply (R_trans w w1 w'); [apply (Hm P w _ _ Em) | apply (Hk a P w1 _ _ H)].
  - inversion H; subst. apply (Hm P w _ _ Em).
Qed.

Lemma respects_tryCatch :
  forall (A : Type) (body : M A) (handler : Error -> M A),
    respects R body -> (forall e, respects R (handler e)) ->
    respects R (tryCatch body handler).
Proof.
  intros A body handler Hb Hh P w c w' H. unfold tryCatch in H.
  destruct (body P w) as [[a|e] w1] eqn:Eb.
  - inversion H; subst. apply (Hb P w _ _ Eb).
  - apply (R_trans w w1 w'); [apply (Hb P w _ _ Eb) | apply (Hh e P w1 _ _ H)].
Qed.

Hypothesis R_tick : forall P w, R w (tick P w).
Hypothesis R_emit : forall e w, R w (emit e w).
Hypothesis R_setDb : forall b w, R w (setDb b w).

Lemma respects_platformCall : respects R platformCall.
Proof.
  intros P w c w' H. unfold platformCall in H.
  destruct (rejection P (steps w)); inversion H; subst; apply R_tick.
Qed.

Lemma respects_Date_now : respects R Date_now.
Proof. intros P w c w' H. inversion H; subst. apply R_tick. Qed.

Lemma respects_Math_random_suffix : respects R Math_random_suffix.
Proof. intros P w c w' H. inversion H; subst. apply R_tick. Qed.

Lemma respects_console_error :
  forall s e, respects R (console_error s e).
Proof. intros s e. apply respects_modify. intros w. apply R_emit. Qed.

Lemma respects_requireDb : respects R DatabaseService.requireDb.
Proof.
  apply respects_bind; [apply respects_get|].
  intros []; [apply respects_ret | apply respects_throw].
Qed.

Lemma respects_getFirstAsync : forall key, respects R (getFirstAsync key).
Proof.
  intros key. apply respects_bind; [apply respects_platformCall|]. intros _.
  apply respects_bind; [apply respects_get|].
  intros [t|]; [apply respects_ret | apply respects_throw].
Qed.

Lemma respects_getAllAsync : respects R getAllAsync.
Proof.
  apply respects_bind; [apply respects_platformCall|]. intros _.
  apply respects_bind; [apply respects_get|].
  intros [t|]; [apply respects_ret | apply respects_throw].
Qed.

(** [runAsync] respects [R] when storing the statement's result does. *)
Lemma respects_runAsync :
  forall s,
    (forall w t', exec s (reminders w) = Resolved t' -> R w (setReminders t' w)) ->
    respects R (runAsync s).
Proof.
  intros s Hs P w c w' H. unfold runAsync, bind, get in H.
  destruct (platformCall P w) as [[[]|e] w1] eqn:Ec.
  - pose proof (respects_platformCall P w _ _ Ec) as H1.
    destruct (exec s (reminders w1)) as [t'|e] eqn:Ee.
    + unfold modify in H. inversion H; subst.
      apply (R_trans w w1 _ H1).
      apply (R_trans w1 (setReminders t' w1) _ (Hs w1 t' Ee)).
      apply R_emit.
    + inversion H; subst. exact H1.
  - inversion H; subst. apply (respects_platformCall P w _ _ Ec).
Qed.

End Respects.

(** ** [triggeredAt] stays set *)

Lemma keepsTriggered_same_table :
  forall id w w', reminders w' = reminders w -> keepsTriggered id w w'.
Proof. intros id w w' H Ht. rewrite H. exact Ht. Qed.

Lemma selectById_app_old :
  forall key t t2 r,
    SQLite.selectById key t = Some r ->
    SQLite.selectById key (t ++ t2)%list = Some r.
Proof.
  induction t as [|r0 rest IH]; intros t2 r H; simpl in *.
  - discriminate H.
  - destruct (String.eqb (SQLite.Row.id r0) key); [exact H | apply IH; exact H].
Qed.

Lemma insert_appends :
  forall params t t',
    SQLite.insert params t = Resolved t' -> exists row, t' = (t ++ [row])%list.
Proof.
  intros params t t' H. unfold SQLite.insert in H.
  do 12 (destruct params as [|? params]; try discriminate H).
  repeat match type of H with
         | SQLite.andThen ?c _ = _ =>
             destruct c; simpl in H; [|discriminate H]
         end.
  destruct (SQLite.selectById _ t); [discriminate H|].
  inversion H; subst. eexists; reflexivity.
Qed.

Lemma selectById_delete_other :
  forall key k t,
    k <> key -> SQLite.selectById key (SQLite.delete k t) = SQLite.selectById key t.
Proof.
  intros key k. induction t as [|r rest IH]; intros Hk; simpl.
  - reflexivity.
  - destruct (String.eqb (SQLite.Row.id r) k) eqn:Ek; simpl.
    + apply String.eqb_eq in Ek.
      destruct (String.eqb (SQLite.Row.id r) key) eqn:E.
      * apply String.eqb_eq in E. congruence.
      * apply IH; exact Hk.
    + destruct (String.eqb (SQLite.Row.id r) key); [reflexivity | apply IH; exact Hk].
Qed.

Lemma bound_not_null :
  forall e, DatabaseService.bound e <> Some SQLite.Null.
Proof. intros [[]|[]|[]|[]|[]|[]|[]|[]|[]|[]|[]|[]]; discriminate. Qed.

Lemma provided_not_null :
  forall c updates, provided c updates <> Some SQLite.Null.
Proof.
  intros c. induction updates as [|e rest IH]; simpl.
  - discriminate.
  - destruct (provided c rest) as [v|]; [exact IH|].
    destruct (Column.eqb (Entry.key e) c); [apply bound_not_null | discriminate].
Qed.

(** The assignments gathered by [collect] never empty [triggeredAt]. *)
Lemma collect_keeps_triggeredAt :
  forall updates fields values r r' v,
    DatabaseService.collect updates = (fields, values) ->
    SQLite.setCells (combine fields values) r = Resolved r' ->
    SQLite.Row.triggeredAt r = Some v ->
    exists v', SQLite.Row.triggeredAt r' = Some v'.
Proof.
  intros updates fields values r r' v Hc Hset Hv.
  pose proof (collect_setCells_cell _ _ _ _ _ Hc Hset Column.triggeredAt) as H.
  pose proof (provided_not_null Column.triggeredAt updates) as Hn.
  simpl in H. rewrite Hv in H.
  destruct (SQLite.Row.triggeredAt r') as [v'|]; [exists v'; reflexivity|].
  simpl in H.
  destruct (provided Column.triggeredAt updates) as [b|]; [|discriminate H].
  destruct b; simpl in H; try discriminate H.
  contradiction Hn. reflexivity.
Qed.

Section KeepsTriggered.

Variable id : string.

Lemma keeps_refl : forall w, keepsTriggered id w w.
Proof. intros w H. exact H. Qed.

Lemma keeps_trans :
  forall a b c,
    keepsTriggered id a b -> keepsTriggered id b c -> keepsTriggered id a c.
Proof. intros a b c Hab Hbc H. apply Hbc, Hab, H. Qed.

Lemma keeps_tick : forall P w, keepsTriggered id w (tick P w).
Proof. intros P w. apply keepsTriggered_same_table. reflexivity. Qed.

Lemma keeps_emit : forall e w, keepsTriggered id w (emit e w).
Proof. intros e w. apply keepsTriggered_same_table. reflexivity. Qed.

Lemma keeps_setDb : forall b w, keepsTriggered id w (setDb b w).
Proof. intros b w. apply keepsTriggered_same_table. reflexivity. Qed.

Lemma keeps_create :
  forall w t',
    exec CreateTableIfNotExists (reminders w) = Resolved t' ->
    keepsTriggered id w (setReminders t' w).
Proof.
  intros w t' H (row & v & Hrow & Hv). exists row, v.
  destruct (reminders w) as [t|] eqn:Ht; [|discriminate Hrow].
  simpl in H. inversion H; subst. simpl. auto.
Qed.

Lemma keeps_insert :
  forall params w t',
    exec (InsertInto params) (reminders w) = Resolved t' ->
    keepsTriggered id w (setReminders t' w).
Proof.
  intros params w t' H (row & v & Hrow & Hv). exists row, v.
  destruct (reminders w) as [t|] eqn:Ht; [|discriminate Hrow].
  simpl in H.
  destruct (SQLite.insert params t) as [t1|] eqn:Hi; [|discriminate H].
  simpl in H. inversion H; subst.
  destruct (insert_appends _ _ _ Hi) as [r ->].
  simpl. split; [apply selectById_app_old; exact Hrow | exact Hv].
Qed.

Lemma keeps_delete :
  forall k w t',
    k <> id ->
    exec (DeleteFrom k) (reminders w) = Resolved t' ->
    keepsTriggered id w (setReminders t' w).
Proof.
  intros k w t' Hk H (row & v & Hrow & Hv). exists row, v.
  destruct (reminders w) as [t|] eqn:Ht; [|discriminate Hrow].
  simpl in H. inversion H; subst. simpl.
  rewrite selectById_delete_other by exact Hk. auto.
Qed.

Lemma keeps_update :
  forall updates fields values k w t',
    DatabaseService.collect updates = (fields, values) ->
    exec (UpdateSet fields (values ++ [SQLite.Text k])%list) (reminders w)
    = Resolved t' ->
    keepsTriggered id w (setReminders t' w).
Proof.
  intros updates fields values k w t' Hc H (row & v & Hrow & Hv).
  destruct (reminders w) as [t|] eqn:Ht; [|discriminate Hrow].
  cbn [exec] in H.
  rewrite (update_as_updateRows fields values k t
             (collect_length _ _ _ Hc) (collect_no_id _ _ _ Hc)) in H.
  destruct (SQLite.updateRows (combine fields values) k t) as [t1|] eqn:Hu;
    [|discriminate H].
  simpl in H. inversion H; subst.
  pose proof (selectById_updateRows _ k t t1
                (collect_sets_no_id _ _ _ Hc) Hu id) as Hsel.
  rewrite Hrow in Hsel. unfold triggered. simpl.
  destruct (String.eqb id k).
  - destruct Hsel as (r' & Hr' & Hs').
    destruct (collect_keeps_triggeredAt _ _ _ _ _ _ Hc Hr' Hv) as [v' Hv'].
    exists r', v'. auto.
  - exists row, v. auto.
Qed.

Lemma keeps_updateReminder :
  forall k updates,
    respects (keepsTriggered id) (DatabaseService.updateReminder k updates).
Proof.
  intros k updates. unfold DatabaseService.updateReminder.
  apply (respects_bind _ keeps_trans);
    [apply (respects_requireDb _ keeps_refl keeps_trans)|].
  intros _.
  destruct (DatabaseService.collect updates) as [fields values] eqn:Hc.
  destruct (Nat.eqb (List.length fields) 0);
    [apply (respects_ret _ keeps_refl)|].
  apply (respects_runAsync _ keeps_trans keeps_tick keeps_emit).
  intros w t'. apply (keeps_update updates fields values k w t' Hc).
Qed.

(** Every operation other than the deletion of [id] keeps a set
    [triggeredAt] of [id] set. *)
Lemma keeps_perform :
  forall op, op <> DeleteReminder id -> respects (keepsTriggered id) (perform op).
Proof.
  pose proof (respects_bind _ keeps_trans) as Hbind.
  pose proof (respects_ret _ keeps_refl) as Hret.
  pose proof (respects_requireDb _ keeps_refl keeps_trans) as Hreq.
  pose proof (respects_runAsync _ keeps_trans keeps_tick keeps_emit) as Hrun.
  intros op Hop. destruct op as [|reminder| |k|k updates|k|k]; simpl.
  - unfold DatabaseService.initialize, DatabaseService.createTables.
    apply (respects_tryCatch _ keeps_trans).
    + apply Hbind; [apply (respects_platformCall _ keeps_tick)|]. intros _.
      apply Hbind; [apply (respects_modify _); apply keeps_setDb|]. intros _.
      apply Hbind; [apply Hreq|]. intros _.
      apply Hrun. apply keeps_create.
    + intros e. apply Hbind;
        [apply (respects_console_error _ keeps_emit)|].
      intros _. apply (respects_throw _ keeps_refl).
  - unfold DatabaseService.addReminder.
    apply Hbind; [|intros; apply Hret].
    apply Hbind; [apply Hreq|]. intros _.
    apply Hbind; [apply (respects_Date_now _ keeps_tick)|]. intros now.
    apply Hbind; [apply (respects_Math_random_suffix _ keeps_tick)|]. intros suffix.
    apply Hbind; [apply (respects_Date_now _ keeps_tick)|]. intros created.
    apply Hbind; [|intros; apply Hret].
    apply Hrun. apply keeps_insert.
  - unfold DatabaseService.getAllReminders.
    apply Hbind; [|intros; apply Hret].
    apply Hbind; [apply Hreq|]. intros _.
    apply Hbind; [apply (respects_getAllAsync _ keeps_refl keeps_trans keeps_tick)|].
    intros; apply Hret.
  - unfold DatabaseService.getReminder.
    apply Hbind; [|intros; apply Hret].
    apply Hbind; [apply Hreq|]. intros _.
    apply Hbind; [apply (respects_getFirstAsync _ keeps_refl keeps_trans keeps_tick)|].
    intros [row|]; apply Hret.
  - apply keeps_updateReminder.
  - unfold DatabaseService.deleteReminder.
    apply Hbind; [apply Hreq|]. intros _.
    apply Hrun. intros w t'. apply keeps_delete.
    intros ->. apply Hop. reflexivity.
  - unfold DatabaseService.markReminderAsTriggered.
    apply Hbind; [apply (respects_Date_now _ keeps_tick)|]. intros now.
    apply keeps_updateReminder.
Qed.

End KeepsTriggered.

(** ** The clock does not go back *)

Lemma clock_refl : forall w, clockAdvances w w.
Proof. intros w. unfold clockAdvances. lia. Qed.

Lemma clock_trans :
  forall a b c, clockAdvances a b -> clockAdvances b c -> clockAdvances a c.
Proof. unfold clockAdvances. intros; lia. Qed.

Lemma clock_tick : forall P w, clockAdvances w (tick P w).
Proof. intros P w. unfold clockAdvances. simpl. lia. Qed.

Lemma clock_emit : forall e w, clockAdvances w (emit e w).
Proof. intros e w. unfold clockAdvances. simpl. lia. Qed.

Lemma clock_setDb : forall b w, clockAdvances w (setDb b w).
Proof. intros b w. unfold clockAdvances. simpl. lia. Qed.

Lemma clock_runAsync : forall s, respects clockAdvances (runAsync s).
Proof.
  intros s.
  apply (respects_runAsync clockAdvances clock_trans clock_tick clock_emit).
  intros w t' _. unfold clockAdvances. simpl. lia.
Qed.

Lemma clock_updateReminder :
  forall k updates, respects clockAdvances (DatabaseService.updateReminder k updates).
Proof.
  intros k updates. unfold DatabaseService.updateReminder.
  apply (respects_bind _ clock_trans);
    [apply (respects_requireDb _ clock_refl clock_trans)|].
  intros _.
  destruct (DatabaseService.collect updates) as [fields values].
  destruct (Nat.eqb (List.length fields) 0);
    [apply (respects_ret _ clock_refl) | apply clock_runAsync].
Qed.

Lemma clock_perform : forall op, respects clockAdvances (perform op).
Proof.
  pose proof (respects_bind _ clock_trans) as Hbind.
  pose proof (respects_ret _ clock_refl) as Hret.
  pose proof (respects_requireDb _ clock_refl clock_trans) as Hreq.
  intros op. destruct op as [|reminder| |k|k updates|k|k]; simpl.
  - unfold DatabaseService.initialize, DatabaseService.createTables.
    apply (respects_tryCatch _ clock_trans).
    + apply Hbind; [apply (respects_platformCall _ clock_tick)|]. intros _.
      apply Hbind; [apply (respects_modify _); apply clock_setDb|]. intros _.
      apply Hbind; [apply Hreq | intros _; apply clock_runAsync].
    + intros e. apply Hbind;
        [apply (respects_console_error _ clock_emit)|].
      intros _. apply (respects_throw _ clock_refl).
  - unfold DatabaseService.addReminder.
    apply Hbind; [|intros; apply Hret].
    apply Hbind; [apply Hreq|]. intros _.
    apply Hbind; [apply (respects_Date_now _ clock_tick)|]. intros now.
    apply Hbind; [apply (respects_Math_random_suffix _ clock_tick)|]. intros suffix.
    apply Hbind; [apply (respects_Date_now _ clock_tick)|]. intros created.
    apply Hbind; [apply clock_runAsync | intros; apply Hret].
  - unfold DatabaseService.getAllReminders.
    apply Hbind; [|intros; apply Hret].
    apply Hbind; [apply Hreq|]. intros _.
    apply Hbind;
      [apply (respects_getAllAsync _ clock_refl clock_trans clock_tick)|].
    intros; apply Hret.
  - unfold DatabaseService.getReminder.
    apply Hbind; [|intros; apply Hret].
    apply Hbind; [apply Hreq|]. intros _.
    apply Hbind;
      [apply (respects_getFirstAsync _ clock_refl clock_trans clock_tick)|].
    intros [row|]; apply Hret.
  - apply clock_updateReminder.
  - unfold DatabaseService.deleteReminder.
    apply Hbind; [apply Hreq | intros _; apply clock_runAsync].
  - unfold DatabaseService.markReminderAsTriggered.
    apply Hbind; [apply (respects_Date_now _ clock_tick)|]. intros now.
    apply clock_updateReminder.
Qed.

Lemma performAll_respects :
  forall (R : World -> World -> Prop) (allowed : StoreOperation -> Prop),
    (forall w, R w w) ->
    (forall a b c, R a b -> R b c -> R a c) ->
    (forall op, allowed op -> respects R (perform op)) ->
    forall P ops w,
      (forall op, In op ops -> allowed op) ->
      R w (performAll ops P w).
Proof.
  intros R allowed Hrefl Htrans Hop P.
  induction ops as [|op rest IH]; intros w Hall; simpl.
  - apply Hrefl.
  - apply (Htrans w (snd (perform op P w))).
    + destruct (perform op P w) as [c w1] eqn:E.
      apply (Hop op (Hall op (or_introl eq_refl)) P w c w1 E).
    + apply IH. intros op' Hin. apply Hall. right. exact Hin.
Qed.

(** C7, as stated, fails: [updateReminder] writes whatever [triggeredAt] it
    is given.  On the scenario's triggered reminder, an update that provides
    a timestamp of the year 2000 resolves, and the stored [triggeredAt] is
    then older than it was. *)
Lemma updateReminder_older_triggeredAt_counterexample :
  ~ (forall (P : Platform) (w : World) (id : string)
            (updates : list Entry.t) (row : SQLite.Row.t) (old : string)
            (w' : World) (row' : SQLite.Row.t) (new : string),
        stored w id = Some row ->
        SQLite.Row.triggeredAt row = Some old ->
        DatabaseService.updateReminder id updates P w = (Resolved tt, w') ->
        stored w' id = Some row' ->
        SQLite.Row.triggeredAt row' = Some new ->
        String.leb old new = true).
Proof.
  intros H.
  specialize (H Scenario.host (Scenario.world [Scenario.r1Triggered]) "r1"
                [Entry.triggeredAt (Some "2000-01-01T00:00:00.000Z")]
                Scenario.r1Triggered "2023-11-14T22:13:20.003Z"
                (snd (DatabaseService.updateReminder "r1"
                        [Entry.triggeredAt (Some "2000-01-01T00:00:00.000Z")]
                        Scenario.host (Scenario.world [Scenario.r1Triggered])))
                (SQLite.Row.mk "r1" "Grab keys" None Scenario.lat Scenario.lon
                   (JS.ofZ 50) None (JS.ofZ 1) "Don't forget!" "Grab your keys"
                   "2023-11-14T22:13:20.000Z" (Some "2000-01-01T00:00:00.000Z"))
                "2000-01-01T00:00:00.000Z"
                eq_refl eq_refl eq_refl eq_refl eq_refl).
  discriminate H.
Qed.

(** C7, amended. Once the [triggeredAt] of a reminder is set, no series of
    store operations that does not delete that reminder returns it to unset,
    whatever the platform does.  [markReminderAsTriggered] replaces it with
    the ISO form of the time it reads, which is not earlier than the call,
    and the clock never goes back across store operations; [updateReminder]
    replaces it with the string it is given (which need not be a newer
    timestamp) and cannot clear it. *)
Theorem triggeredAt_stays_set :
  forall (P : Platform) (id : string) (ops : list StoreOperation) (w : World),
    (forall op, In op ops -> op <> DeleteReminder id) ->
    triggered (reminders w) id ->
    triggered (reminders (performAll ops P w)) id /\
    clock w <= clock (performAll ops P w) /\
    (forall row,
        db w = true ->
        stored w id = Some row ->
        rejection P (S (steps w)) = None ->
        exists w' time row',
          DatabaseService.markReminderAsTriggered id P w = (Resolved tt, w') /\
          clock w <= time <= clock w' /\
          stored w' id = Some row' /\
          SQLite.Row.triggeredAt row' = Some (JS.toISOString time)).
Proof.
  intros P id ops w Hops Htrig. split; [|split].
  - apply (performAll_respects (keepsTriggered id)
             (fun op => op <> DeleteReminder id)
             (keeps_refl id) (keeps_trans id) (keeps_perform id) P ops w Hops).
    exact Htrig.
  - apply (performAll_respects clockAdvances (fun _ => True)
             clock_refl clock_trans (fun op _ => clock_perform op) P ops w).
    intros; exact I.
  - intros row Hdb Hst Hrej.
    unfold stored in Hst.
    destruct (reminders w) as [t|] eqn:Ht; [|discriminate Hst].
    destruct (markReminderAsTriggered_accepted P w id row t Hdb Ht Hst Hrej)
      as (t' & row' & Hrun & Hsel & Htr & _).
    eexists. exists (clock (tick P w)), row'.
    split; [exact Hrun|].
    destruct w as [d t0 en mo cl st j]; simpl in *.
    split; [lia|]. split; [exact Hsel | exact Htr].
Qed.

Lemma triggeredAt_stays_set_witness :
  triggered
    (reminders
       (performAll
          [UpdateReminder "r1" [Entry.triggeredAt None; Entry.isActive (Some false)];
           AddReminder Scenario.fields;
           DeleteReminder "r2";
           MarkReminderAsTriggered "r1";
           UpdateReminder "r1" [Entry.triggeredAt (Some "")]]
          Scenario.host (Scenario.world [Scenario.r1Triggered]))) "r1" /\
  1700000000000 <=
    clock (performAll
             [UpdateReminder "r1" [Entry.triggeredAt None; Entry.isActive (Some false)];
              AddReminder Scenario.fields;
              DeleteReminder "r2";
              MarkReminderAsTriggered "r1";
              UpdateReminder "r1" [Entry.triggeredAt (Some "")]]
             Scenario.host (Scenario.world [Scenario.r1Triggered])) /\
  exists w' time row',
    DatabaseService.markReminderAsTriggered "r1" Scenario.host
      (Scenario.world [Scenario.r1Triggered]) = (Resolved tt, w') /\
    1700000000000 <= time <= clock w' /\
    stored w' "r1" = Some row' /\
    SQLite.Row.triggeredAt row' = Some (JS.toISOString time).
Proof.
  destruct (triggeredAt_stays_set Scenario.host "r1"
              [UpdateReminder "r1" [Entry.triggeredAt None; Entry.isActive (Some false)];
               AddReminder Scenario.fields;
               DeleteReminder "r2";
               MarkReminderAsTriggered "r1";
               UpdateReminder "r1" [Entry.triggeredAt (Some "")]]
              (Scenario.world [Scenario.r1Triggered])) as (H1 & H2 & H3).
  - intros op [<- | [<- | [<- | [<- | [<- | []]]]]]; discriminate.
  - exists Scenario.r1Triggered, "2023-11-14T22:13:20.003Z".
    split; reflexivity.
  - split; [exact H1|]. split; [exact H2|].
    apply (H3 Scenario.r1Triggered); reflexivity.
Defined.

(** ** The radius entry *)

Lemma SFcompare_antisym :
  forall x y, SFcompare y x = option_map CompOpp (SFcompare x y).
Proof.
  intros [sx|sx| |sx mx ex] [sy|sy| |sy my ey]; simpl; try reflexivity;
    try (destruct sx; reflexivity); try (destruct sy; reflexivity);
    try (destruct sx, sy; reflexivity).
  pose proof (Pos.compare_cont_antisym mx my Eq) as Hm. simpl in Hm.
  destruct sx, sy; simpl; try reflexivity.
  - rewrite (Z.compare_antisym ex ey).
    destruct (ex ?= ey)%Z eqn:E; simpl; try reflexivity.
    rewrite <- Hm.
    destruct (Pos.compare_cont Eq mx my); reflexivity.
  - rewrite (Z.compare_antisym ex ey).
    destruct (ex ?= ey)%Z eqn:E; simpl; try reflexivity.
    rewrite <- Hm. reflexivity.
Qed.



(** and [c <= x] gives [!(x < c)]. *)
Lemma le_not_lt :
  forall x c, JS.le c x = true -> JS.lt x c = false.
Proof.
  intros x c H. unfold JS.lt, JS.le, SFltb, SFleb in *.
  rewrite (SFcompare_antisym c x).
  destruct (SFcompare c x) as [[]|]; simpl;
    try reflexivity; discriminate H.
Qed.






Lemma validateForm_passes :
  forall P w s,
    JS.nonEmpty (JS.trim (EditReminderScreen.title s)) = true ->
    JS.nonEmpty (JS.trim (EditReminderScreen.notificationTitle s)) = true ->
    JS.nonEmpty (JS.trim (EditReminderScreen.notificationBody s)) = true ->
    JS.le (JS.ofZ 10) (EditReminderScreen.radius s) = true ->
    JS.le (EditReminderScreen.radius s) (JS.ofZ 1000) = true ->
    EditReminderScreen.validateForm s P w = (Resolved true, w).
Proof.
  intros P w s Ht Hnt Hnb Hlo Hhi.
  unfold EditReminderScreen.validateForm.
  rewrite Ht, Hnt, Hnb. cbn [negb].
  rewrite (le_not_lt _ _ Hlo).
  unfold JS.gt. fold (JS.lt (JS.ofZ 1000) (EditReminderScreen.radius s)).
  rewrite (le_not_lt _ _ Hhi). reflexivity.
Qed.

(** Whatever the form holds, [validateForm] writes nothing to the table, and
    it answers [true] only for a radius that is neither below 10 nor above
    1000. *)
Lemma validateForm_cases :
  forall P w s,
    exists b w',
      EditReminderScreen.validateForm s P w = (Resolved b, w') /\
      reminders w' = reminders w /\
      (b = true ->
       w' = w /\
       JS.lt (EditReminderScreen.radius s) (JS.ofZ 10) = false /\
       JS.gt (EditReminderScreen.radius s) (JS.ofZ 1000) = false).
Proof.
  intros P w s. unfold EditReminderScreen.validateForm.
  destruct (negb (JS.nonEmpty (JS.trim (EditReminderScreen.title s))));
    [eexists; eexists; split; [reflexivity|]; split;
     [reflexivity | intros E; discriminate E]|].
  destruct (negb (JS.nonEmpty (JS.trim (EditReminderScreen.notificationTitle s))));
    [eexists; eexists; split; [reflexivity|]; split;
     [reflexivity | intros E; discriminate E]|].
  destruct (negb (JS.nonEmpty (JS.trim (EditReminderScreen.notificationBody s))));
    [eexists; eexists; split; [reflexivity|]; split;
     [reflexivity | intros E; discriminate E]|].
  destruct (JS.lt (EditReminderScreen.radius s) (JS.ofZ 10)) eqn:Elt;
    [eexists; eexists; split; [reflexivity|]; split;
     [reflexivity | intros E; discriminate E]|].
  destruct (JS.gt (EditReminderScreen.radius s) (JS.ofZ 1000)) eqn:Egt;
    [eexists; eexists; split; [reflexivity|]; split;
     [reflexivity | intros E; discriminate E]|].
  exists true, w. split; [reflexivity|]. split; [reflexivity|].
  intros _. auto.
Qed.








(** The same through [updateReminder]: a radius of 2000 is stored as it is. *)
Example updateReminder_persists_any_radius :
  stored (snd (DatabaseService.updateReminder "r1"
                 [Entry.radius (Some (JS.ofZ 2000))]
                 Scenario.host (Scenario.world [Scenario.r1]))) "r1"
  = Some (SQLite.Row.mk "r1" "Grab keys" None Scenario.lat Scenario.lon
            (JS.ofZ 2000) None (JS.ofZ 1) "Don't forget!" "Grab your keys"
            "2023-11-14T22:13:20.000Z" None).
Proof. reflexivity. Qed.



(** * Further properties of the services and screens *)

(** ** The store: what every operation respects *)

(** [runAsync] respects a relation that steps and the journal's record of a
    statement respect, when storing the statement's result does. *)
Lemma respects_runAsync_ran :
  forall R : World -> World -> Prop,
    (forall a b c, R a b -> R b c -> R a c) ->
    (forall P w, R w (tick P w)) ->
    (forall s w, R w (emit (Ran s) w)) ->
    forall s,
      (forall w t', exec s (reminders w) = Resolved t' ->
                    R w (setReminders t' w)) ->
      respects R (runAsync s).
Proof.
  intros R Htrans Htick Hran s Hs P w c w' H. unfold runAsync, bind, get in H.
  destruct (platformCall P w) as [[[]|e] w1] eqn:Ec.
  - pose proof (respects_platformCall R Htick P w _ _ Ec) as H1.
    destruct (exec s (reminders w1)) as [t'|e] eqn:Ee.
    + unfold modify in H. inversion H; subst.
      apply (Htrans w w1 _ H1).
      apply (Htrans w1 (setReminders t' w1) _ (Hs w1 t' Ee)).
      apply Hran.
    + inversion H; subst. exact H1.
  - inversion H; subst. apply (respects_platformCall R Htick P w _ _ Ec).
Qed.

(** Every operation of the store respects a relation that is reflexive and
    transitive, that steps, console lines, the journal's record of a
    statement and the opening of the database respect, and that the
    statements of the store respect. *)
Lemma perform_respects :
  forall R : World -> World -> Prop,
    (forall w, R w w) ->
    (forall a b c, R a b -> R b c -> R a c) ->
    (forall P w, R w (tick P w)) ->
    (forall entry w, R w (emit (Console entry) w)) ->
    (forall s w, R w (emit (Ran s) w)) ->
    (forall w, R w (setDb true w)) ->
    (forall s, Issued s ->
               forall w t', exec s (reminders w) = Resolved t' ->
                            R w (setReminders t' w)) ->
    forall op, respects R (perform op).
Proof.
  intros R Hrefl Htrans Htick Hlog Hran HsetDb Hexec.
  pose proof (respects_bind R Htrans) as Hbind.
  pose proof (respects_ret R Hrefl) as Hret.
  pose proof (respects_requireDb R Hrefl Htrans) as Hreq.
  pose proof (respects_runAsync_ran R Htrans Htick Hran) as Hrun.
  assert (Hupd : forall k updates,
             respects R (DatabaseService.updateReminder k updates)).
  { intros k updates. unfold DatabaseService.updateReminder.
    apply Hbind; [apply Hreq|]. intros _.
    destruct (DatabaseService.collect updates) as [fields values] eqn:Hc.
    destruct (Nat.eqb (List.length fields) 0); [apply Hret|].
    apply Hrun. apply Hexec. apply (Issued_update updates); exact Hc. }
  intros op. destruct op as [|reminder| |k|k updates|k|k]; simpl.
  - unfold DatabaseService.initialize, DatabaseService.createTables.
    apply (respects_tryCatch R Htrans).
    + apply Hbind; [apply (respects_platformCall R Htick)|]. intros _.
      apply Hbind; [apply (respects_modify R); apply HsetDb|]. intros _.
      apply Hbind; [apply Hreq|]. intros _.
      apply Hrun. apply Hexec. constructor.
    + intros e. unfold console_error.
      apply Hbind; [apply (respects_modify R); intros; apply Hlog|].
      intros _. apply (respects_throw R Hrefl).
  - unfold DatabaseService.addReminder.
    apply Hbind; [|intros; apply Hret].
    apply Hbind; [apply Hreq|]. intros _.
    apply Hbind; [apply (respects_Date_now R Htick)|]. intros now.
    apply Hbind; [apply (respects_Math_random_suffix R Htick)|]. intros suffix.
    apply Hbind; [apply (respects_Date_now R Htick)|]. intros created.
    apply Hbind; [|intros; apply Hret].
    apply Hrun. apply Hexec. constructor.
  - unfold DatabaseService.getAllReminders.
    apply Hbind; [|intros; apply Hret].
    apply Hbind; [apply Hreq|]. intros _.
    apply Hbind; [apply (respects_getAllAsync R Hrefl Htrans Htick)|].
    intros; apply Hret.
  - unfold DatabaseService.getReminder.
    apply Hbind; [|intros; apply Hret].
    apply Hbind; [apply Hreq|]. intros _.
    apply Hbind; [apply (respects_getFirstAsync R Hrefl Htrans Htick)|].
    intros [row|]; apply Hret.
  - apply Hupd.
  - unfold DatabaseService.deleteReminder.
    apply Hbind; [apply Hreq|]. intros _.
    apply Hrun. apply Hexec. constructor.
  - unfold DatabaseService.markReminderAsTriggered.
    apply Hbind; [apply (respects_Date_now R Htick)|]. intros now.
    apply Hupd.
Qed.

(** ** Unique ids *)

Lemma selectById_None_not_In :
  forall key t,
    SQLite.selectById key t = None -> ~ In key (map SQLite.Row.id t).
Proof.
  induction t as [|r rest IH]; intros H Hin; simpl in *.
  - exact Hin.
  - destruct (String.eqb (SQLite.Row.id r) key) eqn:E; [discriminate H|].
    destruct Hin as [Hin | Hin].
    + rewrite Hin, String.eqb_refl in E. discriminate E.
    + apply (IH H Hin).
Qed.

Lemma selectById_In :
  forall key t row, SQLite.selectById key t = Some row -> In row t.
Proof.
  induction t as [|r rest IH]; intros row H; simpl in *.
  - discriminate H.
  - destruct (String.eqb (SQLite.Row.id r) key).
    + inversion H. left. reflexivity.
    + right. apply IH. exact H.
Qed.

Lemma insert_row :
  forall params t t',
    SQLite.insert params t = Resolved t' ->
    exists row, t' = (t ++ [row])%list /\
                SQLite.selectById (SQLite.Row.id row) t = None.
Proof.
  intros params t t' H. unfold SQLite.insert in H.
  do 12 (destruct params as [|? params]; try discriminate H).
  repeat match type of H with
         | SQLite.andThen ?c _ = _ =>
             destruct c; simpl in H; [|discriminate H]
         end.
  destruct (SQLite.selectById _ t) eqn:E; [discriminate H|].
  inversion H; subst. eexists. split; [reflexivity | exact E].
Qed.

Lemma updateRows_ids :
  forall sets key t t',
    existsb (Column.eqb Column.id) (map fst sets) = false ->
    SQLite.updateRows sets key t = Resolved t' ->
    map SQLite.Row.id t' = map SQLite.Row.id t.
Proof.
  intros sets key. induction t as [|r rest IH]; intros t' Hid H; simpl in H.
  - inversion H. reflexivity.
  - destruct (String.eqb (SQLite.Row.id r) key).
    + destruct (SQLite.setCells sets r) as [r'|] eqn:Hr; simpl in H;
        [|discriminate H].
      destruct (SQLite.updateRows sets key rest) as [rest'|] eqn:Hrest;
        simpl in H; [|discriminate H].
      inversion H; subst. simpl.
      rewrite (setCells_id _ _ _ Hid Hr), (IH rest' Hid eq_refl). reflexivity.
    + simpl in H.
      destruct (SQLite.updateRows sets key rest) as [rest'|] eqn:Hrest;
        simpl in H; [|discriminate H].
      inversion H; subst. simpl.
      rewrite (IH rest' Hid eq_refl). reflexivity.
Qed.

Lemma NoDup_map_filter :
  forall (A B : Type) (f : A -> B) (p : A -> bool) (l : list A),
    NoDup (map f l) -> NoDup (map f (filter p l)).
Proof.
  intros A B f p. induction l as [|a l IH]; intros H; simpl.
  - constructor.
  - inversion H as [|x xs Hnot Hrest]; subst.
    destruct (p a); simpl; [|apply IH; exact Hrest].
    constructor; [|apply IH; exact Hrest].
    intros Hin. apply Hnot.
    apply in_map_iff in Hin as (x & Hx & Hin).
    apply filter_In in Hin as [Hin _].
    apply in_map_iff. exists x. auto.
Qed.

Lemma NoDup_snoc :
  forall (A : Type) (l : list A) (a : A),
    NoDup l -> ~ In a l -> NoDup (l ++ [a]).
Proof.
  intros A. induction l as [|x l IH]; intros a Hl Ha; simpl.
  - constructor; [intros [] | constructor].
  - inversion Hl as [|y ys Hnot Hrest]; subst.
    constructor.
    + intros Hin. apply in_app_or in Hin as [Hin | [Hin | []]].
      * exact (Hnot Hin).
      * apply Ha. left. symmetry. exact Hin.
    + apply IH; [exact Hrest | intros Hin; apply Ha; right; exact Hin].
Qed.

Lemma issued_keeps_unique :
  forall s, Issued s ->
            forall w t', exec s (reminders w) = Resolved t' ->
                         keepsUnique w (setReminders t' w).
Proof.
  intros s Hs w t' H Hu. simpl.
  destruct Hs as [|params|updates fields values key Hc|key].
  - destruct (reminders w) as [t|]; simpl in H; inversion H; subst; simpl.
    + exact Hu.
    + constructor.
  - destruct (reminders w) as [t|]; [|discriminate H]. simpl in H, Hu.
    destruct (SQLite.insert params t) as [t1|] eqn:Hi; [|discriminate H].
    simpl in H. inversion H; subst. simpl.
    destruct (insert_row _ _ _ Hi) as (row & -> & Hnew).
    rewrite map_app. simpl.
    apply NoDup_snoc; [exact Hu | apply selectById_None_not_In; exact Hnew].
  - destruct (reminders w) as [t|]; [|discriminate H]. cbn [exec] in H.
    simpl in Hu.
    rewrite (update_as_updateRows fields values key t
               (collect_length _ _ _ Hc) (collect_no_id _ _ _ Hc)) in H.
    destruct (SQLite.updateRows (combine fields values) key t) as [t1|] eqn:E;
      [|discriminate H].
    simpl in H. inversion H; subst. simpl.
    rewrite (updateRows_ids _ _ _ _ (collect_sets_no_id _ _ _ Hc) E).
    exact Hu.
  - destruct (reminders w) as [t|]; [|discriminate H]. simpl in H, Hu.
    inversion H; subst. simpl.
    unfold SQLite.delete. apply NoDup_map_filter. exact Hu.
Qed.

(** X1. Ids stay unique: when no two rows of the table have the same id, no
    series of store operations, whatever the platform does, leaves two rows
    with the same id. *)
Theorem store_keeps_ids_unique :
  forall (P : Platform) (ops : list StoreOperation) (w : World),
    uniqueKeys (reminders w) ->
    uniqueKeys (reminders (performAll ops P w)).
Proof.
  intros P ops w Hu.
  assert (Hrefl : forall a, keepsUnique a a) by (intros a H; exact H).
  assert (Htrans : forall a b c,
             keepsUnique a b -> keepsUnique b c -> keepsUnique a c)
    by (intros a b c Hab Hbc H; apply Hbc, Hab, H).
  apply (performAll_respects keepsUnique (fun _ => True) Hrefl Htrans
           (fun op _ =>
              perform_respects keepsUnique Hrefl Htrans
                (fun _ _ H => H) (fun _ _ H => H) (fun _ _ H => H)
                (fun _ H => H) issued_keeps_unique op)
           P ops w (fun _ _ => I)).
  exact Hu.
Qed.

Lemma store_keeps_ids_unique_witness :
  uniqueKeys
    (reminders
       (performAll
          [AddReminder Scenario.fields; AddReminder Scenario.fields;
           UpdateReminder "r1" [Entry.id (Some "r2"); Entry.title (Some "Keys")];
           DeleteReminder "r1"; AddReminder Scenario.fields]
          Scenario.host (Scenario.world [Scenario.r1]))).
Proof.
  apply (store_keeps_ids_unique Scenario.host).
  simpl. constructor; [intros [] | constructor].
Defined.

(** ** Deleting *)

Lemma deleteReminder_accepted :
  forall P w id t,
    db w = true ->
    reminders w = Some t ->
    rejection P (steps w) = None ->
    DatabaseService.deleteReminder id P w
    = (Resolved tt,
       emit (Ran (DeleteFrom id))
         (setReminders (Some (SQLite.delete id t)) (tick P w))).
Proof.
  intros P [d t0 en mo cl st j] id t Hdb Ht Hrej. simpl in *. subst d t0.
  unfold DatabaseService.deleteReminder. run. rewrite Hrej. reflexivity.
Qed.

Lemma selectById_delete_same :
  forall key t, SQLite.selectById key (SQLite.delete key t) = None.
Proof.
  intros key. induction t as [|r rest IH]; simpl.
  - reflexivity.
  - destruct (String.eqb (SQLite.Row.id r) key) eqn:E; simpl.
    + exact IH.
    + rewrite E. exact IH.
Qed.

Lemma delete_missing :
  forall key t, SQLite.selectById key t = None -> SQLite.delete key t = t.
Proof.
  intros key. induction t as [|r rest IH]; intros H; simpl in *.
  - reflexivity.
  - destruct (String.eqb (SQLite.Row.id r) key); [discriminate H|].
    simpl. rewrite (IH H). reflexivity.
Qed.

(** X2. On an open database whose calls the platform accepts,
    [deleteReminder] resolves and a [getReminder] of the same id then
    resolves to [null]; the records under other ids are as before, and
    deleting an id that is not stored leaves the table as it was. *)
Theorem deleteReminder_then_getReminder :
  forall (P : Platform) (w : World) (id : string) (t : SQLite.Table),
    db w = true ->
    reminders w = Some t ->
    accepts P (steps w) 2 ->
    exists w1 w2,
      DatabaseService.deleteReminder id P w = (Resolved tt, w1) /\
      DatabaseService.getReminder id P w1 = (Resolved None, w2) /\
      (forall k, k <> id -> stored w1 k = stored w k) /\
      (stored w id = None -> reminders w1 = reminders w).
Proof.
  intros P w id t Hdb Ht Hacc.
  assert (H0 : rejection P (steps w) = None) by (apply Hacc; lia).
  assert (H1 : rejection P (S (steps w)) = None) by (apply Hacc; lia).
  rewrite (deleteReminder_accepted P w id t Hdb Ht H0).
  eexists. eexists. split; [reflexivity|].
  split.
  { apply (getReminder_missing _ _ id (SQLite.delete id t));
      [ destruct w; exact Hdb | reflexivity
      | apply selectById_delete_same | destruct w; exact H1 ]. }
  unfold stored. rewrite Ht. simpl. split.
  - intros k Hk. apply selectById_delete_other. congruence.
  - intros Hnone. rewrite (delete_missing _ _ Hnone). reflexivity.
Qed.

Lemma deleteReminder_then_getReminder_witness :
  exists w1 w2,
    DatabaseService.deleteReminder "r1" Scenario.host
      (Scenario.world [Scenario.r1]) = (Resolved tt, w1) /\
    DatabaseService.getReminder "r1" Scenario.host w1 = (Resolved None, w2) /\
    (forall k, k <> "r1" ->
               stored w1 k = stored (Scenario.world [Scenario.r1]) k) /\
    (stored (Scenario.world [Scenario.r1]) "r1" = None ->
     reminders w1 = Some [Scenario.r1]).
Proof.
  apply (deleteReminder_then_getReminder Scenario.host
           (Scenario.world [Scenario.r1]) "r1" [Scenario.r1]).
  - reflexivity.
  - reflexivity.
  - intros i _. reflexivity.
Defined.

(** ** Listing *)

Lemma getAllReminders_accepted :
  forall P w t,
    db w = true ->
    reminders w = Some t ->
    rejection P (steps w) = None ->
    DatabaseService.getAllReminders P w
    = (Resolved (map DatabaseService.ofRow (SQLite.orderByCreatedAtDesc t)),
       tick P w).
Proof.
  intros P [d t0 en mo cl st j] t Hdb Ht Hrej. simpl in *. subst d t0.
  unfold DatabaseService.getAllReminders. run. rewrite Hrej. reflexivity.
Qed.

Lemma insertByCreatedAtDesc_perm :
  forall r t, Permutation (SQLite.insertByCreatedAtDesc r t) (r :: t).
Proof.
  intros r. induction t as [|r' rest IH]; simpl.
  - apply Permutation_refl.
  - destruct (String.compare (SQLite.Row.createdAt r) (SQLite.Row.createdAt r'));
      try apply Permutation_refl.
    apply (Permutation_trans (l' := r' :: r :: rest)).
    + apply perm_skip. exact IH.
    + apply perm_swap.
Qed.

Lemma orderByCreatedAtDesc_perm :
  forall t, Permutation (SQLite.orderByCreatedAtDesc t) t.
Proof.
  induction t as [|r rest IH]; simpl.
  - apply Permutation_refl.
  - apply (Permutation_trans (insertByCreatedAtDesc_perm r _)).
    apply perm_skip. exact IH.
Qed.

Lemma insertByCreatedAtDesc_sorted :
  forall r t,
    Sorted (fun a b => newerFirst (DatabaseService.ofRow a)
                         (DatabaseService.ofRow b)) t ->
    Sorted (fun a b => newerFirst (DatabaseService.ofRow a)
                         (DatabaseService.ofRow b))
      (SQLite.insertByCreatedAtDesc r t).
Proof.
  intros r. induction t as [|r' rest IH]; intros Hs; simpl.
  - repeat constructor.
  - inversion Hs as [|x xs Hrest Hhd]; subst.
    destruct (String.compare (SQLite.Row.createdAt r) (SQLite.Row.createdAt r'))
      eqn:E.
    + constructor; [exact Hs|]. constructor.
      unfold newerFirst. simpl. rewrite E. discriminate.
    + constructor; [apply IH; exact Hrest|].
      destruct rest as [|r'' rest]; simpl.
      * constructor. unfold newerFirst. simpl.
        rewrite String.compare_antisym, E. discriminate.
      * destruct (String.compare (SQLite.Row.createdAt r)
                    (SQLite.Row.createdAt r'')).
        -- constructor. unfold newerFirst. simpl.
           rewrite String.compare_antisym, E. discriminate.
        -- inversion Hhd; subst. constructor. assumption.
        -- constructor. unfold newerFirst. simpl.
           rewrite String.compare_antisym, E. discriminate.
    + constructor; [exact Hs|]. constructor.
      unfold newerFirst. simpl. rewrite E. discriminate.
Qed.

Lemma orderByCreatedAtDesc_sorted :
  forall t,
    Sorted (fun a b => newerFirst (DatabaseService.ofRow a)
                         (DatabaseService.ofRow b))
      (SQLite.orderByCreatedAtDesc t).
Proof.
  induction t as [|r rest IH]; simpl.
  - constructor.
  - apply insertByCreatedAtDesc_sorted. exact IH.
Qed.

Lemma Sorted_map_ofRow :
  forall l,
    Sorted (fun a b => newerFirst (DatabaseService.ofRow a)
                         (DatabaseService.ofRow b)) l ->
    Sorted newerFirst (map DatabaseService.ofRow l).
Proof.
  induction l as [|a l IH]; intros H; simpl.
  - constructor.
  - inversion H as [|x xs Hrest Hhd]; subst.
    constructor; [apply IH; exact Hrest|].
    destruct l as [|b l]; simpl; constructor.
    inversion Hhd; subst. assumption.
Qed.

(** X3. On an open database whose call the platform accepts,
    [getAllReminders] resolves to the records of all the rows of the table,
    each once, the most recently created first; on an empty table it
    resolves to the empty list. *)
Theorem getAllReminders_lists_every_row_newest_first :
  forall (P : Platform) (w : World) (t : SQLite.Table),
    db w = true ->
    reminders w = Some t ->
    rejection P (steps w) = None ->
    exists result w',
      DatabaseService.getAllReminders P w = (Resolved result, w') /\
      Permutation result (map DatabaseService.ofRow t) /\
      Sorted newerFirst result /\
      reminders w' = reminders w /\
      (t = [] -> result = []).
Proof.
  intros P w t Hdb Ht Hrej.
  rewrite (getAllReminders_accepted P w t Hdb Ht Hrej).
  eexists. eexists. split; [reflexivity|].
  split; [apply Permutation_map, orderByCreatedAtDesc_perm|].
  split; [apply Sorted_map_ofRow, orderByCreatedAtDesc_sorted|].
  split; [destruct w; reflexivity|].
  intros ->. reflexivity.
Qed.

Lemma getAllReminders_lists_every_row_newest_first_witness :
  exists result w',
    DatabaseService.getAllReminders Scenario.host
      (Scenario.world [Scenario.r1; Scenario.r1Triggered])
    = (Resolved result, w') /\
    Permutation result
      [DatabaseService.ofRow Scenario.r1;
       DatabaseService.ofRow Scenario.r1Triggered] /\
    Sorted newerFirst result /\
    reminders w' = Some [Scenario.r1; Scenario.r1Triggered] /\
    ([Scenario.r1; Scenario.r1Triggered] = [] -> result = []).
Proof.
  apply (getAllReminders_lists_every_row_newest_first Scenario.host
           (Scenario.world [Scenario.r1; Scenario.r1Triggered])
           [Scenario.r1; Scenario.r1Triggered]); reflexivity.
Defined.

(** ** Opening the database *)

(** X4. When the platform accepts the opening of the database and the
    CREATE TABLE statement, [initialize] resolves with the database open and
    the table present; the rows the table had are all kept, so initialising
    again loses nothing. *)
Theorem initialize_opens_and_keeps_rows :
  forall (P : Platform) (w : World),
    accepts P (steps w) 2 ->
    exists w',
      DatabaseService.initialize P w = (Resolved tt, w') /\
      db w' = true /\
      reminders w' = Some (match reminders w with
                           | Some t => t
                           | None => []
                           end) /\
      statements (journal w') =
        (statements (journal w) ++ [CreateTableIfNotExists])%list.
Proof.
  intros P [d t0 en mo cl st j] Hacc.
  assert (H0 : rejection P st = None) by (apply Hacc; simpl; lia).
  assert (H1 : rejection P (S st) = None) by (apply Hacc; simpl; lia).
  unfold DatabaseService.initialize, DatabaseService.createTables. run.
  rewrite H0. simpl. rewrite H1. simpl.
  destruct t0 as [t|]; simpl;
    (eexists; split; [reflexivity|]; split; [reflexivity|];
     split; [reflexivity|]; simpl; rewrite statements_app; reflexivity).
Qed.

Lemma initialize_opens_and_keeps_rows_witness :
  exists w',
    DatabaseService.initialize Scenario.host (Scenario.world [Scenario.r1])
    = (Resolved tt, w') /\
    db w' = true /\
    reminders w' = Some [Scenario.r1] /\
    statements (journal w') = [CreateTableIfNotExists].
Proof.
  apply (initialize_opens_and_keeps_rows Scenario.host
           (Scenario.world [Scenario.r1])).
  intros i _. reflexivity.
Defined.

(** X5. When [initialize] rejects, the error is the platform's, it was
    logged last with 'Database initialization failed:', and the table is as
    before.  The database handle is open afterwards if it was open before or
    if the failure came after the opening (from the CREATE TABLE statement):
    in that case the store is left open although its initialisation
    failed. *)
Theorem initialize_failure_is_logged_and_rethrown :
  forall (P : Platform) (w : World) (e : Error) (w' : World),
    DatabaseService.initialize P w = (Rejected e, w') ->
    reminders w' = reminders w /\
    journal w' =
      (journal w ++
       [Console (mkLog ERROR "Database initialization failed:" (Some e))])%list /\
    (rejection P (steps w) = Some e /\ db w' = db w \/
     rejection P (steps w) = None /\ rejection P (S (steps w)) = Some e /\
     db w' = true).
Proof.
  intros P [d t0 en mo cl st j] e w' H.
  unfold DatabaseService.initialize, DatabaseService.createTables in H.
  run_in H.
  destruct (rejection P st) as [e0|] eqn:H0; simpl in H.
  - inversion H; subst. simpl. split; [reflexivity|].
    split; [reflexivity|]. left. split; [exact H0 | reflexivity].
  - destruct (rejection P (S st)) as [e1|] eqn:H1; simpl in H.
    + inversion H; subst. simpl. split; [reflexivity|].
      split; [reflexivity|]. right.
      split; [exact H0|]. split; [exact H1 | reflexivity].
    + destruct t0; simpl in H; discriminate H.
Qed.

Lemma initialize_failure_is_logged_and_rethrown_witness :
  reminders (snd (DatabaseService.initialize (Scenario.rejectingAt 1)
                    (Scenario.cold [Scenario.r1])))
  = Some [Scenario.r1] /\
  db (snd (DatabaseService.initialize (Scenario.rejectingAt 1)
             (Scenario.cold [Scenario.r1]))) = true.
Proof.
  destruct (initialize_failure_is_logged_and_rethrown
              (Scenario.rejectingAt 1) (Scenario.cold [Scenario.r1])
              (mkError "rejected")
              (snd (DatabaseService.initialize (Scenario.rejectingAt 1)
                      (Scenario.cold [Scenario.r1])))
              eq_refl) as (Ht & _ & _).
  split; [exact Ht | reflexivity].
Defined.

(** ** Updating a reminder that is not stored *)

Lemma updateRows_missing :
  forall sets key t,
    SQLite.selectById key t = None -> SQLite.updateRows sets key t = Resolved t.
Proof.
  intros sets key. induction t as [|r rest IH]; intros H; simpl in *.
  - reflexivity.
  - destruct (String.eqb (SQLite.Row.id r) key); [discriminate H|].
    simpl. rewrite (IH H). reflexivity.
Qed.

(** X6. On an open database whose call the platform accepts,
    [updateReminder] with an id under which nothing is stored resolves,
    whatever the updates are, and leaves the table as it was: the caller is
    not told that there was nothing to update. *)
Theorem updateReminder_of_missing_id_resolves :
  forall (P : Platform) (w : World) (id : string) (updates : list Entry.t)
         (t : SQLite.Table),
    db w = true ->
    reminders w = Some t ->
    SQLite.selectById id t = None ->
    rejection P (steps w) = None ->
    exists w',
      DatabaseService.updateReminder id updates P w = (Resolved tt, w') /\
      reminders w' = Some t.
Proof.
  intros P w id updates t Hdb Ht Hnone Hrej.
  rewrite (updateReminder_accepted P w id updates t Hdb Ht Hrej).
  destruct (DatabaseService.collect updates) as [fields values].
  destruct fields as [|f fields].
  - exists w. split; [reflexivity | exact Ht].
  - rewrite (updateRows_missing _ _ _ Hnone).
    eexists. split; reflexivity.
Qed.

Lemma updateReminder_of_missing_id_resolves_witness :
  exists w',
    DatabaseService.updateReminder "r2"
      [Entry.title (Some "Keys"); Entry.radius (Some JS.NaN)]
      Scenario.host (Scenario.world [Scenario.r1]) = (Resolved tt, w') /\
    reminders w' = Some [Scenario.r1].
Proof.
  apply (updateReminder_of_missing_id_resolves Scenario.host
           (Scenario.world [Scenario.r1]) "r2"
           [Entry.title (Some "Keys"); Entry.radius (Some JS.NaN)]
           [Scenario.r1]); reflexivity.
Defined.

(** ** What [addReminder] leaves in the table *)

Lemma insert_row_new :
  forall i rest t t',
    SQLite.insert (SQLite.Text i :: rest) t = Resolved t' ->
    exists row, t' = (t ++ [row])%list /\
                SQLite.Row.id row = i /\
                SQLite.Row.triggeredAt row = None /\
                SQLite.selectById i t = None.
Proof.
  intros i params t t' H. unfold SQLite.insert in H.
  do 11 (destruct params as [|? params]; try discriminate H).
  cbn [SQLite.toText SQLite.andThen] in H.
  repeat match type of H with
         | SQLite.andThen ?c _ = _ =>
             destruct c; simpl in H; [|discriminate H]
         end.
  destruct (SQLite.selectById i t) eqn:E; [discriminate H|].
  inversion H; subst. eexists. repeat split; reflexivity.
Qed.

(** X7. Whatever the platform does, [addReminder] changes the table in one
    way only: when it resolves, one row was appended, under the id it
    resolves to, which is the generated one and was not in use, and with an
    empty [triggeredAt] whatever the argument carried; the rows that were
    there are as before.  When it rejects, the table is as it was. *)
Theorem addReminder_appends_one_untriggered_row :
  forall (P : Platform) (w : World) (reminder : NewReminder.t)
         (c : Completion string) (w' : World) (t : SQLite.Table),
    reminders w = Some t ->
    DatabaseService.addReminder reminder P w = (c, w') ->
    match c with
    | Resolved id =>
        exists row,
          reminders w' = Some (t ++ [row])%list /\
          SQLite.Row.id row = id /\
          id = generatedId P w /\
          SQLite.Row.triggeredAt row = None /\
          SQLite.selectById id t = None
    | Rejected _ => reminders w' = Some t
    end.
Proof.
  intros P [d t0 en mo cl st j] reminder c w' t Ht H.
  simpl in Ht. subst t0.
  unfold DatabaseService.addReminder, DatabaseService.requireDb, runAsync,
    platformCall, Date_now, Math_random_suffix, bind, ret, throw, get, modify
    in H.
  cbn -[SQLite.insert DatabaseService.orNull DatabaseService.oneOrZero] in H.
  destruct d; [|inversion H; subst; reflexivity].
  cbn -[SQLite.insert DatabaseService.orNull DatabaseService.oneOrZero] in H.
  destruct (rejection P (S (S (S st)))); [inversion H; subst; reflexivity|].
  cbn -[SQLite.insert DatabaseService.orNull DatabaseService.oneOrZero] in H.
  match type of H with
  | context [SQLite.insert ?ps t] =>
      destruct (SQLite.insert ps t) as [t'|] eqn:Hi
  end;
    cbn -[SQLite.insert DatabaseService.orNull DatabaseService.oneOrZero] in H;
    [|inversion H; subst; reflexivity].
  inversion H; subst. simpl.
  destruct (insert_row_new _ _ _ _ Hi) as (row & -> & Hid & Htr & Hnew).
  exists row. repeat split; assumption.
Qed.

Lemma addReminder_appends_one_untriggered_row_witness :
  exists row,
    reminders (snd (DatabaseService.addReminder
                      (NewReminder.mk "Grab keys" None Scenario.lat Scenario.lon
                         (JS.ofZ 50) None true "Don't forget!" "Grab your keys"
                         (Some "2020-01-01T00:00:00.000Z"))
                      Scenario.host (Scenario.world [Scenario.r1])))
    = Some ([Scenario.r1] ++ [row])%list /\
    SQLite.Row.id row = "1700000000001k3j9x0q2z" /\
    "1700000000001k3j9x0q2z"
    = generatedId Scenario.host (Scenario.world [Scenario.r1]) /\
    SQLite.Row.triggeredAt row = None /\
    SQLite.selectById "1700000000001k3j9x0q2z" [Scenario.r1] = None.
Proof.
  apply (addReminder_appends_one_untriggered_row Scenario.host
           (Scenario.world [Scenario.r1])
           (NewReminder.mk "Grab keys" None Scenario.lat Scenario.lon
              (JS.ofZ 50) None true "Don't forget!" "Grab your keys"
              (Some "2020-01-01T00:00:00.000Z"))
           (Resolved "1700000000001k3j9x0q2z") _ [Scenario.r1] eq_refl).
  vm_compute. reflexivity.
Defined.

(** ** The geofence handler: repeated events and what it leaves alone *)

Lemma handleGeofenceEnter_accepted :
  forall P w reminderId row t,
    db w = true ->
    reminders w = Some t ->
    SQLite.selectById reminderId t = Some row ->
    JS.truthy (SQLite.Row.isActive row) = true ->
    accepts P (steps w) 4 ->
    exists w' t' row',
      LocationService.handleGeofenceEnter reminderId P w = (Resolved tt, w') /\
      db w' = true /\
      reminders w' = Some t' /\
      steps w' = (4 + steps w)%nat /\
      presented (journal w') =
        (presented (journal w) ++ [notificationOf row])%list /\
      statements (journal w') =
        (statements (journal w) ++
         [UpdateSet [Column.triggeredAt]
            [SQLite.Text (JS.toISOString (markedAt P w));
             SQLite.Text reminderId]])%list /\
      SQLite.selectById reminderId t' = Some row' /\
      SQLite.Row.triggeredAt row' = Some (JS.toISOString (markedAt P w)) /\
      clock w <= markedAt P w <= clock w' /\
      (forall c, c <> Column.triggeredAt ->
                 SQLite.cell c row' = SQLite.cell c row).
Proof.
  intros P w reminderId row t Hdb Ht Hrow Hact Hacc.
  assert (H0 : rejection P (steps w) = None) by (apply Hacc; lia).
  assert (H1 : rejection P (S (steps w)) = None) by (apply Hacc; lia).
  assert (H3 : rejection P (S (S (S (steps w)))) = None) by (apply Hacc; lia).
  assert (Hst : stored w reminderId = Some row)
    by (unfold stored; rewrite Ht; exact Hrow).
  unfold LocationService.handleGeofenceEnter,
    LocationService.handleGeofenceEnter_try, tryCatch, bind.
  rewrite (getReminder_found P w reminderId row Hdb Hst H0).
  cbn [Reminder.isActive DatabaseService.ofRow]. rewrite Hact.
  rewrite scheduleLocationNotification_accepted
    by (destruct w; exact H1).
  set (w2 := emit _ (emit _ (tick P (tick P w)))).
  destruct (markReminderAsTriggered_accepted P w2 reminderId row t)
    as (t' & row' & Hrun & Hsel & Htr & Hframe & _);
    [ destruct w; exact Hdb | destruct w; exact Ht | exact Hrow
    | destruct w; exact H3 | ].
  rewrite Hrun.
  eexists. exists t', row'.
  split; [reflexivity|].
  pose proof (selectById_id _ _ _ Hrow) as Hid.
  unfold markedAt.
  destruct w as [d t0 en mo cl st j]; simpl in *.
  split; [exact Hdb|]. split; [reflexivity|]. split; [reflexivity|].
  split.
  { rewrite <- !app_assoc. rewrite presented_app. simpl.
    unfold notificationOf. rewrite Hid. reflexivity. }
  split.
  { rewrite <- !app_assoc. rewrite statements_app. reflexivity. }
  split; [exact Hsel|]. split; [exact Htr|]. split; [lia|exact Hframe].
Qed.

(** X8. Events are not deduplicated.  When the geofencing task delivers the
    enter event of an active stored reminder twice and the platform accepts
    the handler's calls, the reminder's notification is presented twice and
    two UPDATE statements are run.  After the first handling [triggeredAt]
    is the ISO form of the time read in the first handling; after the second
    it is the ISO form of the time read in the second handling, which is not
    earlier than the end of the first. *)
Theorem handleGeofenceEnter_twice_notifies_twice :
  forall (P : Platform) (w : World) (reminderId : string) (row : SQLite.Row.t),
    db w = true ->
    stored w reminderId = Some row ->
    Reminder.isActive (DatabaseService.ofRow row) = true ->
    accepts P (steps w) 8 ->
    exists w1 w2 row1 row2,
      LocationService.handleGeofenceEnter reminderId P w = (Resolved tt, w1) /\
      LocationService.handleGeofenceEnter reminderId P w1 = (Resolved tt, w2) /\
      presented (journal w2) =
        (presented (journal w) ++ [notificationOf row; notificationOf row])%list /\
      statements (journal w2) =
        (statements (journal w) ++
         [UpdateSet [Column.triggeredAt]
            [SQLite.Text (JS.toISOString (markedAt P w));
             SQLite.Text reminderId];
          UpdateSet [Column.triggeredAt]
            [SQLite.Text (JS.toISOString (markedAt P w1));
             SQLite.Text reminderId]])%list /\
      stored w1 reminderId = Some row1 /\
      SQLite.Row.triggeredAt row1 = Some (JS.toISOString (markedAt P w)) /\
      stored w2 reminderId = Some row2 /\
      SQLite.Row.triggeredAt row2 = Some (JS.toISOString (markedAt P w1)) /\
      clock w <= markedAt P w <= clock w1 /\
      clock w1 <= markedAt P w1 <= clock w2.
Proof.
  intros P w reminderId row Hdb Hst Hact Hacc.
  unfold stored in Hst.
  destruct (reminders w) as [t|] eqn:Ht; [|discriminate Hst].
  destruct (handleGeofenceEnter_accepted P w reminderId row t Hdb Ht Hst Hact)
    as (w1 & t1 & row1 & Hrun1 & Hdb1 & Ht1 & Hsteps1 & Hpres1 & Hran1 &
        Hsel1 & Htr1 & Htime1 & Hcells1).
  { intros i Hi. apply Hacc. lia. }
  assert (Hact1 : JS.truthy (SQLite.Row.isActive row1) = true).
  { pose proof (Hcells1 Column.isActive ltac:(discriminate)) as E.
    simpl in E. inversion E as [E']. rewrite E'. exact Hact. }
  destruct (handleGeofenceEnter_accepted P w1 reminderId row1 t1 Hdb1 Ht1
              Hsel1 Hact1)
    as (w2 & t2 & row2 & Hrun2 & Hdb2 & Ht2 & Hsteps2 & Hpres2 & Hran2 &
        Hsel2 & Htr2 & Htime2 & Hcells2).
  { intros i Hi. apply Hacc. lia. }
  exists w1, w2, row1, row2.
  split; [exact Hrun1|]. split; [exact Hrun2|].
  split.
  { rewrite Hpres2, Hpres1, <- app_assoc. simpl.
    replace (notificationOf row1) with (notificationOf row); [reflexivity|].
    pose proof (Hcells1 Column.notificationTitle ltac:(discriminate)) as E1.
    pose proof (Hcells1 Column.notificationBody ltac:(discriminate)) as E2.
    pose proof (Hcells1 Column.id ltac:(discriminate)) as E3.
    simpl in E1, E2, E3. inversion E1. inversion E2. inversion E3.
    unfold notificationOf. congruence. }
  split; [rewrite Hran2, Hran1, <- app_assoc; reflexivity|].
  unfold stored. rewrite Ht1, Ht2.
  split; [exact Hsel1|]. split; [exact Htr1|].
  split; [exact Hsel2|]. split; [exact Htr2|].
  split; [exact Htime1 | exact Htime2].
Qed.

Lemma handleGeofenceEnter_twice_notifies_twice_witness :
  exists w1 w2 row1 row2,
    LocationService.handleGeofenceEnter "r1" Scenario.host
      (Scenario.world [Scenario.r1]) = (Resolved tt, w1) /\
    LocationService.handleGeofenceEnter "r1" Scenario.host w1
    = (Resolved tt, w2) /\
    presented (journal w2) =
      [notificationOf Scenario.r1; notificationOf Scenario.r1] /\
    stored w1 "r1" = Some row1 /\
    SQLite.Row.triggeredAt row1 = Some "2023-11-14T22:13:20.003Z" /\
    stored w2 "r1" = Some row2 /\
    SQLite.Row.triggeredAt row2 = Some "2023-11-14T22:13:20.007Z".
Proof.
  destruct (handleGeofenceEnter_twice_notifies_twice Scenario.host
              (Scenario.world [Scenario.r1]) "r1" Scenario.r1
              eq_refl eq_refl eq_refl (fun i _ => eq_refl))
    as (w1 & w2 & row1 & row2 & Hrun1 & Hrun2 & Hpres & _ & Hst1 & Htr1 &
        Hst2 & Htr2 & _).
  assert (Hw1 : w1 = snd (LocationService.handleGeofenceEnter "r1"
                            Scenario.host (Scenario.world [Scenario.r1])))
    by (rewrite Hrun1; reflexivity).
  exists w1, w2, row1, row2.
  split; [exact Hrun1|]. split; [exact Hrun2|]. split; [exact Hpres|].
  split; [exact Hst1|]. split; [exact Htr1|]. split; [exact Hst2|].
  rewrite Htr2, Hw1. reflexivity.
Defined.

(** Decomposition of a computation into the steps a relation is checked
    on: [leaf] proves the calls that are not decomposed, and [tac] that a
    state change written with [modify] respects the relation. *)
Ltac respects_steps Hrefl Htrans Htick leaf tac :=
  repeat first
    [ solve [leaf]
    | apply (respects_ret _ Hrefl)
    | apply (respects_throw _ Hrefl)
    | apply (respects_get _ Hrefl)
    | apply (respects_ask _ Hrefl)
    | apply (respects_platformCall _ Htick)
    | apply (respects_Date_now _ Htick)
    | apply (respects_Math_random_suffix _ Htick)
    | apply respects_modify; solve [tac]
    | apply (respects_bind _ Htrans); [|intro]
    | apply (respects_tryCatch _ Htrans); [|intro]
    | match goal with
      | |- respects _ (if ?b then _ else _) => destruct b
      | |- respects _ (match ?x with _ => _ end) => destruct x
      end ].

Lemma respects_updateReminder :
  forall (R : World -> World -> Prop),
    (forall w, R w w) ->
    (forall a b c, R a b -> R b c -> R a c) ->
    (forall P w, R w (tick P w)) ->
    (forall e w, R w (emit e w)) ->
    forall id updates,
      (forall fields values,
          DatabaseService.collect updates = (fields, values) ->
          forall w t',
            exec (UpdateSet fields (values ++ [SQLite.Text id])%list)
              (reminders w) = Resolved t' ->
            R w (setReminders t' w)) ->
      respects R (DatabaseService.updateReminder id updates).
Proof.
  intros R Hrefl Htrans Htick Hemit id updates Hexec.
  unfold DatabaseService.updateReminder.
  apply (respects_bind R Htrans); [apply (respects_requireDb R Hrefl Htrans)|].
  intros _.
  destruct (DatabaseService.collect updates) as [fields values] eqn:Hc.
  destruct (Nat.eqb (List.length fields) 0); [apply (respects_ret R Hrefl)|].
  apply (respects_runAsync R Htrans Htick Hemit).
  apply (Hexec fields values eq_refl).
Qed.

Lemma touchesOnly_refl : forall id w, touchesOnly id w w.
Proof. intros id w. repeat split. Qed.

Lemma touchesOnly_trans :
  forall id a b c, touchesOnly id a b -> touchesOnly id b c -> touchesOnly id a c.
Proof.
  intros id a b c (H1 & H2 & H3 & H4 & H5) (K1 & K2 & K3 & K4 & K5).
  repeat split; try congruence.
  intros k Hk. rewrite (K5 k Hk). apply (H5 k Hk).
Qed.

Lemma touchesOnly_tick : forall id P w, touchesOnly id w (tick P w).
Proof. intros id P w. repeat split. Qed.

Lemma touchesOnly_emit : forall id e w, touchesOnly id w (emit e w).
Proof. intros id e w. repeat split. Qed.

Lemma touchesOnly_update :
  forall id updates fields values,
    DatabaseService.collect updates = (fields, values) ->
    forall w t',
      exec (UpdateSet fields (values ++ [SQLite.Text id])%list) (reminders w)
      = Resolved t' ->
      touchesOnly id w (setReminders t' w).
Proof.
  intros id updates fields values Hc w t' H.
  destruct (reminders w) as [t|] eqn:Ht; [|discriminate H]. cbn [exec] in H.
  rewrite (update_as_updateRows fields values id t
             (collect_length _ _ _ Hc) (collect_no_id _ _ _ Hc)) in H.
  destruct (SQLite.updateRows (combine fields values) id t) as [t1|] eqn:E;
    [|discriminate H].
  simpl in H. inversion H; subst.
  unfold touchesOnly, stored. simpl. rewrite Ht. simpl.
  split; [reflexivity|]. split; [reflexivity|]. split; [reflexivity|].
  split.
  { rewrite (updateRows_ids _ _ _ _ (collect_sets_no_id _ _ _ Hc) E).
    reflexivity. }
  intros k Hk.
  pose proof (selectById_updateRows _ _ _ _ (collect_sets_no_id _ _ _ Hc) E k)
    as Hsel.
  destruct (SQLite.selectById k t) as [r|]; [|exact Hsel].
  destruct (String.eqb k id) eqn:Ek; [|exact Hsel].
  apply String.eqb_eq in Ek. contradiction.
Qed.

Lemma handleGeofenceEnter_touchesOnly :
  forall reminderId,
    respects (touchesOnly reminderId)
      (LocationService.handleGeofenceEnter reminderId).
Proof.
  intros reminderId.
  pose proof (touchesOnly_refl reminderId) as Hrefl.
  pose proof (touchesOnly_trans reminderId) as Htrans.
  pose proof (touchesOnly_tick reminderId) as Htick.
  pose proof (touchesOnly_emit reminderId) as Hemit.
  unfold LocationService.handleGeofenceEnter,
    LocationService.handleGeofenceEnter_try,
    NotificationService.scheduleLocationNotification,
    scheduleNotificationAsync,
    DatabaseService.markReminderAsTriggered, DatabaseService.getReminder,
    DatabaseService.requireDb, getFirstAsync,
    console_log, console_error.
  respects_steps Hrefl Htrans Htick
    ltac:(apply (respects_updateReminder _ Hrefl Htrans Htick Hemit);
          intros fields values Hc; apply (touchesOnly_update _ _ _ _ Hc))
    ltac:(intros; apply Hemit).
Qed.

(** X9. Whatever the platform does and however the handling ends,
    [handleGeofenceEnter] changes nothing but the content of the record
    under the id it was given: no row is added or removed, the records under
    other ids, the monitored regions and the services' flags are as
    before. *)
Theorem handleGeofenceEnter_touches_only_its_reminder :
  forall (P : Platform) (w : World) (reminderId : string),
    touchesOnly reminderId w
      (snd (LocationService.handleGeofenceEnter reminderId P w)).
Proof.
  intros P w reminderId.
  apply (handleGeofenceEnter_touchesOnly reminderId P w
           (fst (LocationService.handleGeofenceEnter reminderId P w))).
  apply surjective_pairing.
Qed.

(** X10. The geofencing task never rejects.  When the platform passes it an
    error, or the event is not an enter event, it presents no notification,
    runs no statement and leaves the table and the monitored regions as they
    are; in every case it changes at most the record of the event's
    region. *)
Theorem geofencingTask_acts_on_enter_events_only :
  forall (P : Platform) (w : World) (error : option Error)
         (eventType : LocationServiceSetup.GeofencingEventType)
         (identifier : string),
    fst (LocationServiceSetup.geofencingTask error eventType identifier P w)
    = Resolved tt /\
    touchesOnly identifier w
      (snd (LocationServiceSetup.geofencingTask error eventType identifier P w)) /\
    (error <> None \/ eventType = LocationServiceSetup.Exit ->
     untouched w
       (snd (LocationServiceSetup.geofencingTask error eventType identifier
               P w))).
Proof.
  intros P w error eventType identifier.
  unfold LocationServiceSetup.geofencingTask.
  destruct error as [e|].
  - split; [reflexivity|]. split; [apply touchesOnly_emit|].
    intros _. unfold untouched. simpl.
    rewrite presented_app, statements_app. simpl. rewrite !app_nil_r.
    repeat split.
  - destruct eventType.
    + unfold bind, console_log, modify.
      split.
      { unfold LocationService.handleGeofenceEnter, tryCatch.
        destruct (LocationService.handleGeofenceEnter_try _ _ _) as [[[]|e] w1];
          reflexivity. }
      split.
      { apply (touchesOnly_trans identifier w
                 (emit (Console (mkLog LOG "Entered region:" None)) w));
          [apply touchesOnly_emit|].
        apply (handleGeofenceEnter_touchesOnly identifier P _
                 (fst (LocationService.handleGeofenceEnter identifier P
                         (emit (Console (mkLog LOG "Entered region:" None)) w)))).
        apply surjective_pairing. }
      intros [H | H]; [congruence | discriminate H].
    + split; [reflexivity|]. split; [apply touchesOnly_refl|].
      intros _. repeat split.
Qed.

(** ** What the location service leaves alone *)

Lemma untouched_refl : forall w, untouched w w.
Proof. intros w. repeat split. Qed.

Lemma untouched_trans :
  forall a b c, untouched a b -> untouched b c -> untouched a c.
Proof.
  intros a b c (H1 & H2 & H3 & H4) (K1 & K2 & K3 & K4).
  repeat split; congruence.
Qed.

Lemma untouched_tick : forall P w, untouched w (tick P w).
Proof. intros P w. repeat split. Qed.

Lemma untouched_console : forall entry w, untouched w (emit (Console entry) w).
Proof.
  intros entry w. unfold untouched. simpl.
  rewrite presented_app, statements_app. simpl. rewrite !app_nil_r.
  repeat split.
Qed.

Lemma untouched_alert :
  forall heading text w, untouched w (emit (Alert heading text) w).
Proof.
  intros heading text w. unfold untouched. simpl.
  rewrite presented_app, statements_app. simpl. rewrite !app_nil_r.
  repeat split.
Qed.

Lemma untouched_setEnabled : forall b w, untouched w (setEnabled b w).
Proof. intros b w. repeat split. Qed.

Ltac untouched_steps :=
  respects_steps untouched_refl untouched_trans untouched_tick
    ltac:(fail)
    ltac:(intros;
          first [apply untouched_console | apply untouched_alert
                | apply untouched_setEnabled]).

Lemma reverseGeocode_untouched :
  forall latitude longitude,
    respects untouched (LocationService.reverseGeocode latitude longitude).
Proof.
  intros latitude longitude.
  unfold LocationService.reverseGeocode, reverseGeocodeAsync, console_error.
  untouched_steps.
Qed.

Lemma reverseGeocode_resolves :
  forall P w latitude longitude,
    exists a,
      fst (LocationService.reverseGeocode latitude longitude P w) = Resolved a.
Proof.
  intros P w latitude longitude.
  unfold LocationService.reverseGeocode, reverseGeocodeAsync. run.
  destruct (rejection P (steps w)); simpl; [eexists; reflexivity|].
  destruct (geocoded P (steps w)); simpl; eexists; reflexivity.
Qed.

(** X11. [reverseGeocode] never rejects, whatever the geocoder does, and it
    leaves the table, the monitored regions and the notifications as they
    are. *)
Theorem reverseGeocode_never_rejects :
  forall (P : Platform) (w : World) (latitude longitude : JS.number),
    (exists a,
        fst (LocationService.reverseGeocode latitude longitude P w)
        = Resolved a) /\
    untouched w (snd (LocationService.reverseGeocode latitude longitude P w)).
Proof.
  intros P w latitude longitude. split.
  - apply reverseGeocode_resolves.
  - apply (reverseGeocode_untouched latitude longitude P w
             (fst (LocationService.reverseGeocode latitude longitude P w))).
    apply surjective_pairing.
Qed.

(** X12. When the geocoder answers and its first result has neither a
    street, a city nor a region (each missing or empty), [reverseGeocode]
    resolves to the empty string: the coordinates are the fallback of an
    empty result list and of a failure only. *)
Theorem reverseGeocode_of_an_address_without_parts :
  forall (P : Platform) (w : World) (latitude longitude : JS.number)
         (address : GeocodedAddress) (others : list GeocodedAddress),
    rejection P (steps w) = None ->
    geocoded P (steps w) = address :: others ->
    LocationService.orEmpty (street address) = "" ->
    LocationService.orEmpty (city address) = "" ->
    LocationService.orEmpty (region address) = "" ->
    LocationService.reverseGeocode latitude longitude P w
    = (Resolved "", tick P w).
Proof.
  intros P w latitude longitude address others Hrej Hgeo Hs Hc Hr.
  unfold LocationService.reverseGeocode, reverseGeocodeAsync. run.
  rewrite Hrej. simpl. rewrite Hgeo, Hs, Hc, Hr. reflexivity.
Qed.

Lemma reverseGeocode_of_an_address_without_parts_witness :
  LocationService.reverseGeocode Scenario.lat Scenario.lon
    (mkPlatform (fun _ => None) (fun _ => 1%N) (fun _ => "k3j9x0q2z")
       (fun _ => "notification-1")
       (fun _ => [mkAddress None (Some "") None]) true true (fun _ => ""))
    (Scenario.world [])
  = (Resolved "",
     tick (mkPlatform (fun _ => None) (fun _ => 1%N) (fun _ => "k3j9x0q2z")
             (fun _ => "notification-1")
             (fun _ => [mkAddress None (Some "") None]) true true
             (fun _ => ""))
       (Scenario.world [])).
Proof.
  apply (reverseGeocode_of_an_address_without_parts _ (Scenario.world [])
           Scenario.lat Scenario.lon (mkAddress None (Some "") None) []);
    reflexivity.
Defined.

(** X13. [stopGeofencing] never rejects.  When the platform accepts the
    call no region is monitored afterwards; when it rejects it the monitored
    regions stay and the error is logged.  The table is as before in both
    cases. *)
Theorem stopGeofencing_clears_the_monitored_regions :
  forall (P : Platform) (w : World),
    fst (LocationService.stopGeofencing P w) = Resolved tt /\
    reminders (snd (LocationService.stopGeofencing P w)) = reminders w /\
    match rejection P (steps w) with
    | None =>
        monitored (snd (LocationService.stopGeofencing P w)) = [] /\
        journal (snd (LocationService.stopGeofencing P w)) =
          (journal w ++
           [GeofencingStopped; Console (mkLog LOG "Geofencing stopped" None)])%list
    | Some e =>
        monitored (snd (LocationService.stopGeofencing P w)) = monitored w /\
        journal (snd (LocationService.stopGeofencing P w)) =
          (journal w ++
           [Console (mkLog ERROR "Failed to stop geofencing:" (Some e))])%list
    end.
Proof.
  intros P [d t en mo cl st j].
  unfold LocationService.stopGeofencing, stopGeofencingAsync. run.
  destruct (rejection P st); simpl.
  - repeat split.
  - rewrite <- app_assoc. repeat split.
Qed.

(** X14. The initialisation of the location service, on a platform that
    accepts the permission requests.  With the foreground permission granted
    it resolves and location services are enabled, also when the background
    permission is refused, which is only warned about.  With the foreground
    permission refused it rejects with 'Location permission not granted',
    the background permission is never asked for and the enabled flag is as
    before.  Table, monitored regions and notifications are untouched. *)
Theorem locationService_initialize_enables_on_foreground_permission :
  forall (P : Platform) (w : World),
    accepts P (steps w) 2 ->
    exists c w',
      LocationServiceSetup.initialize P w = (c, w') /\
      untouched w w' /\
      if foregroundGranted P
      then c = Resolved tt /\
           isLocationServicesEnabled w' = true /\
           steps w' = S (S (steps w)) /\
           journal w' =
             (journal w ++
              if backgroundGranted P then []
              else [Console (mkLog WARN
                               "Background location permission not granted"
                               None)])%list
      else c = Rejected (mkError "Location permission not granted") /\
           isLocationServicesEnabled w' = isLocationServicesEnabled w /\
           steps w' = S (steps w) /\
           journal w' = journal w.
Proof.
  intros P [d t en mo cl st j] Hacc.
  assert (H0 : rejection P st = None) by (apply Hacc; simpl; lia).
  assert (H1 : rejection P (S st) = None) by (apply Hacc; simpl; lia).
  unfold LocationServiceSetup.initialize,
    LocationServiceSetup.setupBackgroundLocation,
    LocationService.requestPermissions, requestForegroundPermissionsAsync,
    requestBackgroundPermissionsAsync.
  run. rewrite H0. simpl.
  destruct (foregroundGranted P); simpl.
  - rewrite H1. simpl.
    destruct (backgroundGranted P); simpl;
      (eexists; eexists; split; [reflexivity|]; split;
       [|repeat split; rewrite ?app_nil_r; reflexivity]).
    + repeat split.
    + unfold untouched. simpl. rewrite presented_app, statements_app. simpl.
      rewrite !app_nil_r. repeat split.
  - eexists; eexists; split; [reflexivity|]; split; repeat split.
Qed.

Lemma locationService_initialize_enables_on_foreground_permission_witness :
  exists c w',
    LocationServiceSetup.initialize
      (mkPlatform (fun _ => None) (fun _ => 1%N) (fun _ => "k3j9x0q2z")
         (fun _ => "notification-1") (fun _ => []) true false (fun _ => ""))
      (Scenario.locationRefused [Scenario.r1]) = (c, w') /\
    untouched (Scenario.locationRefused [Scenario.r1]) w' /\
    c = Resolved tt /\
    isLocationServicesEnabled w' = true /\
    steps w' = 2%nat /\
    journal w' =
      [Console (mkLog WARN "Background location permission not granted" None)].
Proof.
  apply (locationService_initialize_enables_on_foreground_permission
           (mkPlatform (fun _ => None) (fun _ => 1%N) (fun _ => "k3j9x0q2z")
              (fun _ => "notification-1") (fun _ => []) true false
              (fun _ => ""))
           (Scenario.locationRefused [Scenario.r1])).
  intros i _. reflexivity.
Defined.

(** ** HomeScreen: the list and the monitored regions *)

Lemma startGeofencing_accepted :
  forall P w rs,
    isLocationServicesEnabled w = true ->
    rejection P (steps w) = None ->
    LocationService.startGeofencing rs P w
    = (Resolved tt,
       emit (Console (mkLog LOG "Geofencing started with" None))
         (emit (Geofencing (map LocationService.regionOf
                              (filter Reminder.isActive rs)))
            (setMonitored (map LocationService.regionOf
                             (filter Reminder.isActive rs))
               (tick P w)))).
Proof.
  intros P [d t en mo cl st j] rs Hen Hrej. simpl in *. subst en.
  unfold LocationService.startGeofencing, startGeofencingAsync. run.
  rewrite Hrej. reflexivity.
Qed.

Lemma startGeofencing_resolves :
  forall P w rs,
    fst (LocationService.startGeofencing rs P w) = Resolved tt /\
    reminders (snd (LocationService.startGeofencing rs P w)) = reminders w /\
    db (snd (LocationService.startGeofencing rs P w)) = db w.
Proof.
  intros P [d t en mo cl st j] rs.
  unfold LocationService.startGeofencing, startGeofencingAsync. run.
  destruct en; simpl; [|repeat split].
  destruct (rejection P st); repeat split.
Qed.

Lemma loadReminders_accepted :
  forall P w rs t,
    db w = true ->
    reminders w = Some t ->
    isLocationServicesEnabled w = true ->
    accepts P (steps w) 2 ->
    HomeScreen.loadReminders rs P w
    = (Resolved (map DatabaseService.ofRow (SQLite.orderByCreatedAtDesc t)),
       emit (Console (mkLog LOG "Geofencing started with" None))
         (emit (Geofencing (regionsOf t))
            (setMonitored (regionsOf t) (tick P (tick P w))))).
Proof.
  intros P w rs t Hdb Ht Hen Hacc.
  assert (H0 : rejection P (steps w) = None) by (apply Hacc; lia).
  assert (H1 : rejection P (S (steps w)) = None) by (apply Hacc; lia).
  unfold HomeScreen.loadReminders, tryCatch, bind.
  rewrite (getAllReminders_accepted P w t Hdb Ht H0).
  rewrite startGeofencing_accepted;
    [reflexivity | destruct w; exact Hen | destruct w; exact H1].
Qed.

Lemma In_orderByCreatedAtDesc :
  forall r t, In r (SQLite.orderByCreatedAtDesc t) <-> In r t.
Proof.
  intros r t. split; apply Permutation_in.
  - apply orderByCreatedAtDesc_perm.
  - apply Permutation_sym, orderByCreatedAtDesc_perm.
Qed.

Lemma In_regionsOf :
  forall g t,
    In g (regionsOf t) <->
    exists row, In row t /\ JS.truthy (SQLite.Row.isActive row) = true /\
                g = LocationService.regionOf (DatabaseService.ofRow row).
Proof.
  intros g t. unfold regionsOf. rewrite in_map_iff. split.
  - intros (r & Hg & Hin). apply filter_In in Hin as [Hin Hact].
    apply in_map_iff in Hin as (row & Hr & Hin). subst r.
    exists row. split; [apply In_orderByCreatedAtDesc; exact Hin|].
    split; [exact Hact | symmetry; exact Hg].
  - intros (row & Hin & Hact & Hg).
    exists (DatabaseService.ofRow row). split; [symmetry; exact Hg|].
    apply filter_In. split; [|exact Hact].
    apply in_map. apply In_orderByCreatedAtDesc. exact Hin.
Qed.

Lemma updateRows_isActive :
  forall b key t,
    exists t',
      SQLite.updateRows
        [(Column.isActive, SQLite.Number (DatabaseService.oneOrZero b))] key t
      = Resolved t' /\
      (forall row, In row t' -> SQLite.Row.id row = key ->
                   JS.truthy (SQLite.Row.isActive row) = b) /\
      (forall k, k <> key -> SQLite.selectById k t' = SQLite.selectById k t).
Proof.
  intros b key. induction t as [|r rest IH].
  - exists []. split; [reflexivity|]. split; [intros ? []|reflexivity].
  - destruct IH as (rest' & Hrest & Hact & Hother).
    cbn [SQLite.updateRows]. rewrite Hrest.
    destruct (String.eqb (SQLite.Row.id r) key) eqn:E.
    + destruct r as [i ti de la lo ra ad ac nt nb cr tr].
      cbn [SQLite.setCells SQLite.setCell]. rewrite toNumber_oneOrZero.
      cbn [SQLite.andThen].
      eexists. split; [reflexivity|]. split.
      * intros row [<- | Hin] Hid; [apply truthy_oneOrZero|].
        apply (Hact row Hin Hid).
      * intros k Hk. simpl in *.
        apply String.eqb_eq in E. subst i.
        destruct (String.eqb key k) eqn:Ek;
          [apply String.eqb_eq in Ek; congruence|].
        apply (Hother k Hk).
    + cbn [SQLite.andThen].
      eexists. split; [reflexivity|]. split.
      * intros row [<- | Hin] Hid;
          [rewrite Hid, String.eqb_refl in E; discriminate E|].
        apply (Hact row Hin Hid).
      * intros k Hk. simpl. rewrite (Hother k Hk). reflexivity.
Qed.

(** X15. Switching a reminder on or off from the home screen, with the
    database open, location services enabled and the platform accepting the
    three calls.  The handler resolves to the list read back from the table,
    and the monitored regions are replaced by those of the active stored
    reminders.  Every row under the id has the requested [isActive]; after
    switching off no monitored region carries the id, and after switching on
    the region of the stored reminder is monitored.  Records under other ids
    are as before. *)
Theorem handleToggleReminder_resynchronizes_regions :
  forall (P : Platform) (w : World) (id : string) (isActive : bool)
         (shown : list Reminder.t) (t : SQLite.Table),
    db w = true ->
    reminders w = Some t ->
    isLocationServicesEnabled w = true ->
    accepts P (steps w) 3 ->
    exists w' t',
      HomeScreen.handleToggleReminder id isActive shown P w
      = (Resolved (map DatabaseService.ofRow (SQLite.orderByCreatedAtDesc t')),
         w') /\
      reminders w' = Some t' /\
      monitored w' = regionsOf t' /\
      (forall row, In row t' -> SQLite.Row.id row = id ->
                   JS.truthy (SQLite.Row.isActive row) = isActive) /\
      (isActive = false ->
       forall g, In g (monitored w') -> GeofenceRegion.identifier g <> id) /\
      (isActive = true ->
       forall row, stored w' id = Some row ->
                   In (LocationService.regionOf (DatabaseService.ofRow row))
                     (monitored w')) /\
      (forall k, k <> id -> stored w' k = stored w k).
Proof.
  intros P w id isActive shown t Hdb Ht Hen Hacc.
  assert (H0 : rejection P (steps w) = None) by (apply Hacc; lia).
  destruct (updateRows_isActive isActive id t) as (t' & Hupd & Hact & Hother).
  unfold HomeScreen.handleToggleReminder, tryCatch, bind.
  rewrite (updateReminder_accepted P w id _ t Hdb Ht H0).
  cbn [DatabaseService.collect DatabaseService.bound option_map Entry.key
       Column.eqb negb combine].
  rewrite Hupd.
  rewrite (loadReminders_accepted P _ shown t');
    [ | destruct w; exact Hdb | destruct w; reflexivity | destruct w; exact Hen
      | intros i Hi; apply Hacc; destruct w; simpl in *; lia ].
  eexists. exists t'. split; [reflexivity|].
  split; [destruct w; reflexivity|].
  split; [destruct w; reflexivity|].
  split; [exact Hact|].
  split.
  { intros -> g Hg Hid.
    replace (monitored _) with (regionsOf t') in Hg by (destruct w; reflexivity).
    apply In_regionsOf in Hg as (row & Hin & Htrue & ->).
    simpl in Hid. rewrite (Hact row Hin Hid) in Htrue. discriminate Htrue. }
  split.
  { intros -> row Hrow.
    replace (monitored _) with (regionsOf t') by (destruct w; reflexivity).
    replace (stored _ id) with (SQLite.selectById id t') in Hrow
      by (destruct w; reflexivity).
    apply In_regionsOf. exists row.
    split; [apply (selectById_In _ _ _ Hrow)|].
    split; [|reflexivity].
    apply (Hact row (selectById_In _ _ _ Hrow) (selectById_id _ _ _ Hrow)). }
  intros k Hk.
  replace (stored _ k) with (SQLite.selectById k t') by (destruct w; reflexivity).
  unfold stored. rewrite Ht. apply (Hother k Hk).
Qed.

Lemma handleToggleReminder_resynchronizes_regions_witness :
  exists w' t',
    HomeScreen.handleToggleReminder "r1" false [] Scenario.host
      (Scenario.world [Scenario.r1])
    = (Resolved (map DatabaseService.ofRow (SQLite.orderByCreatedAtDesc t')),
       w') /\
    reminders w' = Some t' /\
    monitored w' = regionsOf t' /\
    (forall row, In row t' -> SQLite.Row.id row = "r1" ->
                 JS.truthy (SQLite.Row.isActive row) = false) /\
    (false = false ->
     forall g, In g (monitored w') -> GeofenceRegion.identifier g <> "r1") /\
    (false = true ->
     forall row, stored w' "r1" = Some row ->
                 In (LocationService.regionOf (DatabaseService.ofRow row))
                   (monitored w')) /\
    (forall k, k <> "r1" ->
               stored w' k = stored (Scenario.world [Scenario.r1]) k).
Proof.
  apply (handleToggleReminder_resynchronizes_regions Scenario.host
           (Scenario.world [Scenario.r1]) "r1" false [] [Scenario.r1]).
  - reflexivity.
  - reflexivity.
  - reflexivity.
  - intros i _. reflexivity.
Defined.

Lemma In_delete :
  forall key row t,
    In row (SQLite.delete key t) -> In row t /\ SQLite.Row.id row <> key.
Proof.
  intros key row t H. unfold SQLite.delete in H.
  apply filter_In in H as [Hin Hne]. split; [exact Hin|].
  intros E. rewrite E, String.eqb_refl in Hne. discriminate Hne.
Qed.

(** X16. Deleting a reminder from the home screen (the confirmation's Delete
    button), with the database open, location services enabled and the
    platform accepting the three calls.  The handler resolves to the list
    read back from the table, in which no reminder has the id; the monitored
    regions are replaced by those of the remaining active reminders, so no
    region carries the id; the records under other ids are as before. *)
Theorem handleDeleteReminder_removes_record_and_region :
  forall (P : Platform) (w : World) (id : string) (shown : list Reminder.t)
         (t : SQLite.Table),
    db w = true ->
    reminders w = Some t ->
    isLocationServicesEnabled w = true ->
    accepts P (steps w) 3 ->
    exists list w',
      HomeScreen.handleDeleteReminder_onPress id shown P w
      = (Resolved list, w') /\
      list = map DatabaseService.ofRow
               (SQLite.orderByCreatedAtDesc (SQLite.delete id t)) /\
      reminders w' = Some (SQLite.delete id t) /\
      monitored w' = regionsOf (SQLite.delete id t) /\
      (forall r, In r list -> Reminder.id r <> id) /\
      (forall g, In g (monitored w') -> GeofenceRegion.identifier g <> id) /\
      stored w' id = None /\
      (forall k, k <> id -> stored w' k = stored w k).
Proof.
  intros P w id shown t Hdb Ht Hen Hacc.
  assert (H0 : rejection P (steps w) = None) by (apply Hacc; lia).
  unfold HomeScreen.handleDeleteReminder_onPress, tryCatch, bind.
  rewrite (deleteReminder_accepted P w id t Hdb Ht H0).
  rewrite (loadReminders_accepted P _ shown (SQLite.delete id t));
    [ | destruct w; exact Hdb | destruct w; reflexivity | destruct w; exact Hen
      | intros i Hi; apply Hacc; destruct w; simpl in *; lia ].
  eexists. eexists. split; [reflexivity|]. split; [reflexivity|].
  split; [destruct w; reflexivity|].
  split; [destruct w; reflexivity|].
  split.
  { intros r Hin. apply in_map_iff in Hin as (row & <- & Hin).
    apply In_orderByCreatedAtDesc, In_delete in Hin. simpl. apply Hin. }
  split.
  { intros g Hg.
    replace (monitored _) with (regionsOf (SQLite.delete id t)) in Hg
      by (destruct w; reflexivity).
    apply In_regionsOf in Hg as (row & Hin & _ & ->).
    apply In_delete in Hin. simpl. apply Hin. }
  split.
  { replace (stored _ id) with (SQLite.selectById id (SQLite.delete id t))
      by (destruct w; reflexivity).
    apply selectById_delete_same. }
  intros k Hk.
  replace (stored _ k) with (SQLite.selectById k (SQLite.delete id t))
    by (destruct w; reflexivity).
  unfold stored. rewrite Ht. apply selectById_delete_other. congruence.
Qed.

Lemma handleDeleteReminder_removes_record_and_region_witness :
  exists list w',
    HomeScreen.handleDeleteReminder_onPress "r1"
      [DatabaseService.ofRow Scenario.r1] Scenario.host
      (mkWorld true (Some [Scenario.r1]) true
         [GeofenceRegion.mk "r1" Scenario.lat Scenario.lon (JS.ofZ 50)]
         1700000000000 0 [])
    = (Resolved list, w') /\
    list = map DatabaseService.ofRow
             (SQLite.orderByCreatedAtDesc (SQLite.delete "r1" [Scenario.r1])) /\
    reminders w' = Some (SQLite.delete "r1" [Scenario.r1]) /\
    monitored w' = regionsOf (SQLite.delete "r1" [Scenario.r1]) /\
    (forall r, In r list -> Reminder.id r <> "r1") /\
    (forall g, In g (monitored w') -> GeofenceRegion.identifier g <> "r1") /\
    stored w' "r1" = None /\
    (forall k, k <> "r1" ->
               stored w' k =
               stored (mkWorld true (Some [Scenario.r1]) true
                         [GeofenceRegion.mk "r1" Scenario.lat Scenario.lon
                            (JS.ofZ 50)]
                         1700000000000 0 []) k).
Proof.
  apply (handleDeleteReminder_removes_record_and_region Scenario.host
           (mkWorld true (Some [Scenario.r1]) true
              [GeofenceRegion.mk "r1" Scenario.lat Scenario.lon (JS.ofZ 50)]
              1700000000000 0 [])
           "r1" [DatabaseService.ofRow Scenario.r1] [Scenario.r1]).
  - reflexivity.
  - reflexivity.
  - reflexivity.
  - intros i _. reflexivity.
Defined.

Lemma tryCatch_resolves :
  forall (A : Type) (body : M A) (handler : Error -> M A),
    (forall e P w, exists a, fst (handler e P w) = Resolved a) ->
    forall P w, exists a, fst (tryCatch body handler P w) = Resolved a.
Proof.
  intros A body handler Hh P w. unfold tryCatch.
  destruct (body P w) as [[a|e] w1]; [exists a; reflexivity | apply Hh].
Qed.

Lemma loadReminders_resolves :
  forall shown P w,
    exists list, fst (HomeScreen.loadReminders shown P w) = Resolved list.
Proof.
  intros shown P w. unfold HomeScreen.loadReminders.
  unfold tryCatch at 1. unfold bind at 1.
  destruct (DatabaseService.getAllReminders P w) as [[all|e] w1].
  - apply tryCatch_resolves. intros e P' w'. eexists. reflexivity.
  - eexists. reflexivity.
Qed.

(** X17. The handlers of the home screen never reject: [loadReminders], the
    Delete button and the switch each resolve, whatever the platform does.
    When the reading of the table fails in [loadReminders], the list shown
    before is kept, the monitored regions are not touched, and the failure
    is logged and reported in an alert. *)
Theorem homeScreen_handlers_never_reject :
  forall (P : Platform) (w : World) (id : string) (isActive : bool)
         (shown : list Reminder.t),
    (exists list, fst (HomeScreen.loadReminders shown P w) = Resolved list) /\
    (exists list,
        fst (HomeScreen.handleDeleteReminder_onPress id shown P w)
        = Resolved list) /\
    (exists list,
        fst (HomeScreen.handleToggleReminder id isActive shown P w)
        = Resolved list) /\
    (forall e w1,
        DatabaseService.getAllReminders P w = (Rejected e, w1) ->
        HomeScreen.loadReminders shown P w
        = (Resolved shown,
           emit (Alert "Error" "Failed to load reminders")
             (emit (Console (mkLog ERROR "Failed to load reminders:" (Some e)))
                w1)) /\
        monitored w1 = monitored w).
Proof.
  intros P w id isActive shown.
  split; [apply loadReminders_resolves|].
  split.
  { unfold HomeScreen.handleDeleteReminder_onPress, tryCatch, bind.
    destruct (DatabaseService.deleteReminder id P w) as [[[]|e] w1].
    - destruct (loadReminders_resolves shown P w1) as [list Hl].
      destruct (HomeScreen.loadReminders shown P w1) as [c w2].
      simpl in Hl. subst c. exists list. reflexivity.
    - eexists. reflexivity. }
  split.
  { unfold HomeScreen.handleToggleReminder, tryCatch, bind.
    destruct (DatabaseService.updateReminder id _ P w) as [[[]|e] w1].
    - destruct (loadReminders_resolves shown P w1) as [list Hl].
      destruct (HomeScreen.loadReminders shown P w1) as [c w2].
      simpl in Hl. subst c. exists list. reflexivity.
    - eexists. reflexivity. }
  intros e w1 Hget. split.
  - unfold HomeScreen.loadReminders. unfold tryCatch at 1. unfold bind at 1.
    rewrite Hget. reflexivity.
  - revert Hget. destruct w as [d t en mo cl st j].
    unfold DatabaseService.getAllReminders. run.
    destruct d; simpl; [|intros H; inversion H; reflexivity].
    destruct (rejection P st); simpl; [intros H; inversion H; reflexivity|].
    destruct t; simpl; intros H; inversion H; reflexivity.
Qed.

Lemma homeScreen_handlers_never_reject_witness :
  HomeScreen.loadReminders [DatabaseService.ofRow Scenario.r1] Scenario.failing
    (Scenario.world [])
  = (Resolved [DatabaseService.ofRow Scenario.r1],
     emit (Alert "Error" "Failed to load reminders")
       (emit (Console (mkLog ERROR "Failed to load reminders:"
                         (Some (mkError "rejected"))))
          (tick Scenario.failing (Scenario.world [])))).
Proof.
  destruct (homeScreen_handlers_never_reject Scenario.failing
              (Scenario.world []) "r1" true
              [DatabaseService.ofRow Scenario.r1]) as (_ & _ & _ & H).
  apply (H (mkError "rejected") (tick Scenario.failing (Scenario.world []))).
  reflexivity.
Defined.

(** ** EditReminderScreen: saving *)

(** X18. [handleSave] never rejects.  When the form does not pass
    [validateForm], nothing is written and nothing else happens than the one
    alert that names the first field at fault: the form and the table are as
    before and no statement is run. *)
Theorem handleSave_of_an_invalid_form_writes_nothing :
  forall (P : Platform) (w : World) (reminderId : string)
         (s : EditReminderScreen.State),
    (exists s',
        fst (EditReminderScreen.handleSave reminderId s P w) = Resolved s') /\
    (fst (EditReminderScreen.validateForm s P w) = Resolved false ->
     exists text,
       EditReminderScreen.handleSave reminderId s P w
       = (Resolved s, emit (Alert "Error" text) w)).
Proof.
  intros P w reminderId s.
  unfold EditReminderScreen.handleSave, bind.
  destruct (validateForm_cases P w s) as (b & w0 & Hv & Htab & Hb).
  rewrite Hv. split.
  - destruct b; cbn [negb]; [|eexists; reflexivity].
    unfold tryCatch, bind.
    destruct (DatabaseService.updateReminder reminderId _ P w0)
      as [[[]|e] w1]; eexists; reflexivity.
  - simpl. intros E. inversion E; subst b. cbn [negb].
    revert Hv. unfold EditReminderScreen.validateForm.
    repeat match goal with
           | |- context [if ?c then _ else _] =>
               destruct c;
               [intros Hv; inversion Hv; eexists; reflexivity|]
           end.
    intros Hv. discriminate Hv.
Qed.

Lemma handleSave_of_an_invalid_form_writes_nothing_witness :
  exists text,
    EditReminderScreen.handleSave "r1" EditReminderScreen.initial
      Scenario.host (Scenario.world [Scenario.r1])
    = (Resolved EditReminderScreen.initial,
       emit (Alert "Error" text) (Scenario.world [Scenario.r1])).
Proof.
  destruct (handleSave_of_an_invalid_form_writes_nothing Scenario.host
              (Scenario.world [Scenario.r1]) "r1" EditReminderScreen.initial)
    as [_ H].
  apply H. reflexivity.
Defined.

Lemma ofOption_inj :
  forall a b, SQLite.ofOption a = SQLite.ofOption b -> a = b.
Proof.
  intros [a|] [b|] H; simpl in H; try discriminate H;
    [inversion H|]; reflexivity.
Qed.

Lemma ofOption_text :
  forall a s, SQLite.ofOption a = SQLite.Text s -> a = Some s.
Proof. intros [a|] s H; simpl in H; [inversion H; reflexivity | discriminate H]. Qed.

Lemma handleSave_stored :
  forall P w reminderId s row,
    db w = true ->
    stored w reminderId = Some row ->
    rejection P (steps w) = None ->
    JS.nonEmpty (JS.trim (EditReminderScreen.title s)) = true ->
    JS.nonEmpty (JS.trim (EditReminderScreen.notificationTitle s)) = true ->
    JS.nonEmpty (JS.trim (EditReminderScreen.notificationBody s)) = true ->
    EditReminderScreen.latitude s <> JS.NaN ->
    EditReminderScreen.longitude s <> JS.NaN ->
    JS.le (JS.ofZ 10) (EditReminderScreen.radius s) = true ->
    JS.le (EditReminderScreen.radius s) (JS.ofZ 1000) = true ->
    exists w' row',
      EditReminderScreen.handleSave reminderId s P w
      = (Resolved (EditReminderScreen.setLoading false s), w') /\
      stored w' reminderId = Some row' /\
      (forall c,
          SQLite.cell c row' =
            match provided c (EditReminderScreen.updatesOf s) with
            | Some v => if Column.eqb c Column.id
                        then SQLite.cell c row else SQLite.keptValue v
            | None => SQLite.cell c row
            end) /\
      (forall k, k <> reminderId -> stored w' k = stored w k).
Proof.
  intros P w reminderId s row Hdb Hst Hrej Ht Hnt Hnb Hla Hlo Hlow Hhigh.
  destruct (updateReminder_stored P w reminderId
              (EditReminderScreen.updatesOf s) row Hdb Hst Hrej)
    as (w1 & row' & Hrun & Hst1 & Hcells & Hframe).
  { intros e He E.
    unfold EditReminderScreen.updatesOf in He. simpl in He.
    destruct He as [<-|[<-|[<-|[<-|[<-|[<-|[<-|[<-|[]]]]]]]]];
      simpl in E; try discriminate E.
    - destruct (EditReminderScreen.orUndefined _); discriminate E.
    - inversion E. contradiction.
    - inversion E. contradiction.
    - inversion E as [E']. apply (le_not_NaN _ _ Hlow). exact E'. }
  unfold EditReminderScreen.handleSave, bind, tryCatch.
  rewrite (validateForm_passes P w s Ht Hnt Hnb Hlow Hhigh). cbn [negb].
  rewrite Hrun.
  eexists. exists row'. split; [reflexivity|].
  split; [unfold stored in *; destruct w1; exact Hst1|].
  split; [exact Hcells|].
  intros k Hk. rewrite <- (Hframe k Hk). unfold stored. destruct w1; reflexivity.
Qed.

(** X19. What [handleSave] stores.  For a form that passes the validation
    and whose coordinates are numbers, on an open database that holds the
    reminder and whose call the platform accepts, the stored record
    afterwards has the trimmed title, notification title and notification
    body of the form, its radius and address (an empty address is stored as
    the empty string), its coordinates as the engine keeps them (the
    coordinates themselves, except that [-0] is kept as [0]), and the
    trimmed description when that is not empty; with a blank description
    the stored description is kept, so it cannot be cleared.  The id,
    [isActive], [createdAt] and [triggeredAt] are as before, and so are the
    records under other ids. *)
Theorem handleSave_stores_the_form :
  forall (P : Platform) (w : World) (reminderId : string)
         (s : EditReminderScreen.State) (row : SQLite.Row.t),
    db w = true ->
    stored w reminderId = Some row ->
    rejection P (steps w) = None ->
    JS.nonEmpty (JS.trim (EditReminderScreen.title s)) = true ->
    JS.nonEmpty (JS.trim (EditReminderScreen.notificationTitle s)) = true ->
    JS.nonEmpty (JS.trim (EditReminderScreen.notificationBody s)) = true ->
    EditReminderScreen.latitude s <> JS.NaN ->
    EditReminderScreen.longitude s <> JS.NaN ->
    JS.le (JS.ofZ 10) (EditReminderScreen.radius s) = true ->
    JS.le (EditReminderScreen.radius s) (JS.ofZ 1000) = true ->
    exists w',
      EditReminderScreen.handleSave reminderId s P w
      = (Resolved (EditReminderScreen.setLoading false s), w') /\
      stored w' reminderId =
        Some (SQLite.Row.mk
                (SQLite.Row.id row)
                (JS.trim (EditReminderScreen.title s))
                (if JS.nonEmpty (JS.trim (EditReminderScreen.description s))
                 then Some (JS.trim (EditReminderScreen.description s))
                 else SQLite.Row.description row)
                (SQLite.kept (EditReminderScreen.latitude s))
                (SQLite.kept (EditReminderScreen.longitude s))
                (EditReminderScreen.radius s)
                (Some (EditReminderScreen.address s))
                (SQLite.Row.isActive row)
                (JS.trim (EditReminderScreen.notificationTitle s))
                (JS.trim (EditReminderScreen.notificationBody s))
                (SQLite.Row.createdAt row)
                (SQLite.Row.triggeredAt row)) /\
      (forall k, k <> reminderId -> stored w' k = stored w k).
Proof.
  intros P w reminderId s row Hdb Hst Hrej Ht Hnt Hnb Hla Hlo Hlow Hhigh.
  destruct (handleSave_stored P w reminderId s row Hdb Hst Hrej Ht Hnt Hnb
              Hla Hlo Hlow Hhigh) as (w' & row' & Hrun & Hst' & Hcells & Hframe).
  exists w'. split; [exact Hrun|]. split; [|exact Hframe].
  rewrite Hst'. f_equal.
  pose proof (Hcells Column.id) as Hid.
  pose proof (Hcells Column.title) as Hti.
  pose proof (Hcells Column.description) as Hde.
  pose proof (Hcells Column.latitude) as Hlat.
  pose proof (Hcells Column.longitude) as Hlon.
  pose proof (Hcells Column.radius) as Hra.
  pose proof (Hcells Column.address) as Had.
  pose proof (Hcells Column.isActive) as Hac.
  pose proof (Hcells Column.notificationTitle) as Hnti.
  pose proof (Hcells Column.notificationBody) as Hnbo.
  pose proof (Hcells Column.createdAt) as Hcr.
  pose proof (Hcells Column.triggeredAt) as Htr.
  clear Hcells.
  simpl in Hid, Hti, Hlat, Hlon, Hra, Had, Hac, Hnti, Hnbo, Hcr, Htr.
  cbn [provided EditReminderScreen.updatesOf Entry.key Column.eqb
       DatabaseService.bound option_map SQLite.cell] in Hde.
  unfold EditReminderScreen.orUndefined in Hde.
  assert (Hdesc : SQLite.Row.description row' =
                  if JS.nonEmpty (JS.trim (EditReminderScreen.description s))
                  then Some (JS.trim (EditReminderScreen.description s))
                  else SQLite.Row.description row).
  { destruct (JS.nonEmpty (JS.trim (EditReminderScreen.description s)));
      simpl in Hde; [apply ofOption_text | apply ofOption_inj]; exact Hde. }
  apply ofOption_text in Had. apply ofOption_inj in Htr.
  rewrite (kept_at_least_ten _ Hlow) in Hra.
  inversion Hid. inversion Hti. inversion Hlat. inversion Hlon. inversion Hra.
  inversion Hac. inversion Hnti. inversion Hnbo. inversion Hcr.
  destruct row' as [i ti de la lo ra ad ac nt nb cr tr]. simpl in *.
  congruence.
Qed.

Lemma handleSave_stores_the_form_witness :
  exists w',
    EditReminderScreen.handleSave "r1"
      (EditReminderScreen.mk " Keys " "   " "Don't forget!" "Grab your keys"
         (S754_zero true) Scenario.lon (JS.ofZ 75) "" false)
      Scenario.host (Scenario.world [Scenario.r1Triggered])
    = (Resolved
         (EditReminderScreen.setLoading false
            (EditReminderScreen.mk " Keys " "   " "Don't forget!"
               "Grab your keys" (S754_zero true) Scenario.lon (JS.ofZ 75) ""
               false)), w') /\
    stored w' "r1" =
      Some (SQLite.Row.mk "r1" (JS.trim " Keys ")
              (if JS.nonEmpty (JS.trim "   ") then Some (JS.trim "   ")
               else None)
              (S754_zero false) Scenario.lon (JS.ofZ 75) (Some "") (JS.ofZ 1)
              (JS.trim "Don't forget!") (JS.trim "Grab your keys")
              "2023-11-14T22:13:20.000Z" (Some "2023-11-14T22:13:20.003Z")) /\
    (forall k, k <> "r1" ->
               stored w' k = stored (Scenario.world [Scenario.r1Triggered]) k).
Proof.
  apply (handleSave_stores_the_form Scenario.host
           (Scenario.world [Scenario.r1Triggered]) "r1"
           (EditReminderScreen.mk " Keys " "   " "Don't forget!"
              "Grab your keys" (S754_zero true) Scenario.lon (JS.ofZ 75) ""
              false)
           Scenario.r1Triggered);
    try reflexivity; discriminate.
Defined.

(** X20. Editing a reminder that is no longer stored.  On an open database
    whose calls the platform accepts, [loadReminder] of an id under which
    nothing is stored leaves the form as it is, without an alert; and when
    the form then passes the validation, [handleSave] runs its UPDATE
    statement and reports 'Reminder updated successfully!' although the
    table is left as it was. *)
Theorem editing_a_missing_reminder_reports_success :
  forall (P : Platform) (w : World) (reminderId : string)
         (s : EditReminderScreen.State) (t : SQLite.Table),
    db w = true ->
    reminders w = Some t ->
    SQLite.selectById reminderId t = None ->
    accepts P (steps w) 2 ->
    JS.nonEmpty (JS.trim (EditReminderScreen.title s)) = true ->
    JS.nonEmpty (JS.trim (EditReminderScreen.notificationTitle s)) = true ->
    JS.nonEmpty (JS.trim (EditReminderScreen.notificationBody s)) = true ->
    JS.le (JS.ofZ 10) (EditReminderScreen.radius s) = true ->
    JS.le (EditReminderScreen.radius s) (JS.ofZ 1000) = true ->
    exists w1 w2 statement,
      EditReminderScreen.loadReminder reminderId s P w = (Resolved s, w1) /\
      journal w1 = journal w /\
      EditReminderScreen.handleSave reminderId s P w1
      = (Resolved (EditReminderScreen.setLoading false s), w2) /\
      reminders w2 = Some t /\
      journal w2 =
        (journal w ++
         [Ran statement;
          Alert "Success" "Reminder updated successfully!"])%list.
Proof.
  intros P w reminderId s t Hdb Ht Hnone Hacc Hti Hnt Hnb Hlow Hhigh.
  assert (H0 : rejection P (steps w) = None) by (apply Hacc; lia).
  assert (H1 : rejection P (S (steps w)) = None) by (apply Hacc; lia).
  exists (tick P w).
  assert (Hload : EditReminderScreen.loadReminder reminderId s P w
                  = (Resolved s, tick P w)).
  { unfold EditReminderScreen.loadReminder, tryCatch, bind.
    rewrite (getReminder_missing P w reminderId t Hdb Ht Hnone H0).
    reflexivity. }
  assert (Hupd : exists statement,
             DatabaseService.updateReminder reminderId
               (EditReminderScreen.updatesOf s) P (tick P w)
             = (Resolved tt,
                emit (Ran statement)
                  (setReminders (Some t) (tick P (tick P w))))).
  { rewrite (updateReminder_accepted P (tick P w) reminderId _ t);
      [ | destruct w; exact Hdb | destruct w; exact Ht | destruct w; exact H1 ].
    change (DatabaseService.collect (EditReminderScreen.updatesOf s))
      with (let '(fields, values) :=
              DatabaseService.collect (tl (EditReminderScreen.updatesOf s)) in
            (Column.title :: fields,
             SQLite.Text (JS.trim (EditReminderScreen.title s)) :: values)).
    destruct (DatabaseService.collect (tl (EditReminderScreen.updatesOf s)))
      as [fields values].
    rewrite (updateRows_missing _ _ _ Hnone).
    eexists. reflexivity. }
  destruct Hupd as [statement Hupd].
  eexists. exists statement.
  split; [exact Hload|]. split; [destruct w; reflexivity|].
  unfold EditReminderScreen.handleSave, bind, tryCatch.
  rewrite (validateForm_passes P (tick P w) s Hti Hnt Hnb Hlow Hhigh).
  cbn [negb]. rewrite Hupd.
  split; [reflexivity|].
  split; [reflexivity|].
  destruct w; simpl. rewrite <- app_assoc. reflexivity.
Qed.

Lemma editing_a_missing_reminder_reports_success_witness :
  exists w1 w2 statement,
    EditReminderScreen.loadReminder "r2"
      (EditReminderScreen.mk "Keys" "" "Don't forget!" "Grab your keys"
         Scenario.lat Scenario.lon (JS.ofZ 75) "" false)
      Scenario.host (Scenario.world [Scenario.r1])
    = (Resolved
         (EditReminderScreen.mk "Keys" "" "Don't forget!" "Grab your keys"
            Scenario.lat Scenario.lon (JS.ofZ 75) "" false), w1) /\
    journal w1 = [] /\
    EditReminderScreen.handleSave "r2"
      (EditReminderScreen.mk "Keys" "" "Don't forget!" "Grab your keys"
         Scenario.lat Scenario.lon (JS.ofZ 75) "" false)
      Scenario.host w1
    = (Resolved
         (EditReminderScreen.setLoading false
            (EditReminderScreen.mk "Keys" "" "Don't forget!" "Grab your keys"
               Scenario.lat Scenario.lon (JS.ofZ 75) "" false)), w2) /\
    reminders w2 = Some [Scenario.r1] /\
    journal w2 =
      ([] ++ [Ran statement;
              Alert "Success" "Reminder updated successfully!"])%list.
Proof.
  apply (editing_a_missing_reminder_reports_success Scenario.host
           (Scenario.world [Scenario.r1]) "r2"
           (EditReminderScreen.mk "Keys" "" "Don't forget!" "Grab your keys"
              Scenario.lat Scenario.lon (JS.ofZ 75) "" false)
           [Scenario.r1]);
    try reflexivity.
  intros i _. reflexivity.
Defined.

(** ** ReminderDetailsScreen: the switch *)

Lemma toggle_accepted :
  forall P w id b t,
    db w = true ->
    reminders w = Some t ->
    rejection P (steps w) = None ->
    exists t',
      DatabaseService.updateReminder id [Entry.isActive (Some b)] P w
      = (Resolved tt,
         emit (Ran (UpdateSet [Column.isActive]
                      [SQLite.Number (DatabaseService.oneOrZero b);
                       SQLite.Text id]))
           (setReminders (Some t') (tick P w))) /\
      (forall k, k <> id -> SQLite.selectById k t' = SQLite.selectById k t) /\
      (forall row,
          SQLite.selectById id t = Some row ->
          exists row',
            SQLite.selectById id t' = Some row' /\
            DatabaseService.ofRow row'
            = ReminderDetailsScreen.withIsActive b (DatabaseService.ofRow row)).
Proof.
  intros P w id b t Hdb Ht Hrej.
  destruct (updateRows_isActive b id t) as (t' & Hupd & _ & Hother).
  exists t'.
  rewrite (updateReminder_accepted P w id _ t Hdb Ht Hrej).
  cbn [DatabaseService.collect DatabaseService.bound option_map Entry.key
       Column.eqb negb combine app].
  rewrite Hupd. split; [reflexivity|]. split; [exact Hother|].
  intros row Hrow.
  pose proof (selectById_updateRows
                [(Column.isActive, SQLite.Number (DatabaseService.oneOrZero b))]
                id t t' eq_refl Hupd id) as Hsel.
  rewrite Hrow, String.eqb_refl in Hsel.
  destruct Hsel as (row' & Hset & Hsel). exists row'. split; [exact Hsel|].
  destruct row as [i ti de la lo ra ad ac nt nb cr tr].
  cbn [SQLite.setCells SQLite.setCell] in Hset.
  rewrite toNumber_oneOrZero in Hset. cbn [SQLite.andThen] in Hset.
  inversion Hset; subst row'.
  unfold DatabaseService.ofRow, ReminderDetailsScreen.withIsActive. simpl.
  rewrite truthy_oneOrZero. reflexivity.
Qed.

(** X21. The switch of the details screen, for a reminder the screen loaded
    from an open database, when the platform accepts the call: the record
    the screen shows afterwards, [{ ...reminder, isActive }], is the record
    that is stored, the records under other ids are as before, and the
    monitored regions are not touched (the regions are not registered anew,
    as the home screen does).  With no reminder loaded the switch does
    nothing. *)
Theorem handleToggleActive_shows_what_is_stored :
  forall (P : Platform) (w : World) (isActive : bool) (row : SQLite.Row.t),
    db w = true ->
    stored w (SQLite.Row.id row) = Some row ->
    rejection P (steps w) = None ->
    (exists w' row',
        ReminderDetailsScreen.handleToggleActive isActive
          (Some (DatabaseService.ofRow row)) P w
        = (Resolved (Some (DatabaseService.ofRow row')), w') /\
        stored w' (SQLite.Row.id row) = Some row' /\
        Reminder.isActive (DatabaseService.ofRow row') = isActive /\
        (forall k, k <> SQLite.Row.id row -> stored w' k = stored w k) /\
        monitored w' = monitored w) /\
    ReminderDetailsScreen.handleToggleActive isActive None P w
    = (Resolved None, w).
Proof.
  intros P w isActive row Hdb Hst Hrej. split; [|reflexivity].
  unfold stored in Hst.
  destruct (reminders w) as [t|] eqn:Ht; [|discriminate Hst].
  destruct (toggle_accepted P w (SQLite.Row.id row) isActive t Hdb Ht Hrej)
    as (t' & Hrun & Hother & Hsame).
  destruct (Hsame row Hst) as (row' & Hsel & Hrec).
  unfold ReminderDetailsScreen.handleToggleActive, tryCatch, bind.
  cbn [Reminder.id DatabaseService.ofRow].
  rewrite Hrun.
  eexists. exists row'. split; [rewrite Hrec; reflexivity|].
  split; [destruct w; exact Hsel|].
  split; [rewrite Hrec; reflexivity|].
  split; [|destruct w; reflexivity].
  intros k Hk. unfold stored. rewrite Ht. destruct w; simpl.
  apply (Hother k Hk).
Qed.

Lemma handleToggleActive_shows_what_is_stored_witness :
  (exists w' row',
      ReminderDetailsScreen.handleToggleActive false
        (Some (DatabaseService.ofRow Scenario.r1)) Scenario.host
        (Scenario.world [Scenario.r1])
      = (Resolved (Some (DatabaseService.ofRow row')), w') /\
      stored w' "r1" = Some row' /\
      Reminder.isActive (DatabaseService.ofRow row') = false /\
      (forall k, k <> "r1" ->
                 stored w' k = stored (Scenario.world [Scenario.r1]) k) /\
      monitored w' = []) /\
  ReminderDetailsScreen.handleToggleActive false None Scenario.host
    (Scenario.world [Scenario.r1])
  = (Resolved None, Scenario.world [Scenario.r1]).
Proof.
  apply (handleToggleActive_shows_what_is_stored Scenario.host
           (Scenario.world [Scenario.r1]) false Scenario.r1); reflexivity.
Defined.

(** X22. A reminder switched off on the details screen keeps its region
    registered, and the enter events of that region are then dropped: with
    the database open and the platform accepting the calls, the handler
    presents no notification and leaves the table as the switch left it. *)
Theorem switched_off_reminder_is_not_notified :
  forall (P : Platform) (w : World) (row : SQLite.Row.t),
    db w = true ->
    stored w (SQLite.Row.id row) = Some row ->
    accepts P (steps w) 2 ->
    exists shown w1 w2,
      ReminderDetailsScreen.handleToggleActive false
        (Some (DatabaseService.ofRow row)) P w = (Resolved shown, w1) /\
      monitored w1 = monitored w /\
      LocationService.handleGeofenceEnter (SQLite.Row.id row) P w1
      = (Resolved tt, w2) /\
      presented (journal w2) = presented (journal w) /\
      reminders w2 = reminders w1 /\
      monitored w2 = monitored w.
Proof.
  intros P w row Hdb Hst Hacc.
  assert (H0 : rejection P (steps w) = None) by (apply Hacc; lia).
  assert (H1 : rejection P (S (steps w)) = None) by (apply Hacc; lia).
  unfold stored in Hst.
  destruct (reminders w) as [t|] eqn:Ht; [|discriminate Hst].
  destruct (toggle_accepted P w (SQLite.Row.id row) false t Hdb Ht H0)
    as (t' & Hrun & Hother & Hsame).
  destruct (Hsame row Hst) as (row' & Hsel & Hrec).
  unfold ReminderDetailsScreen.handleToggleActive, tryCatch, bind.
  cbn [Reminder.id DatabaseService.ofRow].
  rewrite Hrun.
  eexists. eexists. eexists. split; [reflexivity|].
  split; [destruct w; reflexivity|].
  unfold LocationService.handleGeofenceEnter,
    LocationService.handleGeofenceEnter_try, tryCatch, bind.
  rewrite (getReminder_found P _ (SQLite.Row.id row) row');
    [ | destruct w; exact Hdb | destruct w; exact Hsel | destruct w; exact H1 ].
  rewrite Hrec. cbn [Reminder.isActive ReminderDetailsScreen.withIsActive].
  split; [reflexivity|].
  destruct w as [d t0 en mo cl st j]. simpl.
  rewrite presented_app. simpl. rewrite app_nil_r.
  repeat split.
Qed.

Lemma switched_off_reminder_is_not_notified_witness :
  exists shown w1 w2,
    ReminderDetailsScreen.handleToggleActive false
      (Some (DatabaseService.ofRow Scenario.r1)) Scenario.host
      (mkWorld true (Some [Scenario.r1]) true
         [GeofenceRegion.mk "r1" Scenario.lat Scenario.lon (JS.ofZ 50)]
         1700000000000 0 [])
    = (Resolved shown, w1) /\
    monitored w1 =
      [GeofenceRegion.mk "r1" Scenario.lat Scenario.lon (JS.ofZ 50)] /\
    LocationService.handleGeofenceEnter "r1" Scenario.host w1
    = (Resolved tt, w2) /\
    presented (journal w2) = [] /\
    reminders w2 = reminders w1 /\
    monitored w2 =
      [GeofenceRegion.mk "r1" Scenario.lat Scenario.lon (JS.ofZ 50)].
Proof.
  apply (switched_off_reminder_is_not_notified Scenario.host
           (mkWorld true (Some [Scenario.r1]) true
              [GeofenceRegion.mk "r1" Scenario.lat Scenario.lon (JS.ofZ 50)]
              1700000000000 0 [])
           Scenario.r1).
  - reflexivity.
  - reflexivity.
  - intros i _. reflexivity.
Defined.

(** ** SettingsScreen: clearing all data *)

Lemma deleteEach_accepted :
  forall rows P w t,
    db w = true ->
    reminders w = Some t ->
    accepts P (steps w) (List.length rows) ->
    exists w',
      SettingsScreen.deleteEach (map DatabaseService.ofRow rows) P w
      = (Resolved tt, w') /\
      db w' = true /\
      steps w' = (List.length rows + steps w)%nat /\
      reminders w' =
        Some (fold_left (fun table row => SQLite.delete (SQLite.Row.id row) table)
                rows t) /\
      monitored w' = monitored w /\
      presented (journal w') = presented (journal w).
Proof.
  induction rows as [|row rows IH]; intros P w t Hdb Ht Hacc.
  - exists w. simpl. repeat split; assumption.
  - assert (H0 : rejection P (steps w) = None) by (apply Hacc; simpl; lia).
    cbn [map SettingsScreen.deleteEach]. unfold bind.
    cbn [Reminder.id DatabaseService.ofRow].
    rewrite (deleteReminder_accepted P w (SQLite.Row.id row) t Hdb Ht H0).
    destruct (IH P
                (emit (Ran (DeleteFrom (SQLite.Row.id row)))
                   (setReminders (Some (SQLite.delete (SQLite.Row.id row) t))
                      (tick P w)))
                (SQLite.delete (SQLite.Row.id row) t))
      as (w' & Hrun & Hdb' & Hsteps & Htab & Hmon & Hpres).
    + destruct w; exact Hdb.
    + destruct w; reflexivity.
    + intros i Hi. apply Hacc. destruct w; simpl in *. lia.
    + exists w'. split; [exact Hrun|]. split; [exact Hdb'|].
      split; [rewrite Hsteps; destruct w; simpl; lia|].
      split; [exact Htab|].
      split; [rewrite Hmon; destruct w; reflexivity|].
      rewrite Hpres. destruct w; simpl. rewrite presented_app. simpl.
      apply app_nil_r.
Qed.

Lemma delete_all :
  forall rows t,
    (forall r, In r t -> In (SQLite.Row.id r) (map SQLite.Row.id rows)) ->
    fold_left (fun table row => SQLite.delete (SQLite.Row.id row) table) rows t
    = [].
Proof.
  induction rows as [|row rows IH]; intros t H; simpl.
  - destruct t as [|r t]; [reflexivity|]. destruct (H r (or_introl eq_refl)).
  - apply IH. intros r Hin. apply In_delete in Hin as [Hin Hne].
    destruct (H r Hin) as [E | Hin']; [congruence | exact Hin'].
Qed.

(** X23. The Clear All button of the settings screen, on an open database
    and a platform that accepts the calls (one reading, one deletion per
    stored reminder, one reading for the statistics): the table is empty
    afterwards, the statistics are 0 and 0, and the success alert is shown.
    The monitored regions are not touched: the regions of the deleted
    reminders stay registered. *)
Theorem handleClearAllData_empties_the_table :
  forall (P : Platform) (w : World) (stats : SettingsScreen.Stats)
         (t : SQLite.Table),
    db w = true ->
    reminders w = Some t ->
    accepts P (steps w) (List.length t + 2) ->
    exists w' j,
      SettingsScreen.handleClearAllData_onPress stats P w
      = (Resolved (0%nat, 0%nat), w') /\
      reminders w' = Some [] /\
      monitored w' = monitored w /\
      presented (journal w') = presented (journal w) /\
      journal w' = (j ++ [Alert "Success" "All data has been cleared."])%list.
Proof.
  intros P w stats t Hdb Ht Hacc.
  assert (H0 : rejection P (steps w) = None) by (apply Hacc; lia).
  unfold SettingsScreen.handleClearAllData_onPress, tryCatch, bind.
  rewrite (getAllReminders_accepted P w t Hdb Ht H0).
  assert (Hlen : List.length (SQLite.orderByCreatedAtDesc t) = List.length t)
    by (apply Permutation_length, orderByCreatedAtDesc_perm).
  destruct (deleteEach_accepted (SQLite.orderByCreatedAtDesc t) P (tick P w) t)
    as (w1 & Hrun & Hdb1 & Hsteps1 & Htab1 & Hmon1 & Hpres1).
  { destruct w; exact Hdb. }
  { destruct w; exact Ht. }
  { intros i Hi. apply Hacc. rewrite Hlen in Hi. destruct w; simpl in *. lia. }
  rewrite Hrun.
  rewrite delete_all in Htab1.
  2:{ intros r Hin. apply in_map. apply In_orderByCreatedAtDesc. exact Hin. }
  unfold SettingsScreen.loadStats, tryCatch, bind.
  rewrite (getAllReminders_accepted P w1 [] Hdb1 Htab1).
  2:{ apply Hacc. rewrite Hsteps1, Hlen. destruct w; simpl. lia. }
  cbn [SQLite.orderByCreatedAtDesc fold_right map filter List.length].
  unfold Alert_alert, modify, ret.
  eexists. exists (journal w1). split; [reflexivity|].
  destruct w1 as [d1 t1 en1 mo1 cl1 st1 j1]; destruct w; simpl in *.
  split; [exact Htab1|]. split; [exact Hmon1|].
  split; [|reflexivity].
  rewrite presented_app. simpl. rewrite app_nil_r. exact Hpres1.
Qed.

Lemma handleClearAllData_empties_the_table_witness :
  exists w' j,
    SettingsScreen.handleClearAllData_onPress (2%nat, 1%nat) Scenario.host
      (mkWorld true (Some [Scenario.r1]) true
         [GeofenceRegion.mk "r1" Scenario.lat Scenario.lon (JS.ofZ 50)]
         1700000000000 0 [])
    = (Resolved (0%nat, 0%nat), w') /\
    reminders w' = Some [] /\
    monitored w' =
      [GeofenceRegion.mk "r1" Scenario.lat Scenario.lon (JS.ofZ 50)] /\
    presented (journal w') = [] /\
    journal w' = (j ++ [Alert "Success" "All data has been cleared."])%list.
Proof.
  apply (handleClearAllData_empties_the_table Scenario.host
           (mkWorld true (Some [Scenario.r1]) true
              [GeofenceRegion.mk "r1" Scenario.lat Scenario.lon (JS.ofZ 50)]
              1700000000000 0 [])
           (2%nat, 1%nat) [Scenario.r1]).
  - reflexivity.
  - reflexivity.
  - intros i _. reflexivity.
Defined.

(** ** Start-up: permissions and the bootstrap *)

Ltac accept_calls P Hacc :=
  repeat (match goal with
          | |- context [rejection P ?k] => rewrite (Hacc k) by (simpl; lia)
          end; simpl).

(** X24. [NotificationService.initialize] on a platform that accepts its
    calls: it resolves when the permission is granted already or on request,
    and rejects with 'Notification permissions not granted' otherwise.  The
    permission is requested only when it is not granted already, and the
    Android channel is configured only after the permission is granted.
    Nothing is logged, and the table, monitored regions and notifications
    are untouched. *)
Theorem notifications_initialize_requires_the_permission :
  forall (D : Device) (P : Platform) (w : World),
    accepts P (steps w) 3 ->
    exists w',
      NotificationServiceSetup.initialize D P w
      = (if notificationsGranted D || notificationsGrantedOnRequest D
         then Resolved tt
         else Rejected (mkError "Notification permissions not granted"), w') /\
      steps w' =
        (steps w + 1 + (if notificationsGranted D then 0 else 1) +
         (if (notificationsGranted D || notificationsGrantedOnRequest D) &&
             android D then 1 else 0))%nat /\
      journal w' = journal w /\
      untouched w w'.
Proof.
  intros [ng nr an pos] P [d t en mo cl st j] Hacc.
  unfold NotificationServiceSetup.initialize. run.
  accept_calls P Hacc.
  destruct ng, nr, an; simpl; accept_calls P Hacc;
    (eexists; split; [reflexivity|]; split; [simpl; lia|]; repeat split).
Qed.

Lemma notifications_initialize_requires_the_permission_witness :
  exists w',
    NotificationServiceSetup.initialize
      (mkDevice false true true (fun _ => mkLocation Scenario.lat Scenario.lon))
      Scenario.host (Scenario.world [])
    = (Resolved tt, w') /\
    steps w' = 3%nat /\
    journal w' = [] /\
    untouched (Scenario.world []) w'.
Proof.
  apply (notifications_initialize_requires_the_permission
           (mkDevice false true true
              (fun _ => mkLocation Scenario.lat Scenario.lon))
           Scenario.host (Scenario.world [])).
  intros i _. reflexivity.
Defined.

(** X25. The bootstrap [initializeApp] never rejects.  On a platform that
    accepts its calls it resolves to ready exactly when the notification
    permission is granted (already or on request); the database is open and
    the table present with the rows it had.  Location services are enabled
    only when, in addition, the foreground location permission is granted;
    a refused location permission is not fatal: the application is ready and
    an alert asks for the permission.  A refused notification permission
    ends the bootstrap with the initialisation alert, before any location
    permission is requested. *)
Theorem initializeApp_is_ready_when_notifications_are_granted :
  forall (D : Device) (P : Platform) (w : World),
    (exists ready, fst (App.initializeApp D P w) = Resolved ready) /\
    (accepts P (steps w) 7 ->
     exists w',
       App.initializeApp D P w
       = (Resolved (notificationsGranted D || notificationsGrantedOnRequest D),
          w') /\
       db w' = true /\
       reminders w' = Some (match reminders w with
                            | Some t => t
                            | None => []
                            end) /\
       isLocationServicesEnabled w' =
         (if (notificationsGranted D || notificationsGrantedOnRequest D) &&
             foregroundGranted P
          then true else isLocationServicesEnabled w) /\
       (notificationsGranted D || notificationsGrantedOnRequest D = true ->
        foregroundGranted P = false ->
        In (Alert "Location Permission Required"
              "This app requires location access to send you location-based reminders. Please enable location permissions in your device settings.")
          (journal w')) /\
       (notificationsGranted D || notificationsGrantedOnRequest D = false ->
        In (Alert "Initialization Error"
              "Failed to initialize the app. Please restart the application.")
          (journal w') /\
        (steps w' <= steps w + 4)%nat)).
Proof.
  intros D P w. split.
  { unfold App.initializeApp. apply tryCatch_resolves.
    intros e P' w'. eexists. reflexivity. }
  destruct D as [ng nr an pos]. destruct w as [d t en mo cl st j].
  intros Hacc.
  unfold App.initializeApp, DatabaseService.initialize,
    DatabaseService.createTables, NotificationServiceSetup.initialize,
    LocationServiceSetup.initialize,
    LocationServiceSetup.setupBackgroundLocation,
    LocationService.requestPermissions, requestForegroundPermissionsAsync,
    requestBackgroundPermissionsAsync.
  run. accept_calls P Hacc.
  destruct t as [t|]; simpl;
    destruct ng, nr, an; simpl; accept_calls P Hacc;
    destruct (foregroundGranted P); simpl; accept_calls P Hacc;
    try destruct (backgroundGranted P); simpl;
    (eexists; split; [reflexivity|]; simpl;
     repeat split; try discriminate; try lia;
     intros; rewrite ?in_app_iff; simpl; auto 20).
Qed.

Lemma initializeApp_is_ready_when_notifications_are_granted_witness :
  exists w',
    App.initializeApp
      (mkDevice true false false (fun _ => mkLocation Scenario.lat Scenario.lon))
      (mkPlatform (fun _ => None) (fun _ => 1%N) (fun _ => "k3j9x0q2z")
         (fun _ => "notification-1") (fun _ => []) false false (fun _ => ""))
      (mkWorld false None false [] 1700000000000 0 [])
    = (Resolved true, w') /\
    db w' = true /\
    reminders w' = Some [] /\
    isLocationServicesEnabled w' = false.
Proof.
  destruct (initializeApp_is_ready_when_notifications_are_granted
              (mkDevice true false false
                 (fun _ => mkLocation Scenario.lat Scenario.lon))
              (mkPlatform (fun _ => None) (fun _ => 1%N) (fun _ => "k3j9x0q2z")
                 (fun _ => "notification-1") (fun _ => []) false false
                 (fun _ => ""))
              (mkWorld false None false [] 1700000000000 0 []))
    as [_ H].
  destruct H as (w' & Hrun & Hdb & Ht & Hen & _).
  - intros i _. reflexivity.
  - exists w'. repeat split; assumption.
Defined.

(** ** MapScreen and the current location *)

(** X26. [getCurrentLocation] rejects with 'Location services not enabled',
    without asking the platform, as long as location services are not
    enabled.  [loadData] of the map screen, on an open database whose
    reading the platform accepts, shows the active reminders only, newest
    first, also when the position cannot be obtained: the user's location is
    then the one shown before, and it is the platform's position
    otherwise. *)
Theorem loadData_shows_active_reminders_without_a_position :
  forall (D : Device) (P : Platform) (w : World) (s : MapScreen.State)
         (t : SQLite.Table),
    db w = true ->
    reminders w = Some t ->
    rejection P (steps w) = None ->
    (isLocationServicesEnabled w = false ->
     LocationServiceSetup.getCurrentLocation D P w
     = (Rejected (mkError "Location services not enabled"), w)) /\
    exists w',
      MapScreen.loadData D s P w
      = (Resolved
           (MapScreen.mk
              (filter Reminder.isActive
                 (map DatabaseService.ofRow (SQLite.orderByCreatedAtDesc t)))
              (if isLocationServicesEnabled w
               then match rejection P (S (steps w)) with
                    | None =>
                        Some (coords_latitude (position D (S (steps w))),
                              coords_longitude (position D (S (steps w))))
                    | Some _ => MapScreen.userLocation s
                    end
               else MapScreen.userLocation s)), w') /\
      untouched w w'.
Proof.
  intros D P w s t Hdb Ht Hrej. split.
  { intros Hen. destruct w as [d t0 en mo cl st j]. simpl in Hen. subst en.
    reflexivity. }
  unfold MapScreen.loadData. unfold tryCatch at 1. unfold bind at 1.
  rewrite (getAllReminders_accepted P w t Hdb Ht Hrej).
  destruct w as [d t0 en mo cl st j].
  unfold LocationServiceSetup.getCurrentLocation. run.
  destruct en; simpl.
  - destruct (rejection P (S st)); simpl;
      (eexists; split; [reflexivity|]); unfold untouched; simpl;
      rewrite ?presented_app, ?statements_app; simpl; rewrite ?app_nil_r;
      repeat split.
  - eexists; split; [reflexivity|]. unfold untouched; simpl.
    rewrite ?presented_app, ?statements_app; simpl; rewrite ?app_nil_r.
    repeat split.
Qed.

Lemma loadData_shows_active_reminders_without_a_position_witness :
  exists w',
    MapScreen.loadData
      (mkDevice true true false (fun _ => mkLocation Scenario.lat Scenario.lon))
      (MapScreen.mk [] None) Scenario.host
      (Scenario.locationRefused [Scenario.r1])
    = (Resolved
         (MapScreen.mk
            (filter Reminder.isActive
               (map DatabaseService.ofRow
                  (SQLite.orderByCreatedAtDesc [Scenario.r1])))
            None), w') /\
    untouched (Scenario.locationRefused [Scenario.r1]) w'.
Proof.
  apply (loadData_shows_active_reminders_without_a_position
           (mkDevice true true false
              (fun _ => mkLocation Scenario.lat Scenario.lon))
           Scenario.host (Scenario.locationRefused [Scenario.r1])
           (MapScreen.mk [] None) [Scenario.r1]); reflexivity.
Defined.

(** ** EditReminderScreen: pressing the map *)

(** X27. [handleMapPress] never rejects, whatever the geocoder does.  The
    form's coordinates become the pressed point, its address becomes what
    [reverseGeocode] resolves to for that point (the coordinates as text
    when the geocoder fails), and the other fields of the form are as
    before.  The table, the monitored regions and the notifications are
    untouched. *)
Theorem handleMapPress_sets_the_pressed_point :
  forall (P : Platform) (w : World) (lat lng : JS.number)
         (s : EditReminderScreen.State),
    exists addressText w',
      LocationService.reverseGeocode lat lng P w = (Resolved addressText, w') /\
      EditReminderMap.handleMapPress lat lng s P w
      = (Resolved
           (EditReminderScreen.mk
              (EditReminderScreen.title s)
              (EditReminderScreen.description s)
              (EditReminderScreen.notificationTitle s)
              (EditReminderScreen.notificationBody s)
              lat lng
              (EditReminderScreen.radius s)
              addressText
              (EditReminderScreen.loading s)), w') /\
      untouched w w'.
Proof.
  intros P w lat lng s.
  destruct (reverseGeocode_resolves P w lat lng) as [a Ha].
  destruct (LocationService.reverseGeocode lat lng P w) as [c w'] eqn:Hrun.
  simpl in Ha. subst c.
  exists a, w'. split; [reflexivity|]. split.
  - unfold EditReminderMap.handleMapPress, tryCatch, bind.
    rewrite Hrun. reflexivity.
  - apply (reverseGeocode_untouched lat lng P w _ _ Hrun).
Qed.

(** ** Loading never writes *)

Lemma getReminder_untouched :
  forall id, respects untouched (DatabaseService.getReminder id).
Proof.
  intros id. unfold DatabaseService.getReminder, DatabaseService.requireDb,
    getFirstAsync.
  untouched_steps.
Qed.

Lemma getAllReminders_untouched :
  respects untouched DatabaseService.getAllReminders.
Proof.
  unfold DatabaseService.getAllReminders, DatabaseService.requireDb,
    getAllAsync.
  untouched_steps.
Qed.

(** X28. The loaders of the screens never reject and never write: whatever
    the platform does, [loadReminder] of the edit screen, [loadReminder] of
    the details screen and [loadStats] of the settings screen resolve, and
    they leave the table, the monitored regions and the notifications as
    they are.  When the reading fails, the edit form, the reminder shown and
    the statistics are the ones from before. *)
Theorem screen_loaders_never_write :
  forall (P : Platform) (w : World) (reminderId : string)
         (form : EditReminderScreen.State) (shown : option Reminder.t)
         (stats : SettingsScreen.Stats),
    ((exists form',
         fst (EditReminderScreen.loadReminder reminderId form P w)
         = Resolved form') /\
     untouched w (snd (EditReminderScreen.loadReminder reminderId form P w))) /\
    ((exists shown',
         fst (ReminderDetailsScreen.loadReminder reminderId shown P w)
         = Resolved shown') /\
     untouched w
       (snd (ReminderDetailsScreen.loadReminder reminderId shown P w))) /\
    ((exists stats',
         fst (SettingsScreen.loadStats stats P w) = Resolved stats') /\
     untouched w (snd (SettingsScreen.loadStats stats P w))) /\
    (forall e w1,
        DatabaseService.getReminder reminderId P w = (Rejected e, w1) ->
        fst (EditReminderScreen.loadReminder reminderId form P w)
        = Resolved form /\
        fst (ReminderDetailsScreen.loadReminder reminderId shown P w)
        = Resolved shown) /\
    (forall e w1,
        DatabaseService.getAllReminders P w = (Rejected e, w1) ->
        fst (SettingsScreen.loadStats stats P w) = Resolved stats).
Proof.
  intros P w reminderId form shown stats.
  pose proof (getReminder_untouched reminderId) as Hget.
  pose proof getAllReminders_untouched as Hall.
  split.
  { split.
    - unfold EditReminderScreen.loadReminder. apply tryCatch_resolves.
      intros e P' w'. eexists. reflexivity.
    - eapply (respects_tryCatch untouched untouched_trans);
        [ | | apply surjective_pairing ].
      + apply (respects_bind untouched untouched_trans); [exact Hget|].
        intros [r|]; apply (respects_ret untouched untouched_refl).
      + intros e. unfold console_error, Alert_alert. untouched_steps. }
  split.
  { split.
    - unfold ReminderDetailsScreen.loadReminder. apply tryCatch_resolves.
      intros e P' w'. eexists. reflexivity.
    - eapply (respects_tryCatch untouched untouched_trans);
        [ exact Hget | | apply surjective_pairing ].
      intros e. unfold console_error, Alert_alert. untouched_steps. }
  split.
  { split.
    - unfold SettingsScreen.loadStats. apply tryCatch_resolves.
      intros e P' w'. eexists. reflexivity.
    - eapply (respects_tryCatch untouched untouched_trans);
        [ | | apply surjective_pairing ].
      + apply (respects_bind untouched untouched_trans); [exact Hall|].
        intros rs. apply (respects_ret untouched untouched_refl).
      + intros e. unfold console_error. untouched_steps. }
  split.
  - intros e w1 H. split.
    + unfold EditReminderScreen.loadReminder, tryCatch, bind. rewrite H.
      reflexivity.
    + unfold ReminderDetailsScreen.loadReminder, tryCatch. rewrite H.
      reflexivity.
  - intros e w1 H.
    unfold SettingsScreen.loadStats, tryCatch, bind. rewrite H. reflexivity.
Qed.

Lemma screen_loaders_never_write_witness :
  fst (EditReminderScreen.loadReminder "r1" EditReminderScreen.initial
         Scenario.failing (Scenario.world [Scenario.r1]))
  = Resolved EditReminderScreen.initial /\
  fst (ReminderDetailsScreen.loadReminder "r1"
         (Some (DatabaseService.ofRow Scenario.r1))
         Scenario.failing (Scenario.world [Scenario.r1]))
  = Resolved (Some (DatabaseService.ofRow Scenario.r1)).
Proof.
  destruct (screen_loaders_never_write Scenario.failing
              (Scenario.world [Scenario.r1]) "r1" EditReminderScreen.initial
              (Some (DatabaseService.ofRow Scenario.r1)) (0%nat, 0%nat))
    as (_ & _ & _ & H & _).
  apply (H (mkError "rejected") (tick Scenario.failing
                                   (Scenario.world [Scenario.r1]))).
  reflexivity.
Defined.

Lemma geofencingTask_acts_on_enter_events_only_witness :
  untouched (Scenario.world [Scenario.r1])
    (snd (LocationServiceSetup.geofencingTask None LocationServiceSetup.Exit
            "r1" Scenario.host (Scenario.world [Scenario.r1]))).
Proof.
  destruct (geofencingTask_acts_on_enter_events_only Scenario.host
              (Scenario.world [Scenario.r1]) None LocationServiceSetup.Exit
              "r1") as (_ & _ & H).
  apply H. right. reflexivity.
Defined.

(** ** The store and the rest of the application *)

Lemma exec_some :
  forall s t t', exec s t = Resolved t' -> exists table, t' = Some table.
Proof.
  intros s t t' H.
  destruct s as [|params|fields params|key]; destruct t as [t|];
    cbn [exec] in H; try discriminate H.
  - inversion H. eexists. reflexivity.
  - inversion H. eexists. reflexivity.
  - destruct (SQLite.insert params t); simpl in H; [|discriminate H].
    inversion H. eexists. reflexivity.
  - destruct (SQLite.update fields params t); simpl in H; [|discriminate H].
    inversion H. eexists. reflexivity.
  - inversion H. eexists. reflexivity.
Qed.

(** X29. The store keeps to itself: no series of store operations,
    whatever the platform does, presents a notification, changes the
    monitored regions or changes whether location services are enabled. *)
Theorem store_leaves_geofencing_and_notifications_alone :
  forall (P : Platform) (ops : list StoreOperation) (w : World),
    presented (journal (performAll ops P w)) = presented (journal w) /\
    monitored (performAll ops P w) = monitored w /\
    isLocationServicesEnabled (performAll ops P w)
    = isLocationServicesEnabled w.
Proof.
  intros P ops w.
  set (R := fun a b : World =>
              presented (journal b) = presented (journal a) /\
              monitored b = monitored a /\
              isLocationServicesEnabled b = isLocationServicesEnabled a).
  assert (Hrefl : forall a, R a a) by (intros a; repeat split).
  assert (Htrans : forall a b c, R a b -> R b c -> R a c).
  { intros a b c (H1 & H2 & H3) (K1 & K2 & K3).
    unfold R. repeat split; congruence. }
  assert (Hstore : forall op, True -> respects R (perform op)).
  { intros op _. apply (perform_respects R Hrefl Htrans).
    - intros P' a. repeat split.
    - intros entry a. unfold R. simpl. rewrite presented_app. simpl.
      rewrite app_nil_r. repeat split.
    - intros s a. unfold R. simpl. rewrite presented_app. simpl.
      rewrite app_nil_r. repeat split.
    - intros a. repeat split.
    - intros s _ a t' _. repeat split. }
  pose proof (performAll_respects R (fun _ => True) Hrefl Htrans Hstore
                P ops w (fun _ _ => I)) as H.
  exact H.
Qed.

(** X30. Once the database is open and the table is there, they stay: no
    series of store operations, whatever the platform does, closes the
    database or drops the table.  After a successful [initialize] the
    operations of the store therefore never again reject with 'Database not
    initialized'. *)
Theorem store_stays_open :
  forall (P : Platform) (ops : list StoreOperation) (w : World)
         (t : SQLite.Table),
    db w = true ->
    reminders w = Some t ->
    db (performAll ops P w) = true /\
    exists t', reminders (performAll ops P w) = Some t'.
Proof.
  intros P ops w t Hdb Ht.
  set (R := fun a b : World =>
              (db a = true -> db b = true) /\
              ((exists x, reminders a = Some x) ->
               exists x, reminders b = Some x)).
  assert (Hrefl : forall a, R a a) by (intros a; split; auto).
  assert (Htrans : forall a b c, R a b -> R b c -> R a c).
  { intros a b c [H1 H2] [K1 K2]. split; auto. }
  assert (Hstore : forall op, True -> respects R (perform op)).
  { intros op _. apply (perform_respects R Hrefl Htrans).
    - intros P' a. split; auto.
    - intros entry a. split; auto.
    - intros s a. split; auto.
    - intros a. split; auto.
    - intros s _ a t' Hexec. split; [auto|]. intros _.
      apply (exec_some _ _ _ Hexec). }
  destruct (performAll_respects R (fun _ => True) Hrefl Htrans Hstore
              P ops w (fun _ _ => I)) as [H1 H2].
  split; [apply H1; exact Hdb | apply H2; exists t; exact Ht].
Qed.

Lemma store_stays_open_witness :
  db (performAll [DeleteReminder "r1"; Initialize; AddReminder Scenario.fields]
        Scenario.failing (Scenario.world [Scenario.r1])) = true /\
  exists t',
    reminders
      (performAll [DeleteReminder "r1"; Initialize; AddReminder Scenario.fields]
         Scenario.failing (Scenario.world [Scenario.r1])) = Some t'.
Proof.
  apply (store_stays_open Scenario.failing _ (Scenario.world [Scenario.r1])
           [Scenario.r1]); reflexivity.
Defined.
